(** * mbnsc: reassembly, protocol extraction, direction and aggregation

    A shallow embedding of the decode pipeline of the capture tool:
    [stream_reassembler.go] (per-flow TCP buffering and its cleanup), the
    packet parser (TLS detection, SNI extraction, DNS answers, direction),
    the data store (per-remote-IP statistics and the DNS correlation
    cache), the loop of [main] that joins them, and the byte-order helpers
    of the process monitor.

    Conventions.
    - A Go [[]byte] is a [list byte]; [nil] and the empty slice are both
      [[]] (the code only ever asks for [len]).
    - A Go [int], [int64], [uint16] or [uint32] is a [Z]; where the code can
      wrap around, the wrap is written out ([uint32], [int64]).
    - A Go [map] is a [gmap]; the pointers stored in the maps are followed
      by re-inserting the updated record.
    - [time.Time] values are instants numbered by [Z], a [time.Duration]
      is their difference, in nanoseconds.
    - Values that come from gopacket (layers, port and address renderings)
      are fields of the [Packet] record. *)

From Stdlib Require Import ZArith Lia List Bool.
From Stdlib Require Import Strings.String Strings.Ascii Strings.Byte DecimalString.
From stdpp Require Import base option list gmap strings fin_maps.

Local Open Scope Z_scope.

(** ** Bytes and slices *)

Definition byteVal (b : byte) : Z := Z.of_N (Byte.to_N b).

Definition len {A} (s : list A) : Z := Z.of_nat (length s).

(** [s[i]] for an index the surrounding code has already checked. *)
Definition byteAt (s : list byte) (i : Z) : Z :=
  match s !! Z.to_nat i with
  | Some b => byteVal b
  | None => 0
  end.

(** [int(hi)<<8 | int(lo)] *)
Definition be16 (hi lo : Z) : Z := Z.lor (Z.shiftl hi 8) lo.

Definition uint32 (z : Z) : Z := z mod 2 ^ 32.

(** ** packet.go: FlowKey *)

Record FlowKey := mkFlowKey {
  fk_SrcIP : string;
  fk_DstIP : string;
  fk_SrcPort : string;
  fk_DstPort : string;
  fk_Proto : string
}.

Definition zeroFlowKey : FlowKey := mkFlowKey EmptyString EmptyString EmptyString EmptyString EmptyString.

#[global] Instance FlowKey_eq_dec : EqDecision FlowKey.
Proof. solve_decision. Defined.

#[global] Instance FlowKey_countable : Countable FlowKey.
Proof.
  refine (inj_countable'
    (fun k => (fk_SrcIP k, fk_DstIP k, fk_SrcPort k, fk_DstPort k, fk_Proto k))
    (fun t => match t with (a, b, c, d, e) => mkFlowKey a b c d e end) _).
  by intros [].
Defined.

(** ** The captured packet, as the code reads it through gopacket

    A packet is what its accessors return, each taken on its own; the
    record allows every combination of them.  What gopacket's decoder
    guarantees about a combination is stated where a property rests on it
    ([decodedDNS] for the DNS layer). *)

Record TCP := mkTCP {
  tcp_SrcPort : string;        (* tcp.SrcPort.String() *)
  tcp_DstPort : string;        (* tcp.DstPort.String() *)
  tcp_Seq : Z;                 (* uint32 *)
  tcp_Ack : Z;                 (* uint32 *)
  tcp_SYN : bool;
  tcp_ACK : bool;
  tcp_FIN : bool;
  tcp_RST : bool;
  tcp_PSH : bool;
  tcp_URG : bool;
  tcp_Payload : list byte
}.

Record UDP := mkUDP {
  udp_SrcPort : string;        (* udp.SrcPort.String() *)
  udp_DstPort : string;        (* udp.DstPort.String() *)
  udp_Payload : list byte
}.

Record AppLayer := mkAppLayer {
  app_LayerType : string;      (* appLayer.LayerType().String() *)
  app_Payload : list byte      (* appLayer.Payload() *)
}.

Inductive DNSType := DNSTypeA | DNSTypeAAAA | DNSTypeOther (code : Z).

Record DNSQuestion := mkDNSQuestion {
  q_Name : string
}.

Record DNSResourceRecord := mkDNSResourceRecord {
  rr_Type : DNSType;
  rr_IP : option string        (* answer.IP, rendered by IP.String(); None is nil *)
}.

Record DNS := mkDNS {
  dns_QR : bool;
  dns_Questions : list DNSQuestion;
  dns_Answers : list DNSResourceRecord
}.

Record Packet := mkPacket {
  pkt_Timestamp : Z;                          (* Metadata().Timestamp *)
  pkt_Length : Z;                             (* Metadata().Length *)
  pkt_Data : list byte;                       (* Data() *)
  pkt_NetworkLayer : option (string * string);(* NetworkFlow().Endpoints(), rendered *)
  pkt_TCP : option TCP;                       (* Layer(LayerTypeTCP) *)
  pkt_UDP : option UDP;                       (* Layer(LayerTypeUDP) *)
  pkt_ApplicationLayer : option AppLayer;     (* ApplicationLayer() *)
  pkt_DNS : option DNS                        (* Layer(LayerTypeDNS) *)
}.

(** ** stream_reassembler.go *)

Definition MaxBufferSize : Z := 65535.

(** [time.Second], a [time.Duration]: durations count nanoseconds. *)
Definition Second : Z := 1000000000.

Definition StreamTimeout : Z := 3 * Second.
Definition CleanupInterval : Z := 1 * Second.

Record StreamBuffer := mkStreamBuffer {
  sb_Buffer : list byte;
  sb_LastActivity : Z;
  sb_NextSeq : Z;              (* uint32 *)
  sb_Initialized : bool
}.

(** The [streams] map of a [StreamReassembler]. *)
Abbreviation Streams := (gmap FlowKey StreamBuffer).

Definition NewStreamReassembler : Streams := ∅.

(** [cleanupExpiredStreams], with [now] the instant read by [time.Now()]. *)
Definition cleanupExpiredStreams (now : Z) (sr : Streams) : Streams :=
  filter (fun kv => negb (now - sb_LastActivity kv.2 >? StreamTimeout) = true) sr.

Definition peekTLSRecord (buffer : list byte) : bool * list byte :=
  if len buffer <? 5 then (false, [])
  else if negb (byteAt buffer 0 =? 22) then (true, buffer)
  else
    let recordLen := be16 (byteAt buffer 3) (byteAt buffer 4) in
    let totalLen := 5 + recordLen in
    if len buffer >=? totalLen then (true, take (Z.to_nat totalLen) buffer)
    else (false, []).

(** The buffer entry [ProcessPacket] works on when the flow has none. *)
Definition newStreamBuffer (now : Z) : StreamBuffer :=
  mkStreamBuffer [] now 0 false.

(** Lines 132-161 of [ProcessPacket]: what one payload-bearing segment does
    to the flow's buffer entry. *)
Definition updateStream (now : Z) (tcp : TCP) (stream : StreamBuffer) : StreamBuffer :=
  let payload := tcp_Payload tcp in
  let next := uint32 (tcp_Seq tcp + uint32 (len payload)) in
  if negb (sb_Initialized stream) then
    mkStreamBuffer (sb_Buffer stream ++ payload) now next true
  else if tcp_Seq tcp =? sb_NextSeq stream then
    if len (sb_Buffer stream) + len payload <=? MaxBufferSize then
      mkStreamBuffer (sb_Buffer stream ++ payload) now next (sb_Initialized stream)
    else
      mkStreamBuffer ([] ++ payload) now next (sb_Initialized stream)
  else if tcp_Seq tcp >? sb_NextSeq stream then
    mkStreamBuffer ([] ++ payload) now next (sb_Initialized stream)
  else
    mkStreamBuffer (sb_Buffer stream) now (sb_NextSeq stream) (sb_Initialized stream).

Definition packetFlowKey (packet : Packet) (tcp : TCP) : FlowKey :=
  let '(srcIP, dstIP) :=
    match pkt_NetworkLayer packet with
    | Some (src, dst) => (src, dst)
    | None => (EmptyString, EmptyString)
    end in
  mkFlowKey srcIP dstIP (tcp_SrcPort tcp) (tcp_DstPort tcp) "TCP".

(** The entry for the flow after lines 119-161: found or created, then
    updated with the segment. *)
Definition touchedStream (now : Z) (tcp : TCP) (flowKey : FlowKey) (sr : Streams)
  : StreamBuffer :=
  updateStream now tcp (default (newStreamBuffer now) (sr !! flowKey)).

(** [ProcessPacket]: the reassembler after the call, and the triple
    (payload, ready, flow key) it returns. *)
Definition ProcessPacket (now : Z) (packet : Packet) (sr : Streams)
  : Streams * (list byte * bool * FlowKey) :=
  match pkt_TCP packet with
  | None =>
      match pkt_ApplicationLayer packet with
      | Some appLayer => (sr, (app_Payload appLayer, true, zeroFlowKey))
      | None => (sr, ([], false, zeroFlowKey))
      end
  | Some tcp =>
      let flowKey := packetFlowKey packet tcp in
      if len (tcp_Payload tcp) =? 0 then (sr, ([], false, flowKey))
      else
        let stream := touchedStream now tcp flowKey sr in
        let sr1 := <[flowKey := stream]> sr in
        let '(ready, completeData) := peekTLSRecord (sb_Buffer stream) in
        if ready then (delete flowKey sr1, (completeData, true, flowKey))
        else (sr1, ([], false, flowKey))
  end.

(** ** packet.go: PacketInfo *)

Record PacketInfo := mkPacketInfo {
  Timestamp : Z;
  Length : Z;
  SrcIP : string;
  DstIP : string;
  Protocol : string;
  SrcPort : string;
  DstPort : string;
  TCPFlags : string;
  SequenceNum : Z;
  AckNum : Z;
  AppProtocol : string;
  Payload : list byte;
  IsTLS : bool;
  TLSVersion : string;
  SNI : string;
  CipherSuite : string;
  IsDNS : bool;
  DNSQueryName : string;
  DNSResponseIPs : list string;
  Direction : string;
  RemoteIP : string;
  LocalPort : string;
  RemotePort : string;
  ProcessName : string;
  ProcessPID : Z;
  RawData : list byte
}.

(** Field assignments [info.F = v]. *)
Definition set_Timestamp (v : Z) (info : PacketInfo) : PacketInfo :=
  mkPacketInfo v (Length info) (SrcIP info) (DstIP info) (Protocol info) (SrcPort info) (DstPort info) (TCPFlags info) (SequenceNum info) (AckNum info) (AppProtocol info) (Payload info) (IsTLS info) (TLSVersion info) (SNI info) (CipherSuite info) (IsDNS info) (DNSQueryName info) (DNSResponseIPs info) (Direction info) (RemoteIP info) (LocalPort info) (RemotePort info) (ProcessName info) (ProcessPID info) (RawData info).

Definition set_Length (v : Z) (info : PacketInfo) : PacketInfo :=
  mkPacketInfo (Timestamp info) v (SrcIP info) (DstIP info) (Protocol info) (SrcPort info) (DstPort info) (TCPFlags info) (SequenceNum info) (AckNum info) (AppProtocol info) (Payload info) (IsTLS info) (TLSVersion info) (SNI info) (CipherSuite info) (IsDNS info) (DNSQueryName info) (DNSResponseIPs info) (Direction info) (RemoteIP info) (LocalPort info) (RemotePort info) (ProcessName info) (ProcessPID info) (RawData info).

Definition set_SrcIP (v : string) (info : PacketInfo) : PacketInfo :=
  mkPacketInfo (Timestamp info) (Length info) v (DstIP info) (Protocol info) (SrcPort info) (DstPort info) (TCPFlags info) (SequenceNum info) (AckNum info) (AppProtocol info) (Payload info) (IsTLS info) (TLSVersion info) (SNI info) (CipherSuite info) (IsDNS info) (DNSQueryName info) (DNSResponseIPs info) (Direction info) (RemoteIP info) (LocalPort info) (RemotePort info) (ProcessName info) (ProcessPID info) (RawData info).

Definition set_DstIP (v : string) (info : PacketInfo) : PacketInfo :=
  mkPacketInfo (Timestamp info) (Length info) (SrcIP info) v (Protocol info) (SrcPort info) (DstPort info) (TCPFlags info) (SequenceNum info) (AckNum info) (AppProtocol info) (Payload info) (IsTLS info) (TLSVersion info) (SNI info) (CipherSuite info) (IsDNS info) (DNSQueryName info) (DNSResponseIPs info) (Direction info) (RemoteIP info) (LocalPort info) (RemotePort info) (ProcessName info) (ProcessPID info) (RawData info).

Definition set_Protocol (v : string) (info : PacketInfo) : PacketInfo :=
  mkPacketInfo (Timestamp info) (Length info) (SrcIP info) (DstIP info) v (SrcPort info) (DstPort info) (TCPFlags info) (SequenceNum info) (AckNum info) (AppProtocol info) (Payload info) (IsTLS info) (TLSVersion info) (SNI info) (CipherSuite info) (IsDNS info) (DNSQueryName info) (DNSResponseIPs info) (Direction info) (RemoteIP info) (LocalPort info) (RemotePort info) (ProcessName info) (ProcessPID info) (RawData info).

Definition set_SrcPort (v : string) (info : PacketInfo) : PacketInfo :=
  mkPacketInfo (Timestamp info) (Length info) (SrcIP info) (DstIP info) (Protocol info) v (DstPort info) (TCPFlags info) (SequenceNum info) (AckNum info) (AppProtocol info) (Payload info) (IsTLS info) (TLSVersion info) (SNI info) (CipherSuite info) (IsDNS info) (DNSQueryName info) (DNSResponseIPs info) (Direction info) (RemoteIP info) (LocalPort info) (RemotePort info) (ProcessName info) (ProcessPID info) (RawData info).

Definition set_DstPort (v : string) (info : PacketInfo) : PacketInfo :=
  mkPacketInfo (Timestamp info) (Length info) (SrcIP info) (DstIP info) (Protocol info) (SrcPort info) v (TCPFlags info) (SequenceNum info) (AckNum info) (AppProtocol info) (Payload info) (IsTLS info) (TLSVersion info) (SNI info) (CipherSuite info) (IsDNS info) (DNSQueryName info) (DNSResponseIPs info) (Direction info) (RemoteIP info) (LocalPort info) (RemotePort info) (ProcessName info) (ProcessPID info) (RawData info).

Definition set_TCPFlags (v : string) (info : PacketInfo) : PacketInfo :=
  mkPacketInfo (Timestamp info) (Length info) (SrcIP info) (DstIP info) (Protocol info) (SrcPort info) (DstPort info) v (SequenceNum info) (AckNum info) (AppProtocol info) (Payload info) (IsTLS info) (TLSVersion info) (SNI info) (CipherSuite info) (IsDNS info) (DNSQueryName info) (DNSResponseIPs info) (Direction info) (RemoteIP info) (LocalPort info) (RemotePort info) (ProcessName info) (ProcessPID info) (RawData info).

Definition set_SequenceNum (v : Z) (info : PacketInfo) : PacketInfo :=
  mkPacketInfo (Timestamp info) (Length info) (SrcIP info) (DstIP info) (Protocol info) (SrcPort info) (DstPort info) (TCPFlags info) v (AckNum info) (AppProtocol info) (Payload info) (IsTLS info) (TLSVersion info) (SNI info) (CipherSuite info) (IsDNS info) (DNSQueryName info) (DNSResponseIPs info) (Direction info) (RemoteIP info) (LocalPort info) (RemotePort info) (ProcessName info) (ProcessPID info) (RawData info).

Definition set_AckNum (v : Z) (info : PacketInfo) : PacketInfo :=
  mkPacketInfo (Timestamp info) (Length info) (SrcIP info) (DstIP info) (Protocol info) (SrcPort info) (DstPort info) (TCPFlags info) (SequenceNum info) v (AppProtocol info) (Payload info) (IsTLS info) (TLSVersion info) (SNI info) (CipherSuite info) (IsDNS info) (DNSQueryName info) (DNSResponseIPs info) (Direction info) (RemoteIP info) (LocalPort info) (RemotePort info) (ProcessName info) (ProcessPID info) (RawData info).

Definition set_AppProtocol (v : string) (info : PacketInfo) : PacketInfo :=
  mkPacketInfo (Timestamp info) (Length info) (SrcIP info) (DstIP info) (Protocol info) (SrcPort info) (DstPort info) (TCPFlags info) (SequenceNum info) (AckNum info) v (Payload info) (IsTLS info) (TLSVersion info) (SNI info) (CipherSuite info) (IsDNS info) (DNSQueryName info) (DNSResponseIPs info) (Direction info) (RemoteIP info) (LocalPort info) (RemotePort info) (ProcessName info) (ProcessPID info) (RawData info).

Definition set_Payload (v : list byte) (info : PacketInfo) : PacketInfo :=
  mkPacketInfo (Timestamp info) (Length info) (SrcIP info) (DstIP info) (Protocol info) (SrcPort info) (DstPort info) (TCPFlags info) (SequenceNum info) (AckNum info) (AppProtocol info) v (IsTLS info) (TLSVersion info) (SNI info) (CipherSuite info) (IsDNS info) (DNSQueryName info) (DNSResponseIPs info) (Direction info) (RemoteIP info) (LocalPort info) (RemotePort info) (ProcessName info) (ProcessPID info) (RawData info).

Definition set_IsTLS (v : bool) (info : PacketInfo) : PacketInfo :=
  mkPacketInfo (Timestamp info) (Length info) (SrcIP info) (DstIP info) (Protocol info) (SrcPort info) (DstPort info) (TCPFlags info) (SequenceNum info) (AckNum info) (AppProtocol info) (Payload info) v (TLSVersion info) (SNI info) (CipherSuite info) (IsDNS info) (DNSQueryName info) (DNSResponseIPs info) (Direction info) (RemoteIP info) (LocalPort info) (RemotePort info) (ProcessName info) (ProcessPID info) (RawData info).

Definition set_TLSVersion (v : string) (info : PacketInfo) : PacketInfo :=
  mkPacketInfo (Timestamp info) (Length info) (SrcIP info) (DstIP info) (Protocol info) (SrcPort info) (DstPort info) (TCPFlags info) (SequenceNum info) (AckNum info) (AppProtocol info) (Payload info) (IsTLS info) v (SNI info) (CipherSuite info) (IsDNS info) (DNSQueryName info) (DNSResponseIPs info) (Direction info) (RemoteIP info) (LocalPort info) (RemotePort info) (ProcessName info) (ProcessPID info) (RawData info).

Definition set_SNI (v : string) (info : PacketInfo) : PacketInfo :=
  mkPacketInfo (Timestamp info) (Length info) (SrcIP info) (DstIP info) (Protocol info) (SrcPort info) (DstPort info) (TCPFlags info) (SequenceNum info) (AckNum info) (AppProtocol info) (Payload info) (IsTLS info) (TLSVersion info) v (CipherSuite info) (IsDNS info) (DNSQueryName info) (DNSResponseIPs info) (Direction info) (RemoteIP info) (LocalPort info) (RemotePort info) (ProcessName info) (ProcessPID info) (RawData info).

Definition set_IsDNS (v : bool) (info : PacketInfo) : PacketInfo :=
  mkPacketInfo (Timestamp info) (Length info) (SrcIP info) (DstIP info) (Protocol info) (SrcPort info) (DstPort info) (TCPFlags info) (SequenceNum info) (AckNum info) (AppProtocol info) (Payload info) (IsTLS info) (TLSVersion info) (SNI info) (CipherSuite info) v (DNSQueryName info) (DNSResponseIPs info) (Direction info) (RemoteIP info) (LocalPort info) (RemotePort info) (ProcessName info) (ProcessPID info) (RawData info).

Definition set_DNSQueryName (v : string) (info : PacketInfo) : PacketInfo :=
  mkPacketInfo (Timestamp info) (Length info) (SrcIP info) (DstIP info) (Protocol info) (SrcPort info) (DstPort info) (TCPFlags info) (SequenceNum info) (AckNum info) (AppProtocol info) (Payload info) (IsTLS info) (TLSVersion info) (SNI info) (CipherSuite info) (IsDNS info) v (DNSResponseIPs info) (Direction info) (RemoteIP info) (LocalPort info) (RemotePort info) (ProcessName info) (ProcessPID info) (RawData info).

Definition set_DNSResponseIPs (v : list string) (info : PacketInfo) : PacketInfo :=
  mkPacketInfo (Timestamp info) (Length info) (SrcIP info) (DstIP info) (Protocol info) (SrcPort info) (DstPort info) (TCPFlags info) (SequenceNum info) (AckNum info) (AppProtocol info) (Payload info) (IsTLS info) (TLSVersion info) (SNI info) (CipherSuite info) (IsDNS info) (DNSQueryName info) v (Direction info) (RemoteIP info) (LocalPort info) (RemotePort info) (ProcessName info) (ProcessPID info) (RawData info).

Definition set_Direction (v : string) (info : PacketInfo) : PacketInfo :=
  mkPacketInfo (Timestamp info) (Length info) (SrcIP info) (DstIP info) (Protocol info) (SrcPort info) (DstPort info) (TCPFlags info) (SequenceNum info) (AckNum info) (AppProtocol info) (Payload info) (IsTLS info) (TLSVersion info) (SNI info) (CipherSuite info) (IsDNS info) (DNSQueryName info) (DNSResponseIPs info) v (RemoteIP info) (LocalPort info) (RemotePort info) (ProcessName info) (ProcessPID info) (RawData info).

Definition set_RemoteIP (v : string) (info : PacketInfo) : PacketInfo :=
  mkPacketInfo (Timestamp info) (Length info) (SrcIP info) (DstIP info) (Protocol info) (SrcPort info) (DstPort info) (TCPFlags info) (SequenceNum info) (AckNum info) (AppProtocol info) (Payload info) (IsTLS info) (TLSVersion info) (SNI info) (CipherSuite info) (IsDNS info) (DNSQueryName info) (DNSResponseIPs info) (Direction info) v (LocalPort info) (RemotePort info) (ProcessName info) (ProcessPID info) (RawData info).

Definition set_LocalPort (v : string) (info : PacketInfo) : PacketInfo :=
  mkPacketInfo (Timestamp info) (Length info) (SrcIP info) (DstIP info) (Protocol info) (SrcPort info) (DstPort info) (TCPFlags info) (SequenceNum info) (AckNum info) (AppProtocol info) (Payload info) (IsTLS info) (TLSVersion info) (SNI info) (CipherSuite info) (IsDNS info) (DNSQueryName info) (DNSResponseIPs info) (Direction info) (RemoteIP info) v (RemotePort info) (ProcessName info) (ProcessPID info) (RawData info).

Definition set_RemotePort (v : string) (info : PacketInfo) : PacketInfo :=
  mkPacketInfo (Timestamp info) (Length info) (SrcIP info) (DstIP info) (Protocol info) (SrcPort info) (DstPort info) (TCPFlags info) (SequenceNum info) (AckNum info) (AppProtocol info) (Payload info) (IsTLS info) (TLSVersion info) (SNI info) (CipherSuite info) (IsDNS info) (DNSQueryName info) (DNSResponseIPs info) (Direction info) (RemoteIP info) (LocalPort info) v (ProcessName info) (ProcessPID info) (RawData info).

Definition set_ProcessName (v : string) (info : PacketInfo) : PacketInfo :=
  mkPacketInfo (Timestamp info) (Length info) (SrcIP info) (DstIP info) (Protocol info) (SrcPort info) (DstPort info) (TCPFlags info) (SequenceNum info) (AckNum info) (AppProtocol info) (Payload info) (IsTLS info) (TLSVersion info) (SNI info) (CipherSuite info) (IsDNS info) (DNSQueryName info) (DNSResponseIPs info) (Direction info) (RemoteIP info) (LocalPort info) (RemotePort info) v (ProcessPID info) (RawData info).

Definition set_ProcessPID (v : Z) (info : PacketInfo) : PacketInfo :=
  mkPacketInfo (Timestamp info) (Length info) (SrcIP info) (DstIP info) (Protocol info) (SrcPort info) (DstPort info) (TCPFlags info) (SequenceNum info) (AckNum info) (AppProtocol info) (Payload info) (IsTLS info) (TLSVersion info) (SNI info) (CipherSuite info) (IsDNS info) (DNSQueryName info) (DNSResponseIPs info) (Direction info) (RemoteIP info) (LocalPort info) (RemotePort info) (ProcessName info) v (RawData info).

Definition set_RawData (v : list byte) (info : PacketInfo) : PacketInfo :=
  mkPacketInfo (Timestamp info) (Length info) (SrcIP info) (DstIP info) (Protocol info) (SrcPort info) (DstPort info) (TCPFlags info) (SequenceNum info) (AckNum info) (AppProtocol info) (Payload info) (IsTLS info) (TLSVersion info) (SNI info) (CipherSuite info) (IsDNS info) (DNSQueryName info) (DNSResponseIPs info) (Direction info) (RemoteIP info) (LocalPort info) (RemotePort info) (ProcessName info) (ProcessPID info) v.

(** ** The parser: partial operations

    An index or slice expression that is out of range stops a Go program
    with a run-time panic.  The byte-walking functions of the parser return
    a [result]: [Ok v], [Panic] for such a stop, or [OutOfFuel] when the
    bound given to a loop is used up. *)

Inductive result (A : Type) : Type :=
  | Ok (a : A)
  | Panic
  | OutOfFuel.

Arguments Ok {A} a.
Arguments Panic {A}.
Arguments OutOfFuel {A}.

Definition bind {A B} (r : result A) (k : A -> result B) : result B :=
  match r with
  | Ok a => k a
  | Panic => Panic
  | OutOfFuel => OutOfFuel
  end.

Notation "x <~ r ;; k" := (bind r (fun x => k))
  (at level 100, r at next level, k at level 200, right associativity).

(** [s[i]] *)
Definition index (s : list byte) (i : Z) : result Z :=
  if (0 <=? i) && (i <? len s) then Ok (byteAt s i) else Panic.

(** [s[lo:hi]]; the slices the parser takes are of data whose capacity is
    not known, so anything past [len s] counts as out of range. *)
Definition slice (s : list byte) (lo hi : Z) : result (list byte) :=
  if (0 <=? lo) && (lo <=? hi) && (hi <=? len s)
  then Ok (take (Z.to_nat (hi - lo)) (drop (Z.to_nat lo) s))
  else Panic.

(** ** The parser: TLS *)

Definition isTLSHandshake (payload : list byte) : bool :=
  if len payload <? 6 then false
  else if negb (byteAt payload 0 =? 22) then false
  else
    let version := be16 (byteAt payload 1) (byteAt payload 2) in
    if (version <? 769) || (version >? 772) then false
    else true.

Definition hexDigit (d : Z) : string :=
  String.substring (Z.to_nat d) 1 "0123456789abcdef".

(** [fmt.Sprintf("%04x", v)] for a [uint16]. *)
Definition hex04 (v : Z) : string :=
  hexDigit (v / 4096 mod 16) ++ hexDigit (v / 256 mod 16) ++
  hexDigit (v / 16 mod 16) ++ hexDigit (v mod 16).

Definition getTLSVersionString (version : Z) : string :=
  if version =? 769 then "TLS 1.0"
  else if version =? 770 then "TLS 1.1"
  else if version =? 771 then "TLS 1.2"
  else if version =? 772 then "TLS 1.3"
  else "Unknown (0x" ++ hex04 version ++ ")".

(** The loop of [parseSNIExtension] over the server-name entries. *)
Fixpoint parseSNIExtension_loop (fuel : nat) (data : list byte) (pos : Z)
  : result string :=
  match fuel with
  | O => OutOfFuel
  | S fuel =>
      if pos + 3 <=? len data then
        nameType <~ index data pos ;;
        let pos := pos + 1 in
        hi <~ index data pos ;;
        lo <~ index data (pos + 1) ;;
        let nameLen := be16 hi lo in
        let pos := pos + 2 in
        if pos + nameLen >? len data then Ok EmptyString
        else if nameType =? 0 then
          name <~ slice data pos (pos + nameLen) ;;
          Ok (string_of_list_byte name)
        else parseSNIExtension_loop fuel data (pos + nameLen)
      else Ok EmptyString
  end.

Definition parseSNIExtension (data : list byte) : result string :=
  if len data <? 2 then Ok EmptyString
  else
    hi <~ index data 0 ;;
    lo <~ index data 1 ;;
    let listLen := be16 hi lo in
    if len data <? 2 + listLen then Ok EmptyString
    else parseSNIExtension_loop (S (length data)) data 2.

(** The loop of [extractSNI] over the extensions. *)
Fixpoint extractSNI_loop (fuel : nat) (payload : list byte)
    (extensionsEnd pos : Z) : result string :=
  match fuel with
  | O => OutOfFuel
  | S fuel =>
      if pos + 4 <=? extensionsEnd then
        t1 <~ index payload pos ;;
        t0 <~ index payload (pos + 1) ;;
        let extType := be16 t1 t0 in
        let pos := pos + 2 in
        l1 <~ index payload pos ;;
        l0 <~ index payload (pos + 1) ;;
        let extLen := be16 l1 l0 in
        let pos := pos + 2 in
        if pos + extLen >? len payload then Ok EmptyString
        else if extType =? 0 then
          data <~ slice payload pos (pos + extLen) ;;
          parseSNIExtension data
        else extractSNI_loop fuel payload extensionsEnd (pos + extLen)
      else Ok EmptyString
  end.

Definition extractSNI (payload : list byte) : result string :=
  if len payload <? 6 then Ok EmptyString else
  c <~ index payload 0 ;;
  if negb (c =? 22) then Ok EmptyString else
  r1 <~ index payload 3 ;;
  r0 <~ index payload 4 ;;
  let recordLen := be16 r1 r0 in
  if len payload <? 5 + recordLen then Ok EmptyString else
  let pos := 5 in
  if pos >=? len payload then Ok EmptyString else
  handshakeType <~ index payload pos ;;
  if negb (handshakeType =? 1) then Ok EmptyString else
  let pos := pos + 1 in
  if pos + 3 >? len payload then Ok EmptyString else
  let pos := pos + 3 in
  if pos + 2 >? len payload then Ok EmptyString else
  let pos := pos + 2 in
  if pos + 32 >? len payload then Ok EmptyString else
  let pos := pos + 32 in
  if pos >=? len payload then Ok EmptyString else
  sessionIDLen <~ index payload pos ;;
  let pos := pos + 1 in
  if pos + sessionIDLen >? len payload then Ok EmptyString else
  let pos := pos + sessionIDLen in
  if pos + 2 >? len payload then Ok EmptyString else
  c1 <~ index payload pos ;;
  c0 <~ index payload (pos + 1) ;;
  let cipherSuitesLen := be16 c1 c0 in
  let pos := pos + 2 in
  if pos + cipherSuitesLen >? len payload then Ok EmptyString else
  let pos := pos + cipherSuitesLen in
  if pos >=? len payload then Ok EmptyString else
  compressionMethodsLen <~ index payload pos ;;
  let pos := pos + 1 in
  if pos + compressionMethodsLen >? len payload then Ok EmptyString else
  let pos := pos + compressionMethodsLen in
  if pos + 2 >? len payload then Ok EmptyString else
  e1 <~ index payload pos ;;
  e0 <~ index payload (pos + 1) ;;
  let extensionsLen := be16 e1 e0 in
  let pos := pos + 2 in
  if pos + extensionsLen >? len payload then Ok EmptyString else
  let extensionsEnd := pos + extensionsLen in
  extractSNI_loop (S (length payload)) payload extensionsEnd pos.

Definition parseTLS (info : PacketInfo) : result PacketInfo :=
  let payload := Payload info in
  if negb (isTLSHandshake payload) then Ok info
  else
    let info := set_IsTLS true info in
    let info :=
      if len payload >=? 3 then
        let version := be16 (byteAt payload 1) (byteAt payload 2) in
        set_TLSVersion (getTLSVersionString version) info
      else info in
    sni <~ extractSNI payload ;;
    if negb (String.eqb sni EmptyString) then Ok (set_SNI sni info) else Ok info.

(** ** The parser: layers *)

Definition parseNetworkLayer (packet : Packet) (info : PacketInfo) : PacketInfo :=
  match pkt_NetworkLayer packet with
  | Some (src, dst) => set_DstIP dst (set_SrcIP src info)
  | None => info
  end.

Definition tcpFlagNames (tcp : TCP) : list string :=
  (if tcp_SYN tcp then ["SYN"%string] else []) ++
  (if tcp_ACK tcp then ["ACK"%string] else []) ++
  (if tcp_FIN tcp then ["FIN"%string] else []) ++
  (if tcp_RST tcp then ["RST"%string] else []) ++
  (if tcp_PSH tcp then ["PSH"%string] else []) ++
  (if tcp_URG tcp then ["URG"%string] else []).

Definition parseTransportLayer (packet : Packet) (info : PacketInfo) : PacketInfo :=
  match pkt_TCP packet with
  | Some tcp =>
      let info := set_Protocol "TCP" info in
      let info := set_SrcPort (tcp_SrcPort tcp) info in
      let info := set_DstPort (tcp_DstPort tcp) info in
      let info := set_SequenceNum (tcp_Seq tcp) info in
      let info := set_AckNum (tcp_Ack tcp) info in
      let info := set_TCPFlags (String.concat "," (tcpFlagNames tcp)) info in
      set_Payload (tcp_Payload tcp) info
  | None =>
      match pkt_UDP packet with
      | Some udp =>
          let info := set_Protocol "UDP" info in
          let info := set_SrcPort (udp_SrcPort udp) info in
          let info := set_DstPort (udp_DstPort udp) info in
          set_Payload (udp_Payload udp) info
      | None => info
      end
  end.

(** ** The parser: DNS *)

(** The loop of [parseDNS] over [dns.Answers]. *)
Definition dnsAnswerIPs (answers : list DNSResourceRecord) : list string :=
  fold_left
    (fun ips answer =>
       match rr_Type answer with
       | DNSTypeA =>
           match rr_IP answer with Some ip => ips ++ [ip] | None => ips end
       | DNSTypeAAAA =>
           match rr_IP answer with Some ip => ips ++ [ip] | None => ips end
       | DNSTypeOther _ => ips
       end)
    answers [].

Definition parseDNS (packet : Packet) (info : PacketInfo) : PacketInfo :=
  match pkt_DNS packet with
  | None => info
  | Some dns =>
      let info := set_IsDNS true info in
      if negb (dns_QR dns) then info
      else
        let info :=
          match dns_Questions dns with
          | q :: _ => set_DNSQueryName (q_Name q) info
          | [] => info
          end in
        set_DNSResponseIPs (dnsAnswerIPs (dns_Answers dns)) info
  end.

Definition parseApplicationLayer (packet : Packet) (info : PacketInfo)
  : result PacketInfo :=
  let info :=
    match pkt_ApplicationLayer packet with
    | Some appLayer => set_AppProtocol (app_LayerType appLayer) info
    | None => info
    end in
  if len (Payload info) >? 0 then
    info <~ parseTLS info ;;
    if String.eqb (Protocol info) "UDP" &&
       (String.eqb (SrcPort info) "53(domain)" || String.eqb (DstPort info) "53(domain)")
    then Ok (parseDNS packet info)
    else Ok info
  else Ok info.

Definition parseApplicationLayerWithPayload (info : PacketInfo) : result PacketInfo :=
  if len (Payload info) >? 0 then parseTLS info else Ok info.

(** ** The parser: direction *)

(** [strings.Split(s, ".")] *)
Fixpoint splitDot (s : string) : list string :=
  match s with
  | EmptyString => [EmptyString]
  | String c rest =>
      if Ascii.eqb c "." then EmptyString :: splitDot rest
      else
        match splitDot rest with
        | part :: parts => String c part :: parts
        | [] => [String c EmptyString]
        end
  end.

Definition isDigit (c : ascii) : bool :=
  let n := Z.of_N (N_of_ascii c) in (48 <=? n) && (n <=? 57).

(** The value of the longest run of decimal digits at the head of [s],
    after the digits already read as [acc]; [None] when there is none. *)
Fixpoint scanDigits (s : string) (acc : option Z) : option Z :=
  match s with
  | String c rest =>
      if isDigit c
      then scanDigits rest (Some (10 * default 0 acc + (Z.of_N (N_of_ascii c) - 48)))
      else acc
  | EmptyString => acc
  end.

(** The bytes of a rune of three bytes that [fmt] counts as white space:
    U+1680, U+2000 to U+200A, U+2028, U+2029, U+202F, U+205F, U+3000. *)
Definition isSpace3 (b0 b1 b2 : Z) : bool :=
  ((b0 =? 225) && (b1 =? 154) && (b2 =? 128)) ||
  ((b0 =? 226) && (b1 =? 128) &&
   (((128 <=? b2) && (b2 <=? 138)) || (b2 =? 168) || (b2 =? 169) || (b2 =? 175))) ||
  ((b0 =? 226) && (b1 =? 129) && (b2 =? 159)) ||
  ((b0 =? 227) && (b1 =? 128) && (b2 =? 128)).

(** [SkipSpace] of the scanner behind [fmt.Sscanf]: what is left of [s]
    after the white space at its head, [None] when a newline is met there
    (the scan then stops with an error).  White space is what [fmt] counts
    as such, read as UTF-8: U+0009 to U+000D, U+0020, U+0085, U+00A0 and
    the runes of [isSpace3]. *)
Fixpoint SkipSpace (s : string) : option string :=
  match s with
  | EmptyString => Some s
  | String c rest =>
      let b := Z.of_N (N_of_ascii c) in
      if b =? 10 then None
      else if ((9 <=? b) && (b <=? 13)) || (b =? 32) then SkipSpace rest
      else
        match rest with
        | EmptyString => Some s
        | String c1 rest1 =>
            let b1 := Z.of_N (N_of_ascii c1) in
            if (b =? 194) && ((b1 =? 133) || (b1 =? 160)) then SkipSpace rest1
            else
              match rest1 with
              | EmptyString => Some s
              | String c2 rest2 =>
                  if isSpace3 b b1 (Z.of_N (N_of_ascii c2)) then SkipSpace rest2
                  else Some s
              end
        end
  end.

(** [var n int; fmt.Sscanf(s, "%d", &n)] with the error dropped: white
    space at the head is passed over, then come an optional sign and
    decimal digits; [n] stays 0 when a newline comes first, when there are
    no digits or when the number does not fit. *)
Definition Sscanf_d (s : string) : Z :=
  match SkipSpace s with
  | None => 0
  | Some s =>
      let '(neg, digits) :=
        match s with
        | String "-" rest => (true, rest)
        | String "+" rest => (false, rest)
        | _ => (false, s)
        end in
      match scanDigits digits None with
      | None => 0
      | Some v =>
          let n := if neg then - v else v in
          if (- 2 ^ 63 <=? n) && (n <? 2 ^ 63) then n else 0
      end
  end.

Definition isLocalIP (ip : string) : bool :=
  if String.prefix "10." ip || String.prefix "192.168." ip ||
     String.prefix "127." ip || String.prefix "169.254." ip
  then true
  else if String.prefix "172." ip then
    let parts := splitDot ip in
    if len parts >=? 2 then
      let secondOctet := Sscanf_d (nth 1 parts EmptyString) in
      if (secondOctet >=? 16) && (secondOctet <=? 31) then true else false
    else false
  else false.

Definition determineDirection (info : PacketInfo) : PacketInfo :=
  let srcIsLocal := isLocalIP (SrcIP info) in
  let dstIsLocal := isLocalIP (DstIP info) in
  if srcIsLocal && negb dstIsLocal then
    set_RemotePort (DstPort info) (set_LocalPort (SrcPort info)
      (set_RemoteIP (DstIP info) (set_Direction "send" info)))
  else if negb srcIsLocal && dstIsLocal then
    set_RemotePort (SrcPort info) (set_LocalPort (DstPort info)
      (set_RemoteIP (SrcIP info) (set_Direction "recv" info)))
  else if negb srcIsLocal && negb dstIsLocal then
    set_RemotePort (DstPort info) (set_LocalPort (SrcPort info)
      (set_RemoteIP (DstIP info) (set_Direction "send" info)))
  else
    set_RemotePort (DstPort info) (set_LocalPort (SrcPort info)
      (set_RemoteIP (DstIP info) (set_Direction "local" info))).

(** ** The parser: Parse *)

Definition zeroPacketInfo : PacketInfo :=
  mkPacketInfo 0 0 EmptyString EmptyString EmptyString EmptyString EmptyString EmptyString 0 0 EmptyString [] false EmptyString EmptyString EmptyString false EmptyString [] EmptyString EmptyString EmptyString EmptyString
    EmptyString 0 [].

(** [Parse]: the reassembler after the call and the decoded packet, [None]
    for the [nil] returned while a flow is still buffering. *)
Definition Parse (now : Z) (packet : Packet) (sr : Streams)
  : Streams * result (option PacketInfo) :=
  let '(sr, (reassembledPayload, ready, flowKey)) := ProcessPacket now packet sr in
  if negb ready then (sr, Ok None)
  else
    let info := set_RawData (pkt_Data packet)
                  (set_Length (pkt_Length packet)
                     (set_Timestamp (pkt_Timestamp packet) zeroPacketInfo)) in
    let info := parseNetworkLayer packet info in
    let info := parseTransportLayer packet info in
    let parsed :=
      if len reassembledPayload >? 0
      then parseApplicationLayerWithPayload (set_Payload reassembledPayload info)
      else parseApplicationLayer packet info in
    (sr, info <~ parsed ;; Ok (Some (determineDirection info))).

(** ** The data store *)

(** Arithmetic of [int] and [int64] (both 64 bits wide on the platforms the
    tool is built for): the result of [+] is brought back into range. *)
Definition int64 (z : Z) : Z := (z + 2 ^ 63) mod 2 ^ 64 - 2 ^ 63.

Record ConnectionRecord := mkConnectionRecord {
  rec_Timestamp : Z;
  rec_LocalPort : string;
  rec_RemotePort : string;
  rec_PacketSize : Z;
  rec_Direction : string;
  rec_Protocol : string;
  rec_TCPFlags : string;
  rec_IsTLS : bool;
  rec_SNI : string;
  rec_ProcessName : string
}.

Record RemoteIPStats := mkRemoteIPStats {
  stats_RemoteIP : string;
  Records : list ConnectionRecord;
  TotalPackets : Z;
  TotalBytes : Z;
  SendPackets : Z;
  RecvPackets : Z;
  SendBytes : Z;
  RecvBytes : Z;
  FirstSeen : Z;
  LastSeen : Z;
  RemotePorts : gmap string Z;
  LocalPorts : gmap string Z;
  SNINames : gmap string Z;
  DNSNames : gmap string Z;
  Processes : gmap string Z;
  TLSCount : Z;
  Protocols : gmap string Z
}.

Record DataStore := mkDataStore {
  ds_stats : gmap string RemoteIPStats;
  ds_dnsCache : gmap string (list string)
}.

Definition NewDataStore : DataStore := mkDataStore ∅ ∅.

(** [m[k]++] on a [map[string]int] *)
Definition incr (k : string) (m : gmap string Z) : gmap string Z :=
  <[k := int64 (default 0 (m !! k) + 1)]> m.

(** [m[k]++] for a key that is not the empty string *)
Definition incrNonEmpty (k : string) (m : gmap string Z) : gmap string Z :=
  if negb (String.eqb k EmptyString) then incr k m else m.

(** Lines 70-88 of [Store]: the entry made for a remote IP seen for the
    first time, its DNS-name table filled from the cache. *)
Definition newRemoteIPStats (info : PacketInfo) (dnsCache : gmap string (list string))
  : RemoteIPStats :=
  let seeded :=
    match dnsCache !! RemoteIP info with
    | Some cachedDomains => fold_left (fun names domain => incr domain names) cachedDomains ∅
    | None => ∅
    end in
  mkRemoteIPStats (RemoteIP info) [] 0 0 0 0 0 0 (Timestamp info) 0
    ∅ ∅ ∅ seeded ∅ 0 ∅.

Definition connectionRecord (info : PacketInfo) : ConnectionRecord :=
  mkConnectionRecord (Timestamp info) (LocalPort info) (RemotePort info) (Length info)
    (Direction info) (Protocol info) (TCPFlags info) (IsTLS info) (SNI info)
    (ProcessName info).

(** Lines 91-146 of [Store]: the record, the counters and the tables. *)
Definition recordPacket (info : PacketInfo) (stats : RemoteIPStats) : RemoteIPStats :=
  let isSend := String.eqb (Direction info) "send" in
  let isRecv := negb isSend && String.eqb (Direction info) "recv" in
  mkRemoteIPStats
    (stats_RemoteIP stats)
    (Records stats ++ [connectionRecord info])
    (int64 (TotalPackets stats + 1))
    (int64 (TotalBytes stats + Length info))
    (if isSend then int64 (SendPackets stats + 1) else SendPackets stats)
    (if isRecv then int64 (RecvPackets stats + 1) else RecvPackets stats)
    (if isSend then int64 (SendBytes stats + Length info) else SendBytes stats)
    (if isRecv then int64 (RecvBytes stats + Length info) else RecvBytes stats)
    (FirstSeen stats)
    (Timestamp info)
    (incrNonEmpty (RemotePort info) (RemotePorts stats))
    (incrNonEmpty (LocalPort info) (LocalPorts stats))
    (incrNonEmpty (SNI info) (SNINames stats))
    (DNSNames stats)
    (incrNonEmpty (ProcessName info) (Processes stats))
    (if IsTLS info then int64 (TLSCount stats + 1) else TLSCount stats)
    (incrNonEmpty (Protocol info) (Protocols stats)).

Definition addDNSName (name : string) (stats : RemoteIPStats) : RemoteIPStats :=
  mkRemoteIPStats (stats_RemoteIP stats) (Records stats) (TotalPackets stats)
    (TotalBytes stats) (SendPackets stats) (RecvPackets stats) (SendBytes stats)
    (RecvBytes stats) (FirstSeen stats) (LastSeen stats) (RemotePorts stats)
    (LocalPorts stats) (SNINames stats) (incr name (DNSNames stats))
    (Processes stats) (TLSCount stats) (Protocols stats).

(** Lines 150-174 of [Store]: one turn of the loop over
    [info.DNSResponseIPs]. *)
Definition correlateDNS (name : string) (ds : DataStore) (responseIP : string)
  : DataStore :=
  let cache :=
    match ds_dnsCache ds !! responseIP with
    | None => <[responseIP := []]> (ds_dnsCache ds)
    | Some _ => ds_dnsCache ds
    end in
  let cached := default [] (cache !! responseIP) in
  let domainExists := existsb (fun cachedDomain => String.eqb cachedDomain name) cached in
  let cache :=
    if negb domainExists then <[responseIP := cached ++ [name]]> cache else cache in
  let stats :=
    match ds_stats ds !! responseIP with
    | Some ipStats => <[responseIP := addDNSName name ipStats]> (ds_stats ds)
    | None => ds_stats ds
    end in
  mkDataStore stats cache.

Definition Store (info : PacketInfo) (ds : DataStore) : DataStore :=
  if String.eqb (RemoteIP info) EmptyString then ds
  else
    let stats :=
      match ds_stats ds !! RemoteIP info with
      | Some stats => stats
      | None => newRemoteIPStats info (ds_dnsCache ds)
      end in
    let stats := recordPacket info stats in
    let ds := mkDataStore (<[RemoteIP info := stats]> (ds_stats ds)) (ds_dnsCache ds) in
    if IsDNS info && negb (String.eqb (DNSQueryName info) EmptyString) &&
       (len (DNSResponseIPs info) >? 0)
    then fold_left (correlateDNS (DNSQueryName info)) (DNSResponseIPs info) ds
    else ds.

Definition GetStats (ds : DataStore) : gmap string RemoteIPStats := ds_stats ds.

Definition GetStatsForIP (remoteIP : string) (ds : DataStore) : option RemoteIPStats :=
  ds_stats ds !! remoteIP.

Definition GetTotalPackets (ds : DataStore) : Z :=
  map_fold (fun _ stats total => int64 (total + TotalPackets stats)) 0 (ds_stats ds).

Definition GetTotalBytes (ds : DataStore) : Z :=
  map_fold (fun _ stats total => int64 (total + TotalBytes stats)) 0 (ds_stats ds).

Definition GetIPCount (ds : DataStore) : Z := Z.of_nat (size (ds_stats ds)).

(** The store after a sequence of [Store] calls, oldest first. *)
Definition StoreAll (infos : list PacketInfo) (ds : DataStore) : DataStore :=
  fold_left (fun ds info => Store info ds) infos ds.

(** ** Vocabulary of the statements *)

(** The record-body length a buffer declares in its bytes 3 and 4. *)
Definition declaredLen (buffer : list byte) : Z :=
  be16 (byteAt buffer 3) (byteAt buffer 4).

(** A TCP segment of one flow, as a captured packet. *)
Definition segment (srcIP dstIP srcPort dstPort : string) (seq : Z)
    (payload : list byte) : Packet :=
  mkPacket 0 (54 + len payload) [] (Some (srcIP, dstIP))
    (Some (mkTCP srcPort dstPort seq 0 false true false false true false payload))
    None
    (if len payload >? 0 then Some (mkAppLayer "Payload" payload) else None)
    None.

(** The parts of what [ProcessPacket] returns. *)
Definition streamsOf (r : Streams * (list byte * bool * FlowKey)) : Streams := r.1.
Definition payloadOf (r : Streams * (list byte * bool * FlowKey)) : list byte := r.2.1.1.
Definition readyOf (r : Streams * (list byte * bool * FlowKey)) : bool := r.2.1.2.

(** The entry a flow gets from its first payload-bearing segment. *)
Definition firstStream (now : Z) (tcp : TCP) : StreamBuffer :=
  mkStreamBuffer (tcp_Payload tcp) now (uint32 (tcp_Seq tcp + len (tcp_Payload tcp))) true.

(** A partial operation that comes back with a value: no panic, and the
    loop bound was enough. *)
Definition returns {A} (r : result A) : Prop := exists a, r = Ok a.

(** [rest] is what [payload] holds from offset [pos] on. *)
Definition cursor (payload : list byte) (pos : Z) (rest : list byte) : Prop :=
  exists pre, payload = pre ++ rest /\ len pre = pos.

(** *** Building a ClientHello

    The wire format [extractSNI] walks, written as an encoder: what a TLS
    client puts on the wire for a ClientHello with given fields. *)

Definition byteOf (n : Z) : byte :=
  default x00 (Byte.of_N (Z.to_N (n mod 256))).

Definition u16 (n : Z) : list byte := [byteOf (n / 256); byteOf n].

Definition u24 (n : Z) : list byte := [byteOf (n / 65536); byteOf (n / 256); byteOf n].

(** One extension: type, length, body. *)
Definition extensionBytes (ext : Z * list byte) : list byte :=
  u16 ext.1 ++ u16 (len ext.2) ++ ext.2.

Definition extensionsBytes (exts : list (Z * list byte)) : list byte :=
  flat_map extensionBytes exts.

(** One entry of a server-name list: name type, length, name. *)
Definition serverNameBytes (entry : byte * list byte) : list byte :=
  entry.1 :: u16 (len entry.2) ++ entry.2.

Definition serverNamesBytes (entries : list (byte * list byte)) : list byte :=
  flat_map serverNameBytes entries.

(** The body of a server_name extension: list length, entries. *)
Definition serverNameExtension (entries : list (byte * list byte)) : list byte :=
  u16 (len (serverNamesBytes entries)) ++ serverNamesBytes entries.

(** A TLS record holding a ClientHello whose extensions block is declared
    [declared] bytes long and followed by the bytes [extensions]. *)
Definition clientHelloWith (random sessionID cipherSuites compression : list byte)
    (declared : Z) (extensions : list byte) : list byte :=
  let body :=
    [x03; x03] ++ random ++
    byteOf (len sessionID) :: sessionID ++
    u16 (len cipherSuites) ++ cipherSuites ++
    byteOf (len compression) :: compression ++
    u16 declared ++ extensions in
  let handshake := x01 :: u24 (len body) ++ body in
  [x16; x03; x01] ++ u16 (len handshake) ++ handshake.

(** Where the extensions block of such a ClientHello starts. *)
Definition extensionsOffset (sessionID cipherSuites compression : list byte) : Z :=
  5 + 1 + 3 + 2 + 32 + 1 + len sessionID + 2 + len cipherSuites + 1 +
  len compression + 2.

(** A well-formed ClientHello: the declared length is that of the block. *)
Definition clientHello (random sessionID cipherSuites compression : list byte)
    (exts : list (Z * list byte)) : list byte :=
  clientHelloWith random sessionID cipherSuites compression
    (len (extensionsBytes exts)) (extensionsBytes exts).

(** The same ClientHello with the last byte of its extensions block
    missing, the length fields before the block as they were. *)
Definition clientHelloCut (random sessionID cipherSuites compression : list byte)
    (exts : list (Z * list byte)) : list byte :=
  removelast (clientHello random sessionID cipherSuites compression exts).

(** The same with the record and handshake lengths brought in line with
    the shorter message, the extensions length as it was. *)
Definition clientHelloShortBlock (random sessionID cipherSuites compression : list byte)
    (exts : list (Z * list byte)) : list byte :=
  clientHelloWith random sessionID cipherSuites compression
    (len (extensionsBytes exts)) (removelast (extensionsBytes exts)).

Definition hostName (name : string) : byte * list byte :=
  (x00, list_byte_of_string name).

(** A ClientHello as a client sends it for https://example.com: 32 random
    bytes, no session id, two cipher suites, null compression, and the
    extensions supported_versions and server_name. *)
Definition exampleRandom : list byte := repeat x5a 32.
Definition exampleExtensions : list (Z * list byte) :=
  [(43, [x02; x03; x04]); (0, serverNameExtension [hostName "example.com"])].
Definition exampleClientHello : list byte :=
  clientHello exampleRandom [] [x13; x01; x13; x02] [x00] exampleExtensions.

(** The example cut one byte short inside its extensions block, with every
    length before the cut brought in line with the shorter message and the
    next one as it was: the extensions length adjusted and the server_name
    extension's length stale; that adjusted too and the list length stale;
    that adjusted too and the name length stale. *)
Definition exampleEntries : list byte := serverNamesBytes [hostName "example.com"].

Definition exampleHelloWith (serverName : list byte) : list byte :=
  let block := extensionBytes (43, [x02; x03; x04]) ++ serverName in
  clientHelloWith exampleRandom [] [x13; x01; x13; x02] [x00] (len block) block.

Definition exampleInnerCuts : list (list byte) :=
  [ exampleHelloWith
      (u16 0 ++ u16 (2 + len exampleEntries) ++
       removelast (u16 (len exampleEntries) ++ exampleEntries));
    exampleHelloWith
      (extensionBytes (0, u16 (len exampleEntries) ++ removelast exampleEntries));
    exampleHelloWith
      (extensionBytes (0, u16 (len exampleEntries - 1) ++ removelast exampleEntries)) ].

(** *** Addresses

    What gopacket renders for an endpoint is Go's [net.IP.String()]: four
    decimal numbers joined by dots for an IPv4 address, groups of
    hexadecimal digits joined by colons for an IPv6 address. *)

Definition decimal (b : byte) : string :=
  NilZero.string_of_uint (N.to_uint (Byte.to_N b)).

Definition ipv4String (a b c d : byte) : string :=
  (decimal a ++ "." ++ decimal b ++ "." ++ decimal c ++ "." ++ decimal d)%string.

(** The address as a 32-bit number. *)
Definition ipv4Value (a b c d : byte) : Z :=
  ((byteVal a * 256 + byteVal b) * 256 + byteVal c) * 256 + byteVal d.

(** [addr] lies in the block [base/bits]. *)
Definition inBlock (base bits addr : Z) : bool :=
  addr / 2 ^ (32 - bits) =? base / 2 ^ (32 - bits).

(** The ranges 10.0.0.0/8, 172.16.0.0/12, 192.168.0.0/16, 127.0.0.0/8 and
    169.254.0.0/16. *)
Definition inLocalRanges (addr : Z) : bool :=
  inBlock (ipv4Value x0a x00 x00 x00) 8 addr ||
  inBlock (ipv4Value xac x10 x00 x00) 12 addr ||
  inBlock (ipv4Value xc0 xa8 x00 x00) 16 addr ||
  inBlock (ipv4Value x7f x00 x00 x00) 8 addr ||
  inBlock (ipv4Value xa9 xfe x00 x00) 16 addr.

Fixpoint noDot (s : string) : bool :=
  match s with
  | EmptyString => true
  | String c rest => negb (Ascii.eqb c ".") && noDot rest
  end.

(** What [isLocalIP] comes to on a string whose first two dot-separated
    parts are [first] and [second]. *)
Definition localParts (first second : string) : bool :=
  String.eqb first "10" ||
  (String.eqb first "192" && String.eqb second "168") ||
  String.eqb first "127" ||
  (String.eqb first "169" && String.eqb second "254") ||
  (String.eqb first "172" && (16 <=? Sscanf_d second) && (Sscanf_d second <=? 31)).

(** The ranges, read off the first two numbers of the address. *)
Definition localOctets (a b : Z) : bool :=
  (a =? 10) || ((a =? 172) && (16 <=? b) && (b <=? 31)) ||
  ((a =? 192) && (b =? 168)) || (a =? 127) || ((a =? 169) && (b =? 254)).

Definition allBytes : list byte := map byteOf (map Z.of_nat (seq 0 256)).

(** *** DNS *)

(** The IP literals of the A and AAAA records among [answers], in order. *)
Definition addressRecords (answers : list DNSResourceRecord) : list string :=
  omap (fun answer =>
          match rr_Type answer with
          | DNSTypeA | DNSTypeAAAA => rr_IP answer
          | DNSTypeOther _ => None
          end) answers.

(** The name of the first question, if there is one. *)
Definition firstQuestion (dns : DNS) : string :=
  match dns_Questions dns with
  | q :: _ => q_Name q
  | [] => EmptyString
  end.

(** The packet is UDP traffic on port 53. *)
Definition udpPort53 (packet : Packet) : Prop :=
  pkt_TCP packet = None /\
  exists udp, pkt_UDP packet = Some udp /\
    (udp_SrcPort udp = "53(domain)"%string \/ udp_DstPort udp = "53(domain)"%string).

(** The DNS layer as gopacket's decoder builds it.  [decodeDNS] adds the
    layer only when [DecodeFromBytes] accepts the bytes it is given, which
    are at least the 12 bytes of a DNS header, and makes it the packet's
    application layer; the layer's [Payload()] returns nil.  So a packet with a
    DNS layer has an application layer without payload bytes, and its UDP
    payload, which held the DNS message, is not empty. *)
Definition decodedDNS (packet : Packet) : Prop :=
  forall dns, pkt_DNS packet = Some dns ->
    (exists appLayer,
       pkt_ApplicationLayer packet = Some appLayer /\ app_Payload appLayer = []) /\
    (forall udp, pkt_UDP packet = Some udp -> udp_Payload udp <> []).

(** A UDP datagram as a captured packet. *)
Definition datagram (srcIP dstIP srcPort dstPort : string) (payload : list byte)
    (appLayer : option AppLayer) (dns : option DNS) : Packet :=
  mkPacket 0 (42 + len payload) [] (Some (srcIP, dstIP)) None
    (Some (mkUDP srcPort dstPort payload)) appLayer dns.

(** A DNS response: bad.example is at 1.2.3.4. *)
Definition exampleDNS : DNS :=
  mkDNS true [mkDNSQuestion "bad.example"]
    [mkDNSResourceRecord (DNSTypeOther 5) None;
     mkDNSResourceRecord DNSTypeA (Some "1.2.3.4"%string)].

(** The packet information [Parse] has after the network and transport
    layers. *)
Definition layersInfo (packet : Packet) : PacketInfo :=
  parseTransportLayer packet
    (parseNetworkLayer packet
       (set_RawData (pkt_Data packet)
          (set_Length (pkt_Length packet)
             (set_Timestamp (pkt_Timestamp packet) zeroPacketInfo)))).

(** No DNS field of the packet information is set. *)
Definition noDNS (info : PacketInfo) : Prop :=
  IsDNS info = false /\ DNSQueryName info = EmptyString /\ DNSResponseIPs info = [].

(** *** The store *)

(** The sum of [PacketSize] over a list of records. *)
Definition sumSizes (records : list ConnectionRecord) : Z :=
  foldr (fun record total => rec_PacketSize record + total) 0 records.

(** The number of records with a given direction. *)
Definition countDirection (direction : string) (records : list ConnectionRecord) : Z :=
  len (filter (fun record => rec_Direction record = direction) records).

(** The packets [Store] records: those with a remote IP. *)
Definition recorded (infos : list PacketInfo) : list PacketInfo :=
  filter (fun info => RemoteIP info <> EmptyString) infos.

(** The sum of the wire lengths of a list of packets. *)
Definition sumLengths (infos : list PacketInfo) : Z :=
  foldr (fun info total => Length info + total) 0 infos.

(** The sum of [TotalBytes] over all entries, not brought into range. *)
Definition sumTotalBytes (stats : gmap string RemoteIPStats) : Z :=
  map_fold (fun _ entry total => total + TotalBytes entry) 0 stats.

(** A DNS response seen from resolver [remote]: [name] is at [ips]. *)
Definition dnsResponseInfo (remote name : string) (ips : list string) : PacketInfo :=
  mkPacketInfo 0 120 remote "192.168.1.5" "UDP" "53(domain)" "50000" EmptyString 0 0 "DNS" []
    false EmptyString EmptyString EmptyString true name ips "recv" remote "50000" "53(domain)" EmptyString 0 [].

(** A TCP segment sent to [remote]. *)
Definition dataInfo (remote : string) : PacketInfo :=
  mkPacketInfo 0 60 "192.168.1.5" remote "TCP" "50000" "443(https)" "ACK,PSH" 0 0 EmptyString []
    false EmptyString EmptyString EmptyString false EmptyString [] "send" remote "50000" "443(https)" EmptyString 0 [].

(** The counters of an entry agree with its records. *)
Definition entryInv (entry : RemoteIPStats) : Prop :=
  TotalPackets entry = int64 (len (Records entry)) /\
  TotalBytes entry = int64 (sumSizes (Records entry)) /\
  SendPackets entry = int64 (countDirection "send" (Records entry)) /\
  RecvPackets entry = int64 (countDirection "recv" (Records entry)).

Definition storeInv (ds : DataStore) : Prop :=
  forall ip entry, ds_stats ds !! ip = Some entry -> entryInv entry.

(** Every record is a send or a recv. *)
Definition sendOrRecv (records : list ConnectionRecord) : Prop :=
  Forall (fun record => rec_Direction record = "send"%string \/
                        rec_Direction record = "recv"%string) records.

(** The cache never holds a name twice for one address. *)
Definition cacheInv (ds : DataStore) : Prop :=
  forall ip names, ds_dnsCache ds !! ip = Some names -> NoDup names.

(** [info] is a DNS response seen from another address than [ip], naming
    [ip] as [name]. *)
Definition namesAddress (info : PacketInfo) (name ip : string) : Prop :=
  RemoteIP info <> EmptyString /\ RemoteIP info <> ip /\
  IsDNS info = true /\ DNSQueryName info = name /\ name <> EmptyString /\
  DNSResponseIPs info = [ip].

(** [info] is a packet to or from [ip] that is not a DNS packet. *)
Definition dataPacket (info : PacketInfo) (ip : string) : Prop :=
  RemoteIP info = ip /\ ip <> EmptyString /\ IsDNS info = false.

(** Nothing is known about [ip]: no packet involved it and no response
    named it. *)
Definition unknownAddress (ds : DataStore) (ip : string) : Prop :=
  ds_stats ds !! ip = None /\ ds_dnsCache ds !! ip = None.

(** ** Further functions of the sources *)

(** *** packet.go: the methods of [FlowKey] *)

(** [fk.String()] *)
Definition FlowKey_String (fk : FlowKey) : string :=
  (fk_SrcIP fk ++ ":" ++ fk_SrcPort fk ++ "->" ++ fk_DstIP fk ++ ":" ++
   fk_DstPort fk ++ "/" ++ fk_Proto fk)%string.

(** [fk.Reverse()] *)
Definition Reverse (fk : FlowKey) : FlowKey :=
  mkFlowKey (fk_DstIP fk) (fk_SrcIP fk) (fk_DstPort fk) (fk_SrcPort fk) (fk_Proto fk).

(** *** stream_reassembler.go: GetStreamStats *)

(** One element of the list under the key "streams": the values under
    "flow" and "buffer_size", and the duration [time.Since(LastActivity)]
    that the code reports, as seconds, under "age_seconds". *)
Record StreamInfo := mkStreamInfo {
  si_flow : string;
  si_buffer_size : Z;
  si_age : Z
}.

(** The map [GetStreamStats] returns, by its two keys. *)
Record StreamStats := mkStreamStats {
  active_streams : Z;
  streams : list StreamInfo
}.

(** [GetStreamStats], with [now] the instant read by [time.Since]; the
    list is in the order of one iteration over the map. *)
Definition GetStreamStats (now : Z) (sr : Streams) : StreamStats :=
  mkStreamStats (Z.of_nat (size sr))
    (map (fun kv => mkStreamInfo (FlowKey_String kv.1) (len (sb_Buffer kv.2))
                      (now - sb_LastActivity kv.2))
       (map_to_list sr)).

(** *** The process monitor: byte order

    The two helpers that turn a row of the system's connection table into
    the "address:port" key the monitor files the owning process under. *)

Definition uint16 (z : Z) : Z := z mod 2 ^ 16.

(** [ntohs], on a [uint16]: [(port>>8)&0xff | (port<<8)&0xff00] *)
Definition ntohs (port : Z) : Z :=
  Z.lor (Z.land (Z.shiftr port 8) 255) (Z.land (uint16 (Z.shiftl port 8)) 65280).

(** [intToIP], on a [uint32]: the four bytes, lowest first, as
    [net.IPv4(...).String()] renders them. *)
Definition intToIP (ipInt : Z) : string :=
  ipv4String (byteOf ipInt) (byteOf (Z.shiftr ipInt 8)) (byteOf (Z.shiftr ipInt 16))
    (byteOf (Z.shiftr ipInt 24)).

(** *** main: the capture loop *)

(** The process filter [main] builds from its flags: the PID of the
    service named by [-service] (0 when none is), and the names given to
    [-include] and [-exclude]. *)
Record ProcessFilter := mkProcessFilter {
  servicePID : Z;
  includeList : list string;
  excludeList : list string
}.

(** The decision [shouldDisplay] of the loop; [EqualFold] stands for
    [strings.EqualFold]. *)
Definition shouldDisplay (EqualFold : string -> string -> bool) (filter : ProcessFilter)
    (packetInfo : PacketInfo) : bool :=
  if negb (servicePID filter =? 0) then ProcessPID packetInfo =? servicePID filter
  else
    let shouldDisplay :=
      if len (includeList filter) >? 0
      then existsb (fun name => EqualFold (ProcessName packetInfo) name) (includeList filter)
      else true in
    if (len (excludeList filter) >? 0) && shouldDisplay
    then negb (existsb (fun name => EqualFold (ProcessName packetInfo) name)
                 (excludeList filter))
    else shouldDisplay.

(** What the loop keeps from one packet to the next. *)
Record Capture := mkCapture {
  cap_parser : Streams;
  cap_dataStore : DataStore;
  cap_packetCount : Z;
  cap_filteredCount : Z
}.

(** The state [main] enters the loop with. *)
Definition newCapture : Capture := mkCapture NewStreamReassembler NewDataStore 0 0.

(** One turn of the loop for a packet read from the channel at instant
    [now]: count, parse, attribute to a process, filter, store.
    [processInfo] is what [pm.GetProcessInfoForPacket] answers for the
    packet, [None] when the monitor is not running.  The lines printed and
    the pcap file are not part of the state. *)
Definition capturePacket (EqualFold : string -> string -> bool) (filter : ProcessFilter)
    (now : Z) (packet : Packet) (processInfo : option (string * Z)) (st : Capture)
  : result Capture :=
  let packetCount := int64 (cap_packetCount st + 1) in
  let '(parser, parsed) := Parse now packet (cap_parser st) in
  packetInfo <~ parsed ;;
  match packetInfo with
  | None => Ok (mkCapture parser (cap_dataStore st) packetCount (cap_filteredCount st))
  | Some packetInfo =>
      let packetInfo :=
        match processInfo with
        | Some (name, pid) => set_ProcessPID pid (set_ProcessName name packetInfo)
        | None => packetInfo
        end in
      if shouldDisplay EqualFold filter packetInfo
      then Ok (mkCapture parser (Store packetInfo (cap_dataStore st)) packetCount
                 (int64 (cap_filteredCount st + 1)))
      else Ok (mkCapture parser (cap_dataStore st) packetCount (cap_filteredCount st))
  end.

(** The loop over the packets of a capture, oldest first. *)
Fixpoint capturePackets (EqualFold : string -> string -> bool) (filter : ProcessFilter)
    (inputs : list (Z * Packet * option (string * Z))) (st : Capture) : result Capture :=
  match inputs with
  | [] => Ok st
  | (now, packet, processInfo) :: inputs =>
      st <~ capturePacket EqualFold filter now packet processInfo st ;;
      capturePackets EqualFold filter inputs st
  end.

(** ** Vocabulary of the further statements *)

(** *** The reassembler over time *)

(** What happens to a reassembler: a packet is handed to [ProcessPacket],
    or the cleanup loop runs [cleanupExpiredStreams]; each at an instant. *)
Inductive Event :=
  | Arrival (now : Z) (packet : Packet)
  | Sweep (now : Z).

Definition step (sr : Streams) (event : Event) : Streams :=
  match event with
  | Arrival now packet => streamsOf (ProcessPacket now packet sr)
  | Sweep now => cleanupExpiredStreams now sr
  end.

(** The reassembler after a sequence of events, oldest first. *)
Definition run (events : list Event) (sr : Streams) : Streams :=
  fold_left step events sr.

(** The TCP payload of an arriving packet fits the buffer capacity. *)
Definition smallPayload (event : Event) : Prop :=
  match event with
  | Arrival _ packet =>
      match pkt_TCP packet with
      | Some tcp => len (tcp_Payload tcp) <= MaxBufferSize
      | None => True
      end
  | Sweep _ => True
  end.

(** An entry that is waiting for more bytes. *)
Definition buffering (stream : StreamBuffer) : Prop :=
  sb_Initialized stream = true /\
  sb_Buffer stream <> [] /\
  peekTLSRecord (sb_Buffer stream) = (false, []) /\
  0 <= sb_NextSeq stream < 2 ^ 32.

(** Every entry is waiting for more bytes of a TCP flow. *)
Definition streamsInv (sr : Streams) : Prop :=
  forall k stream, sr !! k = Some stream -> buffering stream /\ fk_Proto k = "TCP"%string.

(** No buffer is longer than the capacity. *)
Definition streamsBounded (sr : Streams) : Prop :=
  forall k stream, sr !! k = Some stream -> len (sb_Buffer stream) <= MaxBufferSize.

(** The segments of one flow that carry [chunks] one after the other, the
    first with sequence number [seq]. *)
Fixpoint segments (srcIP dstIP srcPort dstPort : string) (seq : Z)
    (chunks : list (list byte)) : list Packet :=
  match chunks with
  | [] => []
  | chunk :: chunks =>
      segment srcIP dstIP srcPort dstPort seq chunk ::
      segments srcIP dstIP srcPort dstPort (uint32 (seq + len chunk)) chunks
  end.

(** [ProcessPacket] on packets arriving one after the other, each at its
    instant: the reassembler at the end, and what each call returned. *)
Fixpoint ProcessPackets (arrivals : list (Z * Packet)) (sr : Streams)
  : Streams * list (list byte * bool) :=
  match arrivals with
  | [] => (sr, [])
  | (now, packet) :: arrivals =>
      let r := ProcessPacket now packet sr in
      let rs := ProcessPackets arrivals (streamsOf r) in
      (rs.1, (payloadOf r, readyOf r) :: rs.2)
  end.

(** *** The store, entry by entry *)

(** The packets of a sequence that [Store] files under [ip]. *)
Definition packetsOf (ip : string) (infos : list PacketInfo) : list PacketInfo :=
  filter (fun info => RemoteIP info = ip) infos.

(** The remote addresses of the packets recorded. *)
Definition remoteIPs (infos : list PacketInfo) : gset string :=
  list_to_set (map RemoteIP (recorded infos)).

(** The sum of [PacketSize] over the records with a given direction. *)
Definition sumSizesOf (direction : string) (records : list ConnectionRecord) : Z :=
  sumSizes (filter (fun record => rec_Direction record = direction) records).

(** The number of records marked as TLS. *)
Definition countTLS (records : list ConnectionRecord) : Z :=
  len (filter (fun record => rec_IsTLS record = true) records).

(** The number of records whose [field] is [k]. *)
Definition countField (field : ConnectionRecord -> string) (k : string)
    (records : list ConnectionRecord) : Z :=
  len (filter (fun record => field record = k) records).

(** What a frequency table over [field] holds under [k] for these records:
    nothing under the empty string or a value no record has, the number of
    records otherwise. *)
Definition tableEntry (field : ConnectionRecord -> string)
    (records : list ConnectionRecord) (k : string) : option Z :=
  if decide (k = EmptyString) then None
  else if countField field k records =? 0 then None
  else Some (int64 (countField field k records)).

(** The byte counters per direction and the TLS counter agree with the
    records. *)
Definition countersInv (entry : RemoteIPStats) : Prop :=
  SendBytes entry = int64 (sumSizesOf "send" (Records entry)) /\
  RecvBytes entry = int64 (sumSizesOf "recv" (Records entry)) /\
  TLSCount entry = int64 (countTLS (Records entry)).

(** [FirstSeen] and [LastSeen] are the instants of the first and the last
    record. *)
Definition timesInv (entry : RemoteIPStats) : Prop :=
  rec_Timestamp <$> head (Records entry) = Some (FirstSeen entry) /\
  rec_Timestamp <$> last (Records entry) = Some (LastSeen entry).

(** The five frequency tables agree with the records. *)
Definition tablesInv (entry : RemoteIPStats) : Prop :=
  (forall k, RemotePorts entry !! k = tableEntry rec_RemotePort (Records entry) k) /\
  (forall k, LocalPorts entry !! k = tableEntry rec_LocalPort (Records entry) k) /\
  (forall k, SNINames entry !! k = tableEntry rec_SNI (Records entry) k) /\
  (forall k, Processes entry !! k = tableEntry rec_ProcessName (Records entry) k) /\
  (forall k, Protocols entry !! k = tableEntry rec_Protocol (Records entry) k).

(** The sum of a counter over all entries, not brought into range. *)
Definition sumOver (field : RemoteIPStats -> Z) (stats : gmap string RemoteIPStats) : Z :=
  map_fold (fun _ entry total => total + field entry) 0 stats.

(** [info] is a recorded DNS response that gives [ip] as an address of
    [name]. *)
Definition resolves (info : PacketInfo) (name ip : string) : Prop :=
  RemoteIP info <> EmptyString /\ IsDNS info = true /\
  DNSQueryName info = name /\ name <> EmptyString /\ ip ∈ DNSResponseIPs info.

(** The DNS-name table of every entry has the names cached for its
    address as keys. *)
Definition namesInv (ds : DataStore) : Prop :=
  forall ip entry, ds_stats ds !! ip = Some entry ->
    forall name, is_Some (DNSNames entry !! name) <->
                 name ∈ default [] (ds_dnsCache ds !! ip).

(** *** The parser *)

(** The [n] bytes of [payload] from offset [pos] on. *)
Definition bytesFrom (payload : list byte) (pos n : Z) : list byte :=
  take (Z.to_nat n) (drop (Z.to_nat pos) payload).

(** The three directions a packet can be given. *)
Definition knownDirection (direction : string) : Prop :=
  direction = "send"%string \/ direction = "recv"%string \/ direction = "local"%string.

(** The remote address and port are those of one end of the packet, the
    local port that of the other: the source end for a recv, the
    destination end otherwise. *)
Definition endsAgree (info : PacketInfo) : Prop :=
  (Direction info = "recv"%string /\ RemoteIP info = SrcIP info /\
   RemotePort info = SrcPort info /\ LocalPort info = DstPort info) \/
  (Direction info <> "recv"%string /\ RemoteIP info = DstIP info /\
   RemotePort info = DstPort info /\ LocalPort info = SrcPort info).

(** *** The capture loop *)

(** The arrivals a capture hands to the reassembler. *)
Definition arrivalsOf (inputs : list (Z * Packet * option (string * Z))) : list Event :=
  map (fun input => Arrival input.1.1 input.1.2) inputs.

(** No process filter: no service, no names to include or exclude. *)
Definition noFilter : ProcessFilter := mkProcessFilter 0 [] [].

(** A decoded packet with the process the monitor gave for it, as the
    loop sets it. *)
Definition withProcess (processInfo : option (string * Z)) (packetInfo : PacketInfo)
  : PacketInfo :=
  match processInfo with
  | Some (name, pid) => set_ProcessPID pid (set_ProcessName name packetInfo)
  | None => packetInfo
  end.

(** What [Parse] decodes of the packets of a capture, oldest first, each
    with its process; the reassembler goes from one packet to the next,
    and a packet for which [Parse] returns nil gives nothing. *)
Fixpoint decodedPackets (inputs : list (Z * Packet * option (string * Z)))
    (sr : Streams) : list PacketInfo :=
  match inputs with
  | [] => []
  | (now, packet, processInfo) :: inputs =>
      let '(sr, parsed) := Parse now packet sr in
      match parsed with
      | Ok (Some packetInfo) =>
          withProcess processInfo packetInfo :: decodedPackets inputs sr
      | _ => decodedPackets inputs sr
      end
  end.

(** The decoded packets of a capture that pass the process filter. *)
Definition displayed (EqualFold : string -> string -> bool) (filter : ProcessFilter)
    (inputs : list (Z * Packet * option (string * Z))) (sr : Streams)
  : list PacketInfo :=
  List.filter (shouldDisplay EqualFold filter) (decodedPackets inputs sr).

(** Packets captured while the process monitor is not running. *)
Definition unmonitored (arrivals : list (Z * Packet))
  : list (Z * Packet * option (string * Z)) :=
  map (fun arrival => (arrival.1, arrival.2, None)) arrivals.

(** *** Traffic that is not TLS *)

(** The bytes of the TCP payload of a packet. *)
Definition tcpPayload (packet : Packet) : list byte :=
  match pkt_TCP packet with
  | Some tcp => tcp_Payload tcp
  | None => []
  end.

(** A TCP segment of 5 bytes or more that does not start with 0x16, of a
    flow without entry in [sr]. *)
Definition plainSegment (sr : Streams) (packet : Packet) : Prop :=
  exists tcp,
    pkt_TCP packet = Some tcp /\
    5 <= len (tcp_Payload tcp) /\
    head (tcp_Payload tcp) <> Some x16 /\
    sr !! packetFlowKey packet tcp = None.

(** *** One call of [Store] *)

(** The fields of an entry but its DNS-name table. *)
Definition withoutDNSNames (entry : RemoteIPStats) : RemoteIPStats :=
  mkRemoteIPStats (stats_RemoteIP entry) (Records entry) (TotalPackets entry)
    (TotalBytes entry) (SendPackets entry) (RecvPackets entry) (SendBytes entry)
    (RecvBytes entry) (FirstSeen entry) (LastSeen entry) (RemotePorts entry)
    (LocalPorts entry) (SNINames entry) ∅ (Processes entry) (TLSCount entry)
    (Protocols entry).

(** * Properties *)

(** ** Bytes *)

Lemma byteVal_range (b : byte) : 0 <= byteVal b <= 255.
Proof.
  unfold byteVal. pose proof (Byte.to_N_bounded b). lia.
Qed.

Lemma byteVal_inj (b c : byte) : byteVal b = byteVal c -> b = c.
Proof.
  unfold byteVal. intros H. apply N2Z.inj in H.
  pose proof (Byte.of_to_N b) as Hb. rewrite H, Byte.of_to_N in Hb. congruence.
Qed.

Lemma byteAt_range (s : list byte) (i : Z) : 0 <= byteAt s i <= 255.
Proof.
  unfold byteAt. destruct (s !! Z.to_nat i); [apply byteVal_range | lia].
Qed.

Lemma be16_nonneg (hi lo : Z) : 0 <= hi -> 0 <= lo -> 0 <= be16 hi lo.
Proof.
  intros Hhi Hlo. unfold be16. apply Z.lor_nonneg. split; [|done].
  by apply Z.shiftl_nonneg.
Qed.

Lemma declaredLen_nonneg (buffer : list byte) : 0 <= declaredLen buffer.
Proof.
  unfold declaredLen. apply be16_nonneg; apply byteAt_range.
Qed.

Lemma len_nonneg {A} (s : list A) : 0 <= len s.
Proof. unfold len. lia. Qed.

Lemma len_app {A} (s t : list A) : len (s ++ t) = len s + len t.
Proof. unfold len. rewrite length_app. lia. Qed.

Lemma len_zero {A} (s : list A) : len s = 0 <-> s = [].
Proof.
  unfold len. destruct s; simpl; split; intros; try done; lia.
Qed.

Lemma byteAt_head (s : list byte) (c : byte) : head s = Some c -> byteAt s 0 = byteVal c.
Proof. destruct s; simpl; [done|]. intros [= ->]. reflexivity. Qed.

Lemma byteAt_head_x16 (s : list byte) : head s = Some x16 <-> byteAt s 0 = 22.
Proof.
  split.
  - intros H. by rewrite (byteAt_head _ _ H).
  - destruct s as [|c s]; unfold byteAt; simpl; [lia|].
    intros H. f_equal. by apply byteVal_inj.
Qed.

(** Bytes of a buffer are bytes of any extension of it. *)
Lemma byteAt_app_l (s t : list byte) (i : Z) :
  0 <= i < len s -> byteAt (s ++ t) i = byteAt s i.
Proof.
  intros Hi. unfold byteAt, len in *. rewrite lookup_app_l; [done | lia].
Qed.

(** ** The reassembler *)

Lemma peekTLSRecord_tls (buffer : list byte) :
  head buffer = Some x16 ->
  peekTLSRecord buffer =
    if 5 + declaredLen buffer <=? len buffer
    then (true, take (Z.to_nat (5 + declaredLen buffer)) buffer)
    else (false, []).
Proof.
  intros Hh. apply byteAt_head_x16 in Hh. unfold peekTLSRecord.
  pose proof (declaredLen_nonneg buffer) as HL.
  destruct (len buffer <? 5) eqn:Hlt.
  - apply Z.ltb_lt in Hlt.
    destruct (5 + declaredLen buffer <=? len buffer) eqn:Hle; [|done].
    apply Z.leb_le in Hle. lia.
  - rewrite Hh. simpl. fold (declaredLen buffer). by rewrite Z.geb_leb.
Qed.

Lemma peekTLSRecord_other (buffer : list byte) :
  head buffer <> Some x16 ->
  peekTLSRecord buffer = if len buffer <? 5 then (false, []) else (true, buffer).
Proof.
  intros Hh. unfold peekTLSRecord. destruct (len buffer <? 5); [done|].
  destruct (byteAt buffer 0 =? 22) eqn:E; [|done].
  apply Z.eqb_eq, byteAt_head_x16 in E. done.
Qed.

Example peekTLSRecord_examples :
  peekTLSRecord [x16; x03; x03; x00] = (false, []) /\
  peekTLSRecord [x16; x03; x03; x00; x02; xaa] = (false, []) /\
  peekTLSRecord [x16; x03; x03; x00; x02; xaa; xbb; xcc] =
    (true, [x16; x03; x03; x00; x02; xaa; xbb]) /\
  peekTLSRecord [x47; x45; x54; x20] = (false, []) /\
  peekTLSRecord [x47; x45; x54; x20; x2f] = (true, [x47; x45; x54; x20; x2f]).
Proof. vm_compute. repeat split. Qed.

(** What [ProcessPacket] does with a segment that carries payload: the
    completion check runs on the touched entry, which is stored, or deleted
    when the check succeeds. *)
Lemma ProcessPacket_payload (now : Z) (packet : Packet) (tcp : TCP) (sr : Streams) :
  pkt_TCP packet = Some tcp ->
  tcp_Payload tcp <> [] ->
  let flowKey := packetFlowKey packet tcp in
  let stream := touchedStream now tcp flowKey sr in
  ProcessPacket now packet sr =
    if (peekTLSRecord (sb_Buffer stream)).1
    then (delete flowKey sr, ((peekTLSRecord (sb_Buffer stream)).2, true, flowKey))
    else (<[flowKey := stream]> sr, ([], false, flowKey)).
Proof.
  intros Htcp Hpay flowKey stream. unfold ProcessPacket. rewrite Htcp.
  destruct (len (tcp_Payload tcp) =? 0) eqn:E.
  { apply Z.eqb_eq, len_zero in E. done. }
  fold flowKey. fold stream.
  destruct (peekTLSRecord (sb_Buffer stream)) as [[] data]; simpl; [|done].
  by rewrite delete_insert_eq.
Qed.

Lemma uint32_add_r (a b : Z) : uint32 (a + uint32 b) = uint32 (a + b).
Proof. unfold uint32. apply Zplus_mod_idemp_r. Qed.

Lemma uint32_small (a : Z) : 0 <= a < 2 ^ 32 -> uint32 a = a.
Proof. intros H. unfold uint32. by apply Z.mod_small. Qed.

(** A flow without an entry starts from the segment's payload alone. *)
Lemma touchedStream_fresh (now : Z) (tcp : TCP) (flowKey : FlowKey) (sr : Streams) :
  sr !! flowKey = None ->
  touchedStream now tcp flowKey sr = firstStream now tcp.
Proof.
  intros H. unfold touchedStream, firstStream. rewrite H. simpl.
  unfold updateStream. simpl. by rewrite uint32_add_r.
Qed.

Lemma touchedStream_existing (now : Z) (tcp : TCP) (flowKey : FlowKey) (sr : Streams)
    (stream : StreamBuffer) :
  sr !! flowKey = Some stream ->
  touchedStream now tcp flowKey sr = updateStream now tcp stream.
Proof. intros H. unfold touchedStream. by rewrite H. Qed.

(** The four ways a segment meets an initialized entry. *)
Lemma updateStream_in_order (now : Z) (tcp : TCP) (stream : StreamBuffer) :
  sb_Initialized stream = true ->
  tcp_Seq tcp = sb_NextSeq stream ->
  len (sb_Buffer stream) + len (tcp_Payload tcp) <= MaxBufferSize ->
  updateStream now tcp stream =
    mkStreamBuffer (sb_Buffer stream ++ tcp_Payload tcp) now
      (uint32 (tcp_Seq tcp + len (tcp_Payload tcp))) true.
Proof.
  intros Hi Hs Hl. unfold updateStream. rewrite Hi. simpl.
  rewrite (proj2 (Z.eqb_eq _ _) Hs), (proj2 (Z.leb_le _ _) Hl).
  by rewrite uint32_add_r.
Qed.

Lemma updateStream_overflow (now : Z) (tcp : TCP) (stream : StreamBuffer) :
  sb_Initialized stream = true ->
  tcp_Seq tcp = sb_NextSeq stream ->
  len (sb_Buffer stream) + len (tcp_Payload tcp) > MaxBufferSize ->
  updateStream now tcp stream =
    mkStreamBuffer (tcp_Payload tcp) now
      (uint32 (tcp_Seq tcp + len (tcp_Payload tcp))) true.
Proof.
  intros Hi Hs Hl. unfold updateStream. rewrite Hi. simpl.
  rewrite (proj2 (Z.eqb_eq _ _) Hs).
  destruct (_ <=? _) eqn:E; [apply Z.leb_le in E; lia|].
  by rewrite uint32_add_r.
Qed.

Lemma updateStream_gap (now : Z) (tcp : TCP) (stream : StreamBuffer) :
  sb_Initialized stream = true ->
  tcp_Seq tcp > sb_NextSeq stream ->
  updateStream now tcp stream =
    mkStreamBuffer (tcp_Payload tcp) now
      (uint32 (tcp_Seq tcp + len (tcp_Payload tcp))) true.
Proof.
  intros Hi Hs. unfold updateStream. rewrite Hi. simpl.
  destruct (_ =? _) eqn:E; [apply Z.eqb_eq in E; lia|].
  destruct (_ >? _) eqn:E'; [|rewrite Z.gtb_ltb in E'; apply Z.ltb_ge in E'; lia].
  by rewrite uint32_add_r.
Qed.

Lemma updateStream_retransmission (now : Z) (tcp : TCP) (stream : StreamBuffer) :
  sb_Initialized stream = true ->
  tcp_Seq tcp < sb_NextSeq stream ->
  updateStream now tcp stream =
    mkStreamBuffer (sb_Buffer stream) now (sb_NextSeq stream) true.
Proof.
  intros Hi Hs. unfold updateStream. rewrite Hi. simpl.
  destruct (_ =? _) eqn:E; [apply Z.eqb_eq in E; lia|].
  destruct (_ >? _) eqn:E'; [rewrite Z.gtb_ltb in E'; apply Z.ltb_lt in E'; lia|].
  done.
Qed.

(** A buffer that is a proper part of one exact TLS record is not complete;
    the whole record is. *)
Lemma peekTLSRecord_partial (b rest : list byte) :
  head (b ++ rest) = Some x16 ->
  len (b ++ rest) = 5 + declaredLen (b ++ rest) ->
  rest <> [] ->
  peekTLSRecord b = (false, []).
Proof.
  intros Hh Hl Hrest.
  destruct (len b <? 5) eqn:Hlt.
  { unfold peekTLSRecord. by rewrite Hlt. }
  apply Z.ltb_ge in Hlt.
  assert (head b = Some x16) as Hb.
  { destruct b; [unfold len in Hlt; simpl in Hlt; lia | done]. }
  assert (declaredLen b = declaredLen (b ++ rest)) as HL.
  { unfold declaredLen. rewrite !byteAt_app_l; [done | lia | lia]. }
  rewrite peekTLSRecord_tls by done. rewrite HL.
  assert (0 < len rest).
  { pose proof (len_nonneg rest). destruct (Z.eq_dec (len rest) 0) as [E|]; [|lia].
    by apply len_zero in E. }
  rewrite len_app in Hl.
  destruct (_ <=? _) eqn:E; [apply Z.leb_le in E; lia | done].
Qed.

Lemma peekTLSRecord_exact (r : list byte) :
  head r = Some x16 ->
  len r = 5 + declaredLen r ->
  peekTLSRecord r = (true, r).
Proof.
  intros Hh Hl. rewrite peekTLSRecord_tls by done. rewrite <- Hl.
  rewrite Z.leb_refl. unfold len. rewrite Nat2Z.id. by rewrite firstn_all.
Qed.

(** C1. For a TCP flow whose buffer starts with byte 0x16, [ProcessPacket]
    reports completion exactly when the buffer holds at least 5 + L bytes, L
    being the big-endian 16-bit value of bytes 3-4; on completion it returns
    exactly those 5 + L bytes with ready = true and removes the flow's entry,
    so that the flow's next payload packet starts a new buffer; otherwise the
    entry is kept and nothing is returned.  In particular, when a flow with
    no entry receives, in sequence-number order, three non-empty segments
    whose concatenation is [0x16,0x03,0x03,0x00,0x05,b1,...,b5], the first
    two calls are not ready and the third returns exactly those 10 bytes,
    leaving no entry for the flow. *)
Theorem C1_tls_record_completion :
  (forall (now : Z) (packet : Packet) (tcp : TCP) (sr : Streams),
     pkt_TCP packet = Some tcp ->
     tcp_Payload tcp <> [] ->
     let flowKey := packetFlowKey packet tcp in
     let stream := touchedStream now tcp flowKey sr in
     let buffer := sb_Buffer stream in
     let L := declaredLen buffer in
     let r := ProcessPacket now packet sr in
     head buffer = Some x16 ->
     (readyOf r = true <-> 5 + L <= len buffer) /\
     (5 + L <= len buffer ->
        r = (delete flowKey sr, (take (Z.to_nat (5 + L)) buffer, true, flowKey)) /\
        len (payloadOf r) = 5 + L /\
        streamsOf r !! flowKey = None /\
        forall (now' : Z) (tcp' : TCP),
          touchedStream now' tcp' flowKey (streamsOf r) = firstStream now' tcp') /\
     (len buffer < 5 + L ->
        r = (<[flowKey := stream]> sr, ([], false, flowKey)))) /\
  (forall (now1 now2 now3 : Z) (p1 p2 p3 : Packet) (t1 t2 t3 : TCP)
          (flowKey : FlowKey) (b1 b2 b3 b4 b5 : byte) (sr : Streams),
     pkt_TCP p1 = Some t1 -> pkt_TCP p2 = Some t2 -> pkt_TCP p3 = Some t3 ->
     packetFlowKey p1 t1 = flowKey ->
     packetFlowKey p2 t2 = flowKey ->
     packetFlowKey p3 t3 = flowKey ->
     tcp_Payload t1 <> [] -> tcp_Payload t2 <> [] -> tcp_Payload t3 <> [] ->
     tcp_Payload t1 ++ tcp_Payload t2 ++ tcp_Payload t3 =
       [x16; x03; x03; x00; x05; b1; b2; b3; b4; b5] ->
     tcp_Seq t2 = uint32 (tcp_Seq t1 + len (tcp_Payload t1)) ->
     tcp_Seq t3 = uint32 (tcp_Seq t2 + len (tcp_Payload t2)) ->
     sr !! flowKey = None ->
     let r1 := ProcessPacket now1 p1 sr in
     let r2 := ProcessPacket now2 p2 (streamsOf r1) in
     let r3 := ProcessPacket now3 p3 (streamsOf r2) in
     r1.2 = ([], false, flowKey) /\
     r2.2 = ([], false, flowKey) /\
     r3.2 = ([x16; x03; x03; x00; x05; b1; b2; b3; b4; b5], true, flowKey) /\
     streamsOf r3 !! flowKey = None /\
     forall (now' : Z) (tcp' : TCP),
       touchedStream now' tcp' flowKey (streamsOf r3) = firstStream now' tcp').
Proof.
  split.
  - intros now packet tcp sr Htcp Hpay flowKey stream buffer L r Hh.
    pose proof (ProcessPacket_payload now packet tcp sr Htcp Hpay) as Hr.
    simpl in Hr. fold flowKey stream buffer r in Hr.
    rewrite (peekTLSRecord_tls buffer Hh) in Hr. fold L in Hr.
    destruct (5 + L <=? len buffer) eqn:E; simpl in Hr.
    + apply Z.leb_le in E. rewrite Hr.
      split; [by unfold readyOf|]. split; [|lia]. intros _.
      assert (delete flowKey sr !! flowKey = None) as Hd by apply lookup_delete_eq.
      repeat split; [| done |].
      * unfold payloadOf, len. simpl. rewrite length_take.
        pose proof (declaredLen_nonneg buffer). fold L in H. unfold len in E. lia.
      * intros. by apply touchedStream_fresh.
    + apply Z.leb_gt in E. rewrite Hr.
      split; [unfold readyOf; simpl; split; [done | lia]|].
      split; [lia | done].
  - intros now1 now2 now3 p1 p2 p3 t1 t2 t3 flowKey b1 b2 b3 b4 b5 sr
      H1 H2 H3 K1 K2 K3 N1 N2 N3 Hcat S2 S3 Hsr.
    set (rec := [x16; x03; x03; x00; x05; b1; b2; b3; b4; b5]) in *.
    assert (head rec = Some x16) as Hhead by done.
    assert (len rec = 5 + declaredLen rec) as Hlen by done.
    assert (len (tcp_Payload t1) + len (tcp_Payload t2) + len (tcp_Payload t3) = 10) as Hsum.
    { rewrite <- !len_app, <- app_assoc, Hcat. done. }
    pose proof (len_nonneg (tcp_Payload t1)). pose proof (len_nonneg (tcp_Payload t2)).
    pose proof (len_nonneg (tcp_Payload t3)).
    (* first segment *)
    pose proof (ProcessPacket_payload now1 p1 t1 sr H1 N1) as R1. simpl in R1.
    rewrite K1, (touchedStream_fresh _ _ _ _ Hsr) in R1. simpl in R1.
    rewrite (peekTLSRecord_partial (tcp_Payload t1) (tcp_Payload t2 ++ tcp_Payload t3)) in R1;
      [| by rewrite Hcat | by rewrite Hcat | by destruct (tcp_Payload t2)].
    simpl in R1. cbv zeta. rewrite R1. unfold streamsOf at 1 2 3. simpl.
    (* second segment *)
    set (sr1 := <[flowKey := firstStream now1 t1]> sr).
    assert (sr1 !! flowKey = Some (firstStream now1 t1)) as Hsr1 by apply lookup_insert_eq.
    pose proof (ProcessPacket_payload now2 p2 t2 sr1 H2 N2) as R2. simpl in R2.
    rewrite K2, (touchedStream_existing _ _ _ _ _ Hsr1) in R2.
    rewrite updateStream_in_order in R2;
      [| done | by rewrite S2 | unfold MaxBufferSize; simpl; lia].
    simpl in R2.
    rewrite (peekTLSRecord_partial (tcp_Payload t1 ++ tcp_Payload t2) (tcp_Payload t3)) in R2;
      [| by rewrite <- app_assoc, Hcat | by rewrite <- app_assoc, Hcat | done].
    simpl in R2. fold sr1. rewrite R2. simpl.
    (* third segment *)
    set (st2 := mkStreamBuffer _ _ _ _) in *.
    set (sr2 := <[flowKey := st2]> sr1).
    assert (sr2 !! flowKey = Some st2) as Hsr2 by apply lookup_insert_eq.
    pose proof (ProcessPacket_payload now3 p3 t3 sr2 H3 N3) as R3. simpl in R3.
    rewrite K3, (touchedStream_existing _ _ _ _ _ Hsr2) in R3.
    rewrite updateStream_in_order in R3;
      [| done | by rewrite S3 | unfold MaxBufferSize; simpl; rewrite len_app; lia].
    simpl in R3. rewrite <- app_assoc, Hcat in R3.
    rewrite (peekTLSRecord_exact rec Hhead Hlen) in R3. simpl in R3.
    fold sr2. rewrite R3. unfold streamsOf. simpl.
    assert (delete flowKey sr2 !! flowKey = None) as Hd by apply lookup_delete_eq.
    repeat split; [done|]. intros. by apply touchedStream_fresh.
Qed.

Lemma C1_tls_record_completion_witness :
  let p1 := segment "10.0.0.2" "93.184.216.34" "50000" "443(https)" 1000 [x16; x03] in
  let p2 := segment "10.0.0.2" "93.184.216.34" "50000" "443(https)" 1002 [x03; x00; x05; x0a] in
  let p3 := segment "10.0.0.2" "93.184.216.34" "50000" "443(https)" 1006 [x0b; x0c; x0d; x0e] in
  let flowKey := mkFlowKey "10.0.0.2" "93.184.216.34" "50000" "443(https)" "TCP" in
  let r1 := ProcessPacket 1 p1 ∅ in
  let r2 := ProcessPacket 2 p2 (streamsOf r1) in
  let r3 := ProcessPacket 3 p3 (streamsOf r2) in
  (readyOf r1 = true <-> 5 + 0 <= 2) /\
  r3.2 = ([x16; x03; x03; x00; x05; x0a; x0b; x0c; x0d; x0e], true, flowKey).
Proof.
  intros p1 p2 p3 flowKey r1 r2 r3.
  destruct C1_tls_record_completion as [Hrule Hthree].
  split.
  - refine (proj1 (Hrule 1 p1 _ ∅ eq_refl _ _)).
    + discriminate.
    + unfold touchedStream. rewrite lookup_empty. reflexivity.
  - refine (proj1 (proj2 (proj2
      (Hthree 1 2 3 p1 p2 p3 _ _ _ flowKey x0a x0b x0c x0d x0e ∅
         eq_refl eq_refl eq_refl eq_refl eq_refl eq_refl _ _ _ eq_refl eq_refl eq_refl _)))).
    + discriminate.
    + discriminate.
    + discriminate.
    + apply lookup_empty.
Defined.

(** C2, the statement as given fails: a flow's first segment carrying the
    single byte 0x47 is buffered and not reported ready, although the
    buffer's first byte is not 0x16. *)
Lemma C2_counterexample :
  ~ (forall (now : Z) (packet : Packet) (tcp : TCP) (sr : Streams),
       pkt_TCP packet = Some tcp ->
       tcp_Payload tcp <> [] ->
       let flowKey := packetFlowKey packet tcp in
       let buffer := sb_Buffer (touchedStream now tcp flowKey sr) in
       head buffer <> Some x16 ->
       (ProcessPacket now packet sr).2 = (buffer, true, flowKey)).
Proof.
  intros H.
  specialize (H 0 (segment "10.0.0.2" "93.184.216.34" "50000" "80(http)" 1000 [x47])
                _ ∅ eq_refl).
  simpl in H.
  rewrite ProcessPacket_payload with (tcp := mkTCP "50000" "80(http)" 1000 0
             false true false false true false [x47]) in H; [|done|done].
  unfold touchedStream in H. rewrite lookup_empty in H. simpl in H.
  assert ([x47] <> @nil byte) as H1 by done.
  assert (Some x47 <> Some x16) as H2 by done.
  specialize (H H1 H2). discriminate H.
Qed.

(** C2, amended.  The completion check first asks for 5 bytes.  For a TCP
    flow buffer whose first byte is not 0x16: once the buffer holds at
    least 5 bytes, [ProcessPacket] returns the whole buffer with
    ready = true on the call that brought it there and removes the entry;
    while it holds fewer than 5 bytes the call is not ready and the entry
    is kept. *)
Theorem C2_non_tls_completion :
  forall (now : Z) (packet : Packet) (tcp : TCP) (sr : Streams),
    pkt_TCP packet = Some tcp ->
    tcp_Payload tcp <> [] ->
    let flowKey := packetFlowKey packet tcp in
    let stream := touchedStream now tcp flowKey sr in
    let buffer := sb_Buffer stream in
    head buffer <> Some x16 ->
    (5 <= len buffer ->
       ProcessPacket now packet sr = (delete flowKey sr, (buffer, true, flowKey))) /\
    (len buffer < 5 ->
       ProcessPacket now packet sr = (<[flowKey := stream]> sr, ([], false, flowKey))).
Proof.
  intros now packet tcp sr Htcp Hpay flowKey stream buffer Hh.
  pose proof (ProcessPacket_payload now packet tcp sr Htcp Hpay) as Hr.
  simpl in Hr. fold flowKey stream buffer in Hr.
  rewrite (peekTLSRecord_other buffer Hh) in Hr.
  destruct (len buffer <? 5) eqn:E; simpl in Hr.
  - apply Z.ltb_lt in E. split; [lia | done].
  - apply Z.ltb_ge in E. split; [done | lia].
Qed.

Lemma C2_non_tls_completion_witness :
  let packet := segment "10.0.0.2" "93.184.216.34" "50000" "80(http)" 1000
                  [x47; x45; x54; x20; x2f] in
  ProcessPacket 0 packet ∅ =
    (delete (mkFlowKey "10.0.0.2" "93.184.216.34" "50000" "80(http)" "TCP") ∅,
     ([x47; x45; x54; x20; x2f], true,
      mkFlowKey "10.0.0.2" "93.184.216.34" "50000" "80(http)" "TCP")).
Proof.
  intros packet.
  refine (proj1 (C2_non_tls_completion 0 packet _ ∅ eq_refl _ _) _).
  - discriminate.
  - unfold touchedStream. rewrite lookup_empty. discriminate.
  - unfold touchedStream. rewrite lookup_empty. simpl. unfold len. simpl. lia.
Defined.

(** C3. A TCP packet with non-empty payload that finds an initialized
    entry for its flow leaves the entry as follows before the completion
    check: in order ([seq = nextSeq]) and within the capacity
    ([MaxBufferSize] = 65535 bytes) the payload is appended; in order but
    past the capacity the buffer is reset to the payload alone; after a gap
    ([seq > nextSeq]) it is reset likewise; for a retransmission
    ([seq < nextSeq]) buffer and [nextSeq] are unchanged.  On the three
    mutating paths [nextSeq] becomes [seq + len(payload)] in [uint32]
    arithmetic, which is the plain sum when that fits 32 bits.  The
    completion check of the call runs on that entry, which is what stays
    stored when the check fails. *)
Theorem C3_existing_buffer_update :
  forall (now : Z) (packet : Packet) (tcp : TCP) (sr : Streams) (stream : StreamBuffer),
    pkt_TCP packet = Some tcp ->
    tcp_Payload tcp <> [] ->
    sr !! packetFlowKey packet tcp = Some stream ->
    sb_Initialized stream = true ->
    let flowKey := packetFlowKey packet tcp in
    let payload := tcp_Payload tcp in
    let seq := tcp_Seq tcp in
    let stream' := updateStream now tcp stream in
    MaxBufferSize = 65535 /\
    (seq = sb_NextSeq stream ->
     len (sb_Buffer stream) + len payload <= MaxBufferSize ->
       sb_Buffer stream' = sb_Buffer stream ++ payload /\
       sb_NextSeq stream' = uint32 (seq + len payload)) /\
    (seq = sb_NextSeq stream ->
     len (sb_Buffer stream) + len payload > MaxBufferSize ->
       sb_Buffer stream' = payload /\
       sb_NextSeq stream' = uint32 (seq + len payload)) /\
    (seq > sb_NextSeq stream ->
       sb_Buffer stream' = payload /\
       sb_NextSeq stream' = uint32 (seq + len payload)) /\
    (seq < sb_NextSeq stream ->
       sb_Buffer stream' = sb_Buffer stream /\
       sb_NextSeq stream' = sb_NextSeq stream) /\
    (0 <= seq -> seq + len payload < 2 ^ 32 ->
       uint32 (seq + len payload) = seq + len payload) /\
    sb_Initialized stream' = true /\
    ProcessPacket now packet sr =
      if (peekTLSRecord (sb_Buffer stream')).1
      then (delete flowKey sr, ((peekTLSRecord (sb_Buffer stream')).2, true, flowKey))
      else (<[flowKey := stream']> sr, ([], false, flowKey)).
Proof.
  intros now packet tcp sr stream Htcp Hpay Hsr Hinit flowKey payload seq stream'.
  split; [done|].
  split. { intros Hs Hl. unfold stream'. by rewrite updateStream_in_order. }
  split. { intros Hs Hl. unfold stream'. by rewrite updateStream_overflow. }
  split. { intros Hs. unfold stream'. by rewrite updateStream_gap. }
  split. { intros Hs. unfold stream'. by rewrite updateStream_retransmission. }
  split. { intros H0 Hlt. apply uint32_small. pose proof (len_nonneg payload). lia. }
  split.
  { unfold stream'.
    destruct (Z.lt_trichotomy seq (sb_NextSeq stream)) as [Hlt | [Heq | Hgt]].
    - by rewrite updateStream_retransmission.
    - destruct (Z_le_gt_dec (len (sb_Buffer stream) + len payload) MaxBufferSize).
      + by rewrite updateStream_in_order.
      + by rewrite updateStream_overflow.
    - rewrite updateStream_gap; [done | done | unfold seq in Hgt; lia]. }
  pose proof (ProcessPacket_payload now packet tcp sr Htcp Hpay) as Hr.
  simpl in Hr. fold flowKey in Hr.
  by rewrite (touchedStream_existing _ _ _ _ _ Hsr) in Hr.
Qed.

Lemma C3_existing_buffer_update_witness :
  let stream := mkStreamBuffer [x16; x03] 7 1002 true in
  let tcp := mkTCP "50000" "443(https)" 1002 0 false true false false true false
               [x03; x00; x05] in
  sb_Buffer (updateStream 8 tcp stream) = [x16; x03; x03; x00; x05] /\
  sb_NextSeq (updateStream 8 tcp stream) = 1005.
Proof.
  intros stream tcp.
  set (packet := segment "10.0.0.2" "93.184.216.34" "50000" "443(https)" 1002
                   [x03; x00; x05]).
  set (flowKey := mkFlowKey "10.0.0.2" "93.184.216.34" "50000" "443(https)" "TCP").
  assert (({[flowKey := stream]} : Streams) !! packetFlowKey packet tcp = Some stream)
    as Hsr by apply lookup_singleton_eq.
  assert (tcp_Payload tcp <> []) as Hpay by discriminate.
  destruct (C3_existing_buffer_update 8 packet tcp {[flowKey := stream]} stream
              eq_refl Hpay Hsr eq_refl) as (_ & Hin & _).
  apply Hin; [reflexivity | unfold MaxBufferSize, len; simpl; lia].
Defined.

(** C10. When the buffer a call works on starts with 0x16 and holds at
    least 5 + L bytes, [ProcessPacket] returns its first 5 + L bytes and
    nothing else, and deletes the flow's entry: whatever the buffer held
    beyond the record is neither returned nor kept, and the entry the next
    payload packet of the flow works on holds that packet's payload
    alone. *)
Theorem C10_surplus_discarded :
  forall (now : Z) (packet : Packet) (tcp : TCP) (sr : Streams),
    pkt_TCP packet = Some tcp ->
    tcp_Payload tcp <> [] ->
    let flowKey := packetFlowKey packet tcp in
    let buffer := sb_Buffer (touchedStream now tcp flowKey sr) in
    let L := declaredLen buffer in
    let r := ProcessPacket now packet sr in
    head buffer = Some x16 ->
    5 + L <= len buffer ->
    exists record surplus : list byte,
      buffer = record ++ surplus /\
      len record = 5 + L /\
      payloadOf r = record /\
      readyOf r = true /\
      streamsOf r = delete flowKey sr /\
      streamsOf r !! flowKey = None /\
      forall (now' : Z) (packet' : Packet) (tcp' : TCP),
        pkt_TCP packet' = Some tcp' ->
        tcp_Payload tcp' <> [] ->
        packetFlowKey packet' tcp' = flowKey ->
        sb_Buffer (touchedStream now' tcp' flowKey (streamsOf r)) = tcp_Payload tcp' /\
        ProcessPacket now' packet' (streamsOf r) =
          if (peekTLSRecord (tcp_Payload tcp')).1
          then (delete flowKey sr, ((peekTLSRecord (tcp_Payload tcp')).2, true, flowKey))
          else (<[flowKey := firstStream now' tcp']> (delete flowKey sr),
                ([], false, flowKey)).
Proof.
  intros now packet tcp sr Htcp Hpay flowKey buffer L r Hh Hlen.
  pose proof (ProcessPacket_payload now packet tcp sr Htcp Hpay) as Hr.
  simpl in Hr. fold flowKey buffer r in Hr.
  rewrite (peekTLSRecord_tls buffer Hh) in Hr. fold L in Hr.
  rewrite (proj2 (Z.leb_le _ _) Hlen) in Hr. simpl in Hr.
  exists (take (Z.to_nat (5 + L)) buffer), (drop (Z.to_nat (5 + L)) buffer).
  rewrite Hr. unfold payloadOf, readyOf, streamsOf. simpl.
  split; [by rewrite take_drop|].
  split.
  { unfold len in *. rewrite length_take.
    pose proof (declaredLen_nonneg buffer). fold L in H. lia. }
  assert (delete flowKey sr !! flowKey = None) as Hd by apply lookup_delete_eq.
  do 4 (split; [done|]).
  intros now' packet' tcp' Htcp' Hpay' Hkey.
  split; [by rewrite (touchedStream_fresh _ _ _ _ Hd)|].
  rewrite (ProcessPacket_payload now' packet' tcp' _ Htcp' Hpay'). simpl.
  rewrite Hkey, (touchedStream_fresh _ _ _ _ Hd). simpl.
  by rewrite (delete_id _ _ Hd).
Qed.

Lemma C10_surplus_discarded_witness :
  let packet := segment "10.0.0.2" "93.184.216.34" "50000" "443(https)" 1000
                  [x16; x03; x03; x00; x01; xaa; xbb; xcc] in
  exists record surplus : list byte,
    [x16; x03; x03; x00; x01; xaa; xbb; xcc] = record ++ surplus /\
    len record = 5 + 1 /\
    payloadOf (ProcessPacket 0 packet ∅) = record.
Proof.
  intros packet.
  assert (tcp_Payload (mkTCP "50000" "443(https)" 1000 0 false true false false true
            false [x16; x03; x03; x00; x01; xaa; xbb; xcc]) <> []) as Hpay by discriminate.
  destruct (C10_surplus_discarded 0 packet _ ∅ eq_refl Hpay) as (record & surplus & H).
  - unfold touchedStream. rewrite lookup_empty. reflexivity.
  - unfold touchedStream. rewrite lookup_empty. simpl. unfold len. simpl.
    change (declaredLen [x16; x03; x03; x00; x01; xaa; xbb; xcc]) with 1. lia.
  - exists record, surplus.
    unfold touchedStream in H. rewrite lookup_empty in H. simpl in H.
    change (declaredLen [x16; x03; x03; x00; x01; xaa; xbb; xcc]) with 1 in H.
    destruct H as (H1 & H2 & H3 & _). auto.
Defined.

(** ** The parser: SNI extraction never stops on an index *)

Lemma index_ok (s : list byte) (i : Z) :
  0 <= i < len s -> index s i = Ok (byteAt s i).
Proof.
  intros [H0 H1]. unfold index.
  by rewrite (proj2 (Z.leb_le _ _) H0), (proj2 (Z.ltb_lt _ _) H1).
Qed.

Lemma slice_ok (s : list byte) (lo hi : Z) :
  0 <= lo <= hi -> hi <= len s ->
  slice s lo hi = Ok (take (Z.to_nat (hi - lo)) (drop (Z.to_nat lo) s)).
Proof.
  intros [H0 H1] H2. unfold slice.
  by rewrite (proj2 (Z.leb_le _ _) H0), (proj2 (Z.leb_le _ _) H1),
    (proj2 (Z.leb_le _ _) H2).
Qed.

(** Boolean comparisons in the hypotheses, as (in)equalities for [lia]. *)
Ltac zbool :=
  repeat match goal with
  | H : (_ >? _) = _ |- _ => rewrite Z.gtb_ltb in H
  | H : (_ >=? _) = _ |- _ => rewrite Z.geb_leb in H
  | H : (_ <? _) = true |- _ => apply Z.ltb_lt in H
  | H : (_ <? _) = false |- _ => apply Z.ltb_ge in H
  | H : (_ <=? _) = true |- _ => apply Z.leb_le in H
  | H : (_ <=? _) = false |- _ => apply Z.leb_gt in H
  | H : (_ =? _) = true |- _ => apply Z.eqb_eq in H
  | H : (_ =? _) = false |- _ => apply Z.eqb_neq in H
  | H : negb _ = true |- _ => apply negb_true_iff in H
  | H : negb _ = false |- _ => apply negb_false_iff in H
  end.

Lemma returns_Ok {A} (a : A) : returns (Ok a).
Proof. by exists a. Qed.

Lemma parseSNIExtension_loop_returns (fuel : nat) (data : list byte) (pos : Z) :
  0 <= pos ->
  0 < Z.of_nat fuel ->
  len data - pos < Z.of_nat fuel ->
  returns (parseSNIExtension_loop fuel data pos).
Proof.
  revert pos. induction fuel as [|fuel IH]; intros pos Hpos Hfuel Hmeasure; [lia|].
  cbn [parseSNIExtension_loop]. destruct (pos + 3 <=? len data) eqn:Hc; [|apply returns_Ok].
  zbool.
  rewrite !index_ok by lia. cbn [bind].
  set (nameLen := be16 _ _).
  assert (0 <= nameLen) by (apply be16_nonneg; apply byteAt_range).
  destruct (pos + 1 + 2 + nameLen >? len data) eqn:Hn; [apply returns_Ok|].
  zbool.
  destruct (byteAt data pos =? 0).
  - rewrite slice_ok by lia. apply returns_Ok.
  - apply IH; lia.
Qed.

Lemma parseSNIExtension_returns (data : list byte) : returns (parseSNIExtension data).
Proof.
  unfold parseSNIExtension.
  destruct (len data <? 2) eqn:H2; [apply returns_Ok|]. zbool.
  rewrite !index_ok by lia. cbn [bind].
  destruct (len data <? _); [apply returns_Ok|].
  apply parseSNIExtension_loop_returns; unfold len in *; lia.
Qed.

Lemma extractSNI_loop_returns (fuel : nat) (payload : list byte) (extensionsEnd pos : Z) :
  0 <= pos ->
  extensionsEnd <= len payload ->
  0 < Z.of_nat fuel ->
  extensionsEnd - pos < Z.of_nat fuel ->
  returns (extractSNI_loop fuel payload extensionsEnd pos).
Proof.
  revert pos. induction fuel as [|fuel IH]; intros pos Hpos Hend Hfuel Hmeasure; [lia|].
  cbn [extractSNI_loop]. destruct (pos + 4 <=? extensionsEnd) eqn:Hc; [|apply returns_Ok].
  zbool.
  rewrite !index_ok by lia. cbn [bind].
  set (extType := be16 (byteAt payload pos) _).
  set (extLen := be16 _ _).
  assert (0 <= extLen) by (apply be16_nonneg; apply byteAt_range).
  destruct (pos + 2 + 2 + extLen >? len payload) eqn:Hn; [apply returns_Ok|].
  zbool.
  destruct (extType =? 0).
  - rewrite slice_ok by lia. cbn [bind]. apply parseSNIExtension_returns.
  - apply IH; lia.
Qed.

Lemma extractSNI_returns (payload : list byte) : returns (extractSNI payload).
Proof.
  unfold extractSNI.
  destruct (len payload <? 6) eqn:H6; [apply returns_Ok|]. zbool.
  rewrite !index_ok by lia. cbn [bind].
  destruct (negb _); [apply returns_Ok|].
  destruct (len payload <? _); [apply returns_Ok|].
  destruct (5 >=? len payload); [apply returns_Ok|].
  destruct (negb _); [apply returns_Ok|].
  destruct (5 + 1 + 3 >? len payload); [apply returns_Ok|].
  destruct (5 + 1 + 3 + 2 >? len payload); [apply returns_Ok|].
  destruct (5 + 1 + 3 + 2 + 32 >? len payload); [apply returns_Ok|].
  destruct (5 + 1 + 3 + 2 + 32 >=? len payload) eqn:H43; [apply returns_Ok|]. zbool.
  rewrite index_ok by lia. cbn [bind].
  set (sessionIDLen := byteAt payload _).
  assert (0 <= sessionIDLen) by apply byteAt_range.
  set (p1 := 5 + 1 + 3 + 2 + 32 + 1 + sessionIDLen).
  destruct (p1 >? len payload); [apply returns_Ok|].
  destruct (p1 + 2 >? len payload) eqn:Hp1; [apply returns_Ok|]. zbool.
  rewrite !index_ok by lia. cbn [bind].
  set (cipherSuitesLen := be16 _ _).
  assert (0 <= cipherSuitesLen) by (apply be16_nonneg; apply byteAt_range).
  set (p2 := p1 + 2 + cipherSuitesLen).
  destruct (p2 >? len payload); [apply returns_Ok|].
  destruct (p2 >=? len payload) eqn:Hp2; [apply returns_Ok|]. zbool.
  rewrite index_ok by lia. cbn [bind].
  set (compressionMethodsLen := byteAt payload _).
  assert (0 <= compressionMethodsLen) by apply byteAt_range.
  set (p3 := p2 + 1 + compressionMethodsLen).
  destruct (p3 >? len payload); [apply returns_Ok|].
  destruct (p3 + 2 >? len payload) eqn:Hp3; [apply returns_Ok|]. zbool.
  rewrite !index_ok by lia. cbn [bind].
  set (extensionsLen := be16 _ _).
  assert (0 <= extensionsLen) by (apply be16_nonneg; apply byteAt_range).
  destruct (p3 + 2 + extensionsLen >? len payload) eqn:He; [apply returns_Ok|]. zbool.
  apply extractSNI_loop_returns; unfold len in *; lia.
Qed.

(** ** The parser: SNI extraction on a ClientHello *)

Example extractSNI_example : extractSNI exampleClientHello = Ok "example.com"%string.
Proof. vm_compute. reflexivity. Qed.

Lemma len_cons {A} (x : A) (s : list A) : len (x :: s) = 1 + len s.
Proof. unfold len. simpl. lia. Qed.

Lemma len_u16 (n : Z) : len (u16 n) = 2.
Proof. reflexivity. Qed.

Lemma len_u24 (n : Z) : len (u24 n) = 3.
Proof. reflexivity. Qed.

(** Lengths of concatenations, pushed down to the parts. *)
Ltac lens :=
  repeat progress
    (rewrite ?len_app, ?len_cons, ?len_u16, ?len_u24 in *;
     change (len (@nil byte)) with 0 in * ).

Lemma byteVal_byteOf (n : Z) : byteVal (byteOf n) = n mod 256.
Proof.
  unfold byteVal, byteOf.
  assert (0 <= n mod 256 < 256) as Hr by (apply Z.mod_pos_bound; lia).
  destruct (Byte.of_N (Z.to_N (n mod 256))) as [b|] eqn:E.
  - apply Byte.to_of_N in E. simpl. rewrite E. lia.
  - pose proof (Byte.to_of_N_option_map (Z.to_N (n mod 256))) as H.
    rewrite E in H. simpl in H.
    destruct (N.leb_spec (Z.to_N (n mod 256)) 255); [done | lia].
Qed.

Lemma be16_arith (hi lo : Z) : 0 <= lo < 256 -> be16 hi lo = hi * 256 + lo.
Proof.
  intros Hlo. unfold be16. rewrite Z.shiftl_mul_pow2 by lia.
  change (2 ^ 8) with 256. symmetry. apply Z.add_nocarry_lor.
  apply Z.bits_inj'. intros n Hn. rewrite Z.land_spec, Z.bits_0.
  destruct (Z_lt_dec n 8) as [Hlt|Hge].
  - change 256 with (2 ^ 8). by rewrite Z.mul_pow2_bits_low.
  - destruct (Z.eq_dec lo 0) as [->|Hne]; [by rewrite Z.bits_0, andb_false_r|].
    rewrite (Z.bits_above_log2 lo n); [apply andb_false_r | lia |].
    apply Z.log2_lt_pow2; [lia|].
    assert (2 ^ 8 <= 2 ^ n) by (apply Z.pow_le_mono_r; lia).
    change (2 ^ 8) with 256 in *. lia.
Qed.

Lemma be16_u16 (n : Z) :
  0 <= n < 65536 -> be16 (byteVal (byteOf (n / 256))) (byteVal (byteOf n)) = n.
Proof.
  intros Hn. rewrite !byteVal_byteOf.
  rewrite be16_arith by (apply Z.mod_pos_bound; lia).
  rewrite (Z.mod_small (n / 256)).
  - pose proof (Z.div_mod n 256). lia.
  - split; [apply Z.div_pos; lia | apply Z.div_lt_upper_bound; lia].
Qed.

Lemma byteVal_zero (b : byte) : byteVal b = 0 <-> b = x00.
Proof.
  split; [|by intros ->]. intros H. by apply byteVal_inj.
Qed.

(** *** Reading at a cursor *)

Lemma cursor_start (payload : list byte) : cursor payload 0 payload.
Proof. by exists []. Qed.

Lemma cursor_skip (payload a rest : list byte) (pos : Z) :
  cursor payload pos (a ++ rest) -> cursor payload (pos + len a) rest.
Proof.
  intros (pre & -> & <-). exists (pre ++ a).
  split; [by rewrite <- app_assoc | by rewrite len_app].
Qed.

Lemma cursor_next (payload rest : list byte) (c : byte) (pos : Z) :
  cursor payload pos (c :: rest) -> cursor payload (pos + 1) rest.
Proof. intros H. by apply (cursor_skip payload [c] rest). Qed.

Lemma cursor_len (payload rest : list byte) (pos : Z) :
  cursor payload pos rest -> 0 <= pos /\ len payload = pos + len rest.
Proof.
  intros (pre & -> & <-). split; [apply len_nonneg | by rewrite len_app].
Qed.

Lemma cursor_index (payload rest : list byte) (c : byte) (pos : Z) :
  cursor payload pos (c :: rest) -> index payload pos = Ok (byteVal c).
Proof.
  intros H. destruct (cursor_len _ _ _ H) as [H0 Hl]. rewrite len_cons in Hl.
  pose proof (len_nonneg rest).
  rewrite index_ok by lia. destruct H as (pre & -> & <-).
  unfold byteAt, len. rewrite Nat2Z.id.
  by rewrite lookup_app_r, Nat.sub_diag.
Qed.

Lemma cursor_u16 (payload rest : list byte) (n pos : Z) :
  cursor payload pos (u16 n ++ rest) ->
  index payload pos = Ok (byteVal (byteOf (n / 256))) /\
  index payload (pos + 1) = Ok (byteVal (byteOf n)).
Proof.
  intros H. split; [by apply (cursor_index _ _ _ _ H)|].
  apply cursor_next in H. by apply (cursor_index _ _ _ _ H).
Qed.

Lemma cursor_slice (payload body rest : list byte) (pos : Z) :
  cursor payload pos (body ++ rest) ->
  slice payload pos (pos + len body) = Ok body.
Proof.
  intros H. destruct (cursor_len _ _ _ H) as [H0 Hl]. rewrite len_app in Hl.
  pose proof (len_nonneg rest). pose proof (len_nonneg body).
  rewrite slice_ok by lia. destruct H as (pre & -> & <-). f_equal.
  unfold len. rewrite Nat2Z.id.
  rewrite drop_app_length.
  replace (Z.to_nat _) with (length body) by lia.
  by rewrite take_app_length.
Qed.

(** *** The two loops find the host name *)

(** One turn of the loop of [parseSNIExtension] at a well-formed entry. *)
Lemma parseSNIExtension_loop_entry (fuel : nat) (data more n : list byte) (ty : byte)
    (pos : Z) :
  len n < 65536 ->
  cursor data pos (serverNameBytes (ty, n) ++ more) ->
  cursor data (pos + 3 + len n) more /\
  parseSNIExtension_loop (S fuel) data pos =
    if byteVal ty =? 0 then Ok (string_of_list_byte n)
    else parseSNIExtension_loop fuel data (pos + 3 + len n).
Proof.
  intros Hn Hcur.
  change (serverNameBytes (ty, n) ++ more) with (ty :: u16 (len n) ++ n ++ more) in Hcur.
  destruct (cursor_len _ _ _ Hcur) as [Hpos Hlen]. lens.
  pose proof (len_nonneg n). pose proof (len_nonneg more).
  cbn [parseSNIExtension_loop].
  destruct (pos + 3 <=? len data) eqn:E; zbool; [|lia].
  rewrite (cursor_index _ _ _ _ Hcur). cbn [bind].
  apply cursor_next in Hcur.
  destruct (cursor_u16 _ _ _ _ Hcur) as [-> ->]. cbn [bind].
  rewrite be16_u16 by lia.
  destruct (pos + 1 + 2 + len n >? len data) eqn:E'; zbool; [lia|].
  apply (cursor_skip _ (u16 _)) in Hcur. rewrite len_u16 in Hcur.
  rewrite (cursor_slice _ _ _ _ Hcur). cbn [bind].
  apply cursor_skip in Hcur.
  replace (pos + 1 + 2 + len n) with (pos + 3 + len n) in * by lia.
  done.
Qed.

Lemma serverNamesBytes_cons (entry : byte * list byte) (entries : list (byte * list byte)) :
  serverNamesBytes (entry :: entries) = serverNameBytes entry ++ serverNamesBytes entries.
Proof. reflexivity. Qed.

Lemma parseSNIExtension_loop_found (fuel : nat) (data rest name : list byte)
    (before : list (byte * list byte)) (pos : Z) :
  Forall (fun entry => entry.1 <> x00 /\ len entry.2 < 65536) before ->
  len name < 65536 ->
  cursor data pos (serverNamesBytes before ++ serverNameBytes (x00, name) ++ rest) ->
  len data - pos < Z.of_nat fuel ->
  parseSNIExtension_loop fuel data pos = Ok (string_of_list_byte name).
Proof.
  intros Hbefore Hname. revert fuel pos.
  induction Hbefore as [|[ty n] before [Hty Hn] _ IH]; intros fuel pos Hcur Hfuel.
  - change (serverNamesBytes [] ++ ?x) with x in Hcur.
    destruct (cursor_len _ _ _ Hcur) as [Hpos Hlen].
    pose proof (len_nonneg (serverNameBytes (x00, name) ++ rest)).
    destruct fuel as [|fuel]; [lia|].
    by destruct (parseSNIExtension_loop_entry fuel _ _ _ _ _ Hname Hcur) as [_ ->].
  - simpl in Hty, Hn. rewrite serverNamesBytes_cons, <- app_assoc in Hcur.
    destruct (cursor_len _ _ _ Hcur) as [Hpos Hlen].
    pose proof (len_nonneg (serverNameBytes (ty, n) ++
      serverNamesBytes before ++ serverNameBytes (x00, name) ++ rest)).
    destruct fuel as [|fuel]; [lia|].
    destruct (parseSNIExtension_loop_entry fuel _ _ _ _ _ Hn Hcur) as [Hcur' ->].
    destruct (byteVal ty =? 0) eqn:E0; zbool.
    { by apply byteVal_zero in E0. }
    pose proof (len_nonneg n).
    apply IH; [done | lia].
Qed.

Lemma parseSNIExtension_list (entries : list byte) :
  len entries < 65536 ->
  cursor (u16 (len entries) ++ entries) 2 entries /\
  parseSNIExtension (u16 (len entries) ++ entries) =
    parseSNIExtension_loop (S (length (u16 (len entries) ++ entries)))
      (u16 (len entries) ++ entries) 2.
Proof.
  intros Hlen. pose proof (len_nonneg entries).
  pose proof (cursor_start (u16 (len entries) ++ entries)) as Hcur.
  destruct (cursor_u16 _ _ _ _ Hcur) as [H0 H1]. change (0 + 1) with 1 in H1.
  apply cursor_skip in Hcur. split; [done|].
  assert (len (u16 (len entries) ++ entries) = 2 + len entries) as Hl by (by lens).
  unfold parseSNIExtension. rewrite Hl, H0, H1. cbn [bind].
  rewrite be16_u16 by lia. rewrite Z.ltb_irrefl.
  destruct (2 + len entries <? 2) eqn:E; zbool; [lia | done].
Qed.

Lemma parseSNIExtension_found (before after : list (byte * list byte)) (name : list byte) :
  Forall (fun entry => entry.1 <> x00 /\ len entry.2 < 65536) before ->
  len (serverNamesBytes (before ++ (x00, name) :: after)) < 65536 ->
  parseSNIExtension (serverNameExtension (before ++ (x00, name) :: after)) =
    Ok (string_of_list_byte name).
Proof.
  intros Hbefore Hlen. unfold serverNameExtension.
  destruct (parseSNIExtension_list _ Hlen) as [Hcur ->].
  assert (serverNamesBytes (before ++ (x00, name) :: after) =
          serverNamesBytes before ++ serverNameBytes (x00, name) ++
          serverNamesBytes after) as Hentries.
  { unfold serverNamesBytes. by rewrite flat_map_app. }
  assert (cursor
            (u16 (len (serverNamesBytes (before ++ (x00, name) :: after))) ++
             serverNamesBytes (before ++ (x00, name) :: after)) 2
            (serverNamesBytes before ++ serverNameBytes (x00, name) ++
             serverNamesBytes after)) as Hcur'
    by (by rewrite <- Hentries).
  assert (len name < 65536) as Hname.
  { rewrite Hentries in Hlen.
    change (serverNameBytes (x00, name)) with (x00 :: u16 (len name) ++ name) in Hlen.
    lens. pose proof (len_nonneg (serverNamesBytes before)).
    pose proof (len_nonneg (serverNamesBytes after)). lia. }
  apply (parseSNIExtension_loop_found _ _ _ _ _ _ Hbefore Hname Hcur').
  unfold len. lia.
Qed.

(** One turn of the loop of [extractSNI] at a well-formed extension. *)
Lemma extractSNI_loop_extension (fuel : nat) (payload more body : list byte)
    (t pos extensionsEnd : Z) :
  0 <= t < 65536 ->
  len body < 65536 ->
  cursor payload pos (extensionBytes (t, body) ++ more) ->
  pos + 4 <= extensionsEnd ->
  cursor payload (pos + 4 + len body) more /\
  extractSNI_loop (S fuel) payload extensionsEnd pos =
    if t =? 0 then parseSNIExtension body
    else extractSNI_loop fuel payload extensionsEnd (pos + 4 + len body).
Proof.
  intros Ht Hbody Hcur Hend.
  change (extensionBytes (t, body) ++ more)
    with ((u16 t ++ u16 (len body) ++ body) ++ more) in Hcur.
  rewrite <- !app_assoc in Hcur.
  destruct (cursor_len _ _ _ Hcur) as [Hpos Hlen]. lens.
  pose proof (len_nonneg body). pose proof (len_nonneg more).
  cbn [extractSNI_loop].
  destruct (pos + 4 <=? extensionsEnd) eqn:E; zbool; [|lia].
  destruct (cursor_u16 _ _ _ _ Hcur) as [-> ->]. cbn [bind].
  apply cursor_skip in Hcur. rewrite len_u16 in Hcur.
  destruct (cursor_u16 _ _ _ _ Hcur) as [-> ->]. cbn [bind].
  rewrite !be16_u16 by lia.
  destruct (pos + 2 + 2 + len body >? len payload) eqn:E'; zbool; [lia|].
  apply cursor_skip in Hcur. rewrite len_u16 in Hcur.
  rewrite (cursor_slice _ _ _ _ Hcur). cbn [bind].
  apply cursor_skip in Hcur.
  replace (pos + 2 + 2 + len body) with (pos + 4 + len body) in * by lia.
  done.
Qed.

Lemma extensionsBytes_cons (ext : Z * list byte) (exts : list (Z * list byte)) :
  extensionsBytes (ext :: exts) = extensionBytes ext ++ extensionsBytes exts.
Proof. reflexivity. Qed.

Lemma len_extensionBytes (ext : Z * list byte) :
  len (extensionBytes ext) = 4 + len ext.2.
Proof. unfold extensionBytes. lens. lia. Qed.

Lemma extractSNI_loop_found (fuel : nat) (payload rest body : list byte)
    (before : list (Z * list byte)) (pos extensionsEnd : Z) :
  Forall (fun ext => 0 < ext.1 < 65536 /\ len ext.2 < 65536) before ->
  len body < 65536 ->
  cursor payload pos (extensionsBytes before ++ extensionBytes (0, body) ++ rest) ->
  pos + len (extensionsBytes before) + 4 <= extensionsEnd ->
  extensionsEnd - pos < Z.of_nat fuel ->
  extractSNI_loop fuel payload extensionsEnd pos = parseSNIExtension body.
Proof.
  intros Hbefore Hbody. revert fuel pos.
  induction Hbefore as [|[t b] before [Ht Hb] _ IH]; intros fuel pos Hcur Hend Hfuel.
  - change (extensionsBytes [] ++ ?x) with x in Hcur.
    change (len (extensionsBytes [])) with 0 in Hend.
    destruct fuel as [|fuel]; [lia|].
    assert (0 <= 0 < 65536) as H0 by lia.
    assert (pos + 4 <= extensionsEnd) as H4 by lia.
    by destruct (extractSNI_loop_extension fuel _ _ _ _ _ _ H0 Hbody Hcur H4) as [_ ->].
  - simpl in Ht, Hb. rewrite extensionsBytes_cons, <- app_assoc in Hcur.
    rewrite extensionsBytes_cons, len_app, len_extensionBytes in Hend. simpl in Hend.
    pose proof (len_nonneg b). pose proof (len_nonneg (extensionsBytes before)).
    destruct fuel as [|fuel]; [lia|].
    assert (0 <= t < 65536) as Ht' by lia.
    assert (pos + 4 <= extensionsEnd) as H4 by lia.
    destruct (extractSNI_loop_extension fuel _ _ _ _ _ _ Ht' Hb Hcur H4) as [Hcur' ->].
    destruct (t =? 0) eqn:E0; zbool; [lia|].
    apply IH; [done | lia | lia].
Qed.

(** Guards of a byte walk that the known lengths decide. *)
Ltac passGuards :=
  repeat match goal with
  | |- (if ?c then _ else _) = _ =>
      let E := fresh "E" in destruct c eqn:E; zbool; [lia|]; clear E
  end.

Lemma extractSNI_clientHelloWith (random sessionID cipherSuites compression : list byte)
    (declared : Z) (extensions : list byte) :
  len random = 32 ->
  len sessionID < 256 ->
  len cipherSuites < 65536 ->
  len compression < 256 ->
  0 <= declared < 65536 ->
  len (clientHelloWith random sessionID cipherSuites compression declared extensions)
    < 5 + 65536 ->
  let payload :=
    clientHelloWith random sessionID cipherSuites compression declared extensions in
  let pos := extensionsOffset sessionID cipherSuites compression in
  cursor payload pos extensions /\
  len payload = pos + len extensions /\
  extractSNI payload =
    if pos + declared >? len payload then Ok EmptyString
    else extractSNI_loop (S (length payload)) payload (pos + declared) pos.
Proof.
  intros Hrandom Hsid Hcs Hcomp Hdecl Hfits payload pos.
  pose proof (len_nonneg sessionID). pose proof (len_nonneg cipherSuites).
  pose proof (len_nonneg compression). pose proof (len_nonneg extensions).
  pose proof (cursor_start payload) as C.
  unfold payload at 2, clientHelloWith in C.
  set (body := [x03; x03] ++ _) in *.
  set (hs := x01 :: u24 (len body) ++ body) in *.
  assert (len body = 2 + 32 + 1 + len sessionID + 2 + len cipherSuites + 1 +
                     len compression + 2 + len extensions) as Hbody.
  { unfold body. lens. lia. }
  assert (len hs = 4 + len body) as Hhs by (unfold hs; lens; lia).
  assert (len payload = 5 + len hs) as Hpayload.
  { unfold payload, clientHelloWith. fold body. fold hs. lens. lia. }
  assert (len hs < 65536) as Hhs' by (fold payload in Hfits; lia).
  (* the record header *)
  pose proof (cursor_index _ _ _ _ C) as I0.
  apply (cursor_skip _ [x16; x03; x01]) in C. change (0 + len _) with 3 in C.
  destruct (cursor_u16 _ _ _ _ C) as [I3 I4]. change (3 + 1) with 4 in I4.
  apply cursor_skip in C. rewrite len_u16 in C. change (3 + 2) with 5 in C.
  (* the handshake header, the version and the random *)
  unfold hs in C. pose proof (cursor_index _ _ _ _ C) as I5.
  apply cursor_next in C. apply cursor_skip in C. rewrite len_u24 in C.
  unfold body in C.
  apply (cursor_skip _ [x03; x03]) in C. change (len [x03; x03]) with 2 in C.
  apply cursor_skip in C. rewrite Hrandom in C.
  (* the session id *)
  pose proof (cursor_index _ _ _ _ C) as I43.
  apply cursor_next in C. apply cursor_skip in C.
  (* the cipher suites *)
  destruct (cursor_u16 _ _ _ _ C) as [Ic1 Ic0].
  apply cursor_skip in C. rewrite len_u16 in C. apply cursor_skip in C.
  (* the compression methods *)
  pose proof (cursor_index _ _ _ _ C) as Icomp.
  apply cursor_next in C. apply cursor_skip in C.
  (* the extensions length *)
  destruct (cursor_u16 _ _ _ _ C) as [Ie1 Ie0].
  apply cursor_skip in C. rewrite len_u16 in C.
  split; [exact C|]. split; [unfold pos, extensionsOffset; lia|].
  assert (byteVal (byteOf (len sessionID)) = len sessionID) as Vs
    by (rewrite byteVal_byteOf; apply Z.mod_small; lia).
  assert (byteVal (byteOf (len compression)) = len compression) as Vc
    by (rewrite byteVal_byteOf; apply Z.mod_small; lia).
  rewrite Vs in I43. rewrite Vc in Icomp.
  clearbody payload. clear C.
  unfold extractSNI.
  passGuards. rewrite I0. cbn [bind]. change (byteVal x16 =? 22) with true. cbn [negb].
  rewrite I3, I4. cbn [bind]. rewrite be16_u16 by lia.
  passGuards. rewrite I5. cbn [bind]. change (byteVal x01 =? 1) with true. cbn [negb].
  passGuards. rewrite I43. cbn [bind].
  passGuards. rewrite Ic1, Ic0. cbn [bind]. rewrite be16_u16 by lia.
  passGuards. rewrite Icomp. cbn [bind].
  passGuards. rewrite Ie1, Ie0. cbn [bind]. rewrite be16_u16 by lia.
  reflexivity.
Qed.

(** A record shorter than its header declares yields no name. *)
Lemma extractSNI_short (payload : list byte) :
  len payload < 5 + declaredLen payload ->
  extractSNI payload = Ok EmptyString.
Proof.
  intros Hshort. unfold extractSNI.
  destruct (len payload <? 6) eqn:E6; [done|]. zbool.
  rewrite !index_ok by lia. cbn [bind].
  destruct (negb _); [done|].
  fold (declaredLen payload).
  destruct (len payload <? 5 + declaredLen payload) eqn:E; zbool; [done | lia].
Qed.

Lemma extractSNI_partial (payload rest : list byte) :
  rest <> [] ->
  len (payload ++ rest) = 5 + declaredLen (payload ++ rest) ->
  extractSNI payload = Ok EmptyString.
Proof.
  intros Hrest Hexact.
  destruct (Z_lt_dec (len payload) 6) as [H6|H6].
  { unfold extractSNI. destruct (len payload <? 6) eqn:E; zbool; [done | lia]. }
  apply extractSNI_short.
  assert (declaredLen payload = declaredLen (payload ++ rest)) as ->.
  { unfold declaredLen. rewrite !byteAt_app_l; [done | lia | lia]. }
  rewrite <- Hexact, len_app.
  assert (len rest <> 0) by (by rewrite len_zero).
  pose proof (len_nonneg rest). lia.
Qed.

(** The record built by [clientHelloWith] is as long as its header says. *)
Lemma clientHelloWith_exact (random sessionID cipherSuites compression : list byte)
    (declared : Z) (extensions : list byte) :
  let payload :=
    clientHelloWith random sessionID cipherSuites compression declared extensions in
  len payload < 5 + 65536 ->
  len payload = 5 + declaredLen payload.
Proof.
  intros payload Hfits.
  unfold payload, clientHelloWith in *.
  set (hs := x01 :: u24 _ ++ _) in *.
  assert (len ([x16; x03; x01] ++ u16 (len hs) ++ hs) = 5 + len hs) as Hpayload
    by (lens; lia).
  pose proof (len_nonneg hs).
  change (declaredLen ([x16; x03; x01] ++ u16 (len hs) ++ hs))
    with (be16 (byteVal (byteOf (len hs / 256))) (byteVal (byteOf (len hs)))).
  rewrite be16_u16 by lia. done.
Qed.

Lemma len_clientHelloWith (random sessionID cipherSuites compression : list byte)
    (declared : Z) (extensions : list byte) :
  len (clientHelloWith random sessionID cipherSuites compression declared extensions) =
    5 + 4 + 2 + len random + 1 + len sessionID + 2 + len cipherSuites + 1 +
    len compression + 2 + len extensions.
Proof. unfold clientHelloWith. cbv zeta. lens. lia. Qed.

Lemma removelast_snoc (s : list byte) :
  s <> [] -> exists c, s = removelast s ++ [c].
Proof.
  intros H. destruct (exists_last H) as (s' & c & ->).
  exists c. by rewrite removelast_last.
Qed.

Section ClientHello.

Variables random sessionID cipherSuites compression : list byte.
Variables before after : list (Z * list byte).
Variables namesBefore namesAfter : list (byte * list byte).
Variable host : list byte.

(** The extensions: some that are not server_name, the server_name
    extension, whatever follows.  In its list: entries that are not host
    names, the host name, whatever follows. *)
Let names := namesBefore ++ (x00, host) :: namesAfter.
Let exts := before ++ (0, serverNameExtension names) :: after.

Hypothesis random_len : len random = 32.
Hypothesis sessionID_len : len sessionID < 256.
Hypothesis compression_len : len compression < 256.
Hypothesis before_ok :
  Forall (fun ext => 0 < ext.1 < 65536 /\ len ext.2 < 65536) before.
Hypothesis namesBefore_ok :
  Forall (fun entry => entry.1 <> x00 /\ len entry.2 < 65536) namesBefore.
Hypothesis fits :
  len (clientHello random sessionID cipherSuites compression exts) < 5 + 65536.

Let block_split :
  extensionsBytes exts =
    extensionsBytes before ++ extensionBytes (0, serverNameExtension names) ++
    extensionsBytes after.
Proof. unfold exts, extensionsBytes. by rewrite flat_map_app. Qed.

Let sizes :
  len cipherSuites < 65536 /\
  len (extensionsBytes exts) < 65536 /\
  len (serverNamesBytes names) < 65536 /\
  len (serverNameExtension names) < 65536.
Proof.
  assert (len (serverNameExtension names) = 2 + len (serverNamesBytes names)) as HS.
  { unfold serverNameExtension. by rewrite len_app, len_u16. }
  pose proof fits as Hfits. unfold clientHello in Hfits.
  rewrite len_clientHelloWith in Hfits.
  assert (len (extensionsBytes exts) =
          len (extensionsBytes before) + (4 + (2 + len (serverNamesBytes names))) +
          len (extensionsBytes after)) as HE.
  { rewrite block_split, !len_app, len_extensionBytes. cbn [snd].
    unfold serverNameExtension. rewrite len_app, len_u16. lia. }
  pose proof (len_nonneg random). pose proof (len_nonneg sessionID).
  pose proof (len_nonneg cipherSuites). pose proof (len_nonneg compression).
  pose proof (len_nonneg (extensionsBytes before)).
  pose proof (len_nonneg (extensionsBytes after)).
  pose proof (len_nonneg (serverNamesBytes names)).
  lia.
Qed.

Lemma extractSNI_clientHello :
  extractSNI (clientHello random sessionID cipherSuites compression exts) =
    Ok (string_of_list_byte host).
Proof.
  destruct sizes as (Hcs & Hblock & Hnames & Hsni).
  pose proof (len_nonneg (extensionsBytes exts)) as Hblock0.
  unfold clientHello.
  destruct (extractSNI_clientHelloWith random sessionID cipherSuites compression
              (len (extensionsBytes exts)) (extensionsBytes exts)
              random_len sessionID_len Hcs compression_len
              (conj Hblock0 Hblock) fits)
    as (C & Hlen & ->).
  set (payload := clientHelloWith _ _ _ _ _ _) in *.
  set (pos := extensionsOffset _ _ _) in *.
  destruct (pos + len (extensionsBytes exts) >? len payload) eqn:E; zbool; [lia|].
  rewrite block_split in C.
  rewrite (extractSNI_loop_found (S (length payload)) payload (extensionsBytes after)
             (serverNameExtension names) before pos
             (pos + len (extensionsBytes exts)) before_ok).
  - by apply parseSNIExtension_found.
  - exact Hsni.
  - exact C.
  - rewrite block_split, !len_app, len_extensionBytes.
    pose proof (len_nonneg (extensionsBytes after)).
    pose proof (len_nonneg (serverNameExtension names)). simpl. lia.
  - pose proof (cursor_len _ _ _ C) as [? _]. unfold len in *. lia.
Qed.

Lemma extractSNI_clientHelloCut :
  extractSNI (clientHelloCut random sessionID cipherSuites compression exts) =
    Ok EmptyString.
Proof.
  unfold clientHelloCut.
  pose proof (clientHelloWith_exact random sessionID cipherSuites compression
                _ _ fits) as Hexact.
  fold (clientHello random sessionID cipherSuites compression exts) in Hexact.
  set (payload := clientHello _ _ _ _ _) in *. clearbody payload.
  assert (payload <> []) as Hne.
  { intros ->. pose proof (declaredLen_nonneg []). change (len (@nil byte)) with 0 in *. lia. }
  destruct (removelast_snoc payload Hne) as [c Hc].
  apply (extractSNI_partial _ [c]); [done|].
  by rewrite <- Hc.
Qed.

Lemma extractSNI_clientHelloShortBlock :
  extractSNI (clientHelloShortBlock random sessionID cipherSuites compression exts) =
    Ok EmptyString.
Proof.
  destruct sizes as (Hcs & Hblock & Hnames & Hsni).
  pose proof (len_nonneg (extensionsBytes exts)) as Hblock0.
  assert (extensionsBytes exts <> []) as Hne.
  { rewrite block_split. unfold extensionBytes. simpl. by destruct (extensionsBytes before). }
  destruct (removelast_snoc _ Hne) as [c Hc].
  assert (len (extensionsBytes exts) = len (removelast (extensionsBytes exts)) + 1) as Hl.
  { rewrite Hc at 1. by lens. }
  unfold clientHelloShortBlock.
  assert (len (clientHelloWith random sessionID cipherSuites compression
                 (len (extensionsBytes exts)) (removelast (extensionsBytes exts)))
          < 5 + 65536) as Hfits.
  { pose proof fits as Hfits. unfold clientHello in Hfits.
    rewrite len_clientHelloWith in *. lia. }
  destruct (extractSNI_clientHelloWith random sessionID cipherSuites compression
              (len (extensionsBytes exts)) (removelast (extensionsBytes exts))
              random_len sessionID_len Hcs compression_len
              (conj Hblock0 Hblock) Hfits)
    as (C & Hlen & ->).
  destruct (_ >? _) eqn:E; zbool; [reflexivity | lia].
Qed.

End ClientHello.

(** Cut anywhere, a record that was as long as its header says yields no
    name. *)
Lemma extractSNI_truncated (payload : list byte) (n : nat) :
  len payload = 5 + declaredLen payload ->
  (n < length payload)%nat ->
  extractSNI (take n payload) = Ok EmptyString.
Proof.
  intros Hexact Hn. apply (extractSNI_partial _ (drop n payload)).
  - intros Hd. apply (f_equal length) in Hd. rewrite length_drop in Hd.
    simpl in Hd. lia.
  - by rewrite take_drop.
Qed.

(** C5. [extractSNI] comes back with a string on every input: each index
    and slice it evaluates is in range, and its loops end within the bound
    they are given.  It fails closed: a payload that stops short of the
    record length its header declares, in particular any proper prefix of
    a complete record, yields the empty string.  A well-formed ClientHello
    whose server_name list has the host name example.com as its first
    entry of name type 0 (after any extensions that are not server_name and
    any entries that are not host names) yields exactly example.com; the
    same message cut at any point, or with the last byte of its extensions
    block missing (with or without the outer lengths adjusted), yields the
    empty string, and so does the example cut inside the block with the
    lengths adjusted up to any level. *)
Theorem C5_extractSNI_total_fail_closed :
  (forall payload : list byte, returns (extractSNI payload)) /\
  (forall payload rest : list byte,
     rest <> [] ->
     len (payload ++ rest) = 5 + declaredLen (payload ++ rest) ->
     extractSNI payload = Ok EmptyString) /\
  (forall (random sessionID cipherSuites compression : list byte)
          (before after : list (Z * list byte))
          (namesBefore namesAfter : list (byte * list byte)),
     let exts :=
       before ++
       (0, serverNameExtension (namesBefore ++ hostName "example.com" :: namesAfter))
       :: after in
     let hello := clientHello random sessionID cipherSuites compression exts in
     len random = 32 ->
     len sessionID < 256 ->
     len compression < 256 ->
     Forall (fun ext => 0 < ext.1 < 65536 /\ len ext.2 < 65536) before ->
     Forall (fun entry => entry.1 <> x00 /\ len entry.2 < 65536) namesBefore ->
     len hello < 5 + 65536 ->
     extractSNI hello = Ok "example.com"%string /\
     (forall n : nat, (n < length hello)%nat ->
        extractSNI (take n hello) = Ok EmptyString) /\
     extractSNI (clientHelloCut random sessionID cipherSuites compression exts) =
       Ok EmptyString /\
     extractSNI (clientHelloShortBlock random sessionID cipherSuites compression exts) =
       Ok EmptyString) /\
  extractSNI exampleClientHello = Ok "example.com"%string /\
  extractSNI (removelast exampleClientHello) = Ok EmptyString /\
  Forall (fun payload => extractSNI payload = Ok EmptyString) exampleInnerCuts.
Proof.
  split; [apply extractSNI_returns|].
  split; [apply extractSNI_partial|].
  split; [|split; [|split]; [vm_compute; reflexivity ..|]].
  2: { repeat (constructor; [vm_compute; reflexivity|]). constructor. }
  intros random sessionID cipherSuites compression before after namesBefore namesAfter
    exts hello Hrandom Hsid Hcomp Hbefore Hnames Hfits.
  split; [|split; [|split]].
  - unfold hello, exts, hostName.
    rewrite (extractSNI_clientHello _ _ _ _ _ _ _ _ _ Hrandom Hsid Hcomp Hbefore Hnames Hfits).
    by rewrite string_of_list_byte_of_string.
  - intros n Hn. apply extractSNI_truncated; [|done].
    exact (clientHelloWith_exact _ _ _ _ _ _ Hfits).
  - exact (extractSNI_clientHelloCut _ _ _ _ _ _ _ _ _ Hfits).
  - exact (extractSNI_clientHelloShortBlock _ _ _ _ _ _ _ _ _ Hrandom Hsid Hcomp Hfits).
Qed.

Lemma C5_extractSNI_total_fail_closed_witness :
  extractSNI exampleClientHello = Ok "example.com"%string /\
  extractSNI (clientHelloCut exampleRandom [] [x13; x01; x13; x02] [x00] exampleExtensions)
    = Ok EmptyString /\
  extractSNI (take 40 exampleClientHello) = Ok EmptyString /\
  returns (extractSNI [x16; x03; x01; xff; xff; x01]).
Proof.
  destruct C5_extractSNI_total_fail_closed as (Htotal & _ & Hhello & _).
  assert (len exampleRandom = 32) as Hrandom by reflexivity.
  assert (len (@nil byte) < 256) as Hsid by reflexivity.
  assert (len [x00] < 256) as Hcomp by reflexivity.
  assert (Forall (fun ext : Z * list byte => 0 < ext.1 < 65536 /\ len ext.2 < 65536)
            [(43, [x02; x03; x04])]) as Hbefore.
  { constructor; [|constructor]. simpl. unfold len. simpl. lia. }
  assert (Forall (fun entry : byte * list byte => entry.1 <> x00 /\ len entry.2 < 65536)
            []) as Hnames by constructor.
  assert (len exampleClientHello < 5 + 65536) as Hfits by (vm_compute; reflexivity).
  destruct (Hhello exampleRandom [] [x13; x01; x13; x02] [x00]
              [(43, [x02; x03; x04])] [] [] []
              Hrandom Hsid Hcomp Hbefore Hnames Hfits) as (H1 & H2 & H3 & _).
  split; [exact H1|]. split; [exact H3|]. split; [|apply Htotal].
  apply H2. vm_compute. lia.
Defined.

(** ** The parser: TLS detection *)

Lemma isTLSHandshake_iff (payload : list byte) :
  isTLSHandshake payload = true <->
  6 <= len payload /\ byteAt payload 0 = 22 /\
  769 <= be16 (byteAt payload 1) (byteAt payload 2) <= 772.
Proof.
  unfold isTLSHandshake.
  destruct (len payload <? 6) eqn:E6; zbool; [split; [done | lia]|].
  destruct (byteAt payload 0 =? 22) eqn:E0; zbool; simpl; [|split; [done | lia]].
  set (version := be16 _ _).
  destruct (version <? 769) eqn:E1; zbool; simpl; [split; [done | lia]|].
  destruct (version >? 772) eqn:E2; zbool; simpl; [split; [done | lia]|].
  split; [lia | done].
Qed.

Lemma getTLSVersionString_label (version : Z) :
  769 <= version <= 772 ->
  getTLSVersionString version =
    nth (Z.to_nat (version - 769))
      ["TLS 1.0"; "TLS 1.1"; "TLS 1.2"; "TLS 1.3"]%string EmptyString.
Proof.
  intros H.
  assert (version = 769 \/ version = 770 \/ version = 771 \/ version = 772)
    as [-> | [-> | [-> | ->]]] by lia; reflexivity.
Qed.

(** C9, the statement as given fails: the five bytes 16 03 03 00 00 (a TLS
    record header for an empty record, which the reassembler hands over as
    complete) have byte 0 = 0x16 and version 0x0303, and the packet is not
    marked as TLS. *)
Lemma C9_counterexample :
  ~ (forall info info' : PacketInfo,
       IsTLS info = false ->
       parseTLS info = Ok info' ->
       (IsTLS info' = true <->
        byteAt (Payload info) 0 = 22 /\
        769 <= be16 (byteAt (Payload info) 1) (byteAt (Payload info) 2) <= 772)).
Proof.
  intros H.
  specialize (H (set_Payload [x16; x03; x03; x00; x00] zeroPacketInfo)
                (set_Payload [x16; x03; x03; x00; x00] zeroPacketInfo)
                eq_refl eq_refl).
  destruct H as [_ H]. simpl in H.
  assert (false = true) as Hf; [|discriminate Hf].
  apply H. vm_compute. repeat split; discriminate.
Qed.

(** C9, amended.  [parseTLS] always comes back; a packet not yet marked is
    marked as TLS if and only if its payload holds at least 6 bytes, byte 0
    is 0x16 and bytes 1-2, read as a big-endian 16-bit version, lie between
    0x0301 and 0x0304.  On a match the version field is set to the label of
    that version (TLS 1.0 to TLS 1.3) and SNI extraction is run on the
    payload, its result stored when non-empty; without a match the packet
    is left as it was. *)
Theorem C9_tls_detection :
  forall info : PacketInfo,
    IsTLS info = false ->
    let payload := Payload info in
    let version := be16 (byteAt payload 1) (byteAt payload 2) in
    let isTLS := 6 <= len payload /\ byteAt payload 0 = 22 /\ 769 <= version <= 772 in
    exists info' : PacketInfo,
      parseTLS info = Ok info' /\
      (IsTLS info' = true <-> isTLS) /\
      (isTLS ->
         exists sni : string,
           extractSNI payload = Ok sni /\
           TLSVersion info' =
             nth (Z.to_nat (version - 769))
               ["TLS 1.0"; "TLS 1.1"; "TLS 1.2"; "TLS 1.3"]%string EmptyString /\
           SNI info' = (if String.eqb sni EmptyString then SNI info else sni) /\
           info' =
             (if String.eqb sni EmptyString then fun i => i else set_SNI sni)
               (set_TLSVersion (getTLSVersionString version) (set_IsTLS true info))) /\
      (~ isTLS -> info' = info).
Proof.
  intros info Hfresh payload version isTLS.
  pose proof (isTLSHandshake_iff payload) as Hiff. fold version isTLS in Hiff.
  unfold parseTLS. fold payload.
  destruct (isTLSHandshake payload) eqn:E; cbn [negb].
  - assert isTLS as HisTLS by (by apply Hiff).
    destruct (extractSNI_returns payload) as [sni Hsni]. rewrite Hsni. cbn [bind].
    destruct (len payload >=? 3) eqn:E3; zbool; [|unfold isTLS in HisTLS; lia].
    fold version.
    exists ((if String.eqb sni EmptyString then fun i => i else set_SNI sni)
              (set_TLSVersion (getTLSVersionString version) (set_IsTLS true info))).
    split; [by destruct (String.eqb sni EmptyString)|].
    split; [by destruct (String.eqb sni EmptyString)|].
    split; [|done].
    intros _. exists sni. split; [done|].
    split; [|split; [|done]].
    + rewrite <- getTLSVersionString_label by (unfold isTLS in HisTLS; lia).
      by destruct (String.eqb sni EmptyString).
    + by destruct (String.eqb sni EmptyString).
  - assert (~ isTLS) as Hnot by (intros Hc; apply Hiff in Hc; discriminate).
    exists info. split; [done|].
    split; [rewrite Hfresh; split; [done | by intros]|].
    split; [done | done].
Qed.

Lemma C9_tls_detection_witness :
  exists info' : PacketInfo,
    parseTLS (set_Payload exampleClientHello zeroPacketInfo) = Ok info' /\
    IsTLS info' = true /\
    TLSVersion info' = "TLS 1.0"%string /\
    SNI info' = "example.com"%string.
Proof.
  destruct (C9_tls_detection (set_Payload exampleClientHello zeroPacketInfo) eq_refl)
    as (info' & Hparse & Hmark & Hmatch & _).
  assert (6 <= len exampleClientHello /\ byteAt exampleClientHello 0 = 22 /\
          769 <= be16 (byteAt exampleClientHello 1) (byteAt exampleClientHello 2) <= 772)
    as HisTLS by (vm_compute; repeat split; discriminate).
  exists info'. split; [exact Hparse|].
  split; [by apply Hmark|].
  destruct (Hmatch HisTLS) as (sni & Hsni & Hversion & Hname & _).
  split; [exact Hversion|].
  change (Payload (set_Payload exampleClientHello zeroPacketInfo))
    with exampleClientHello in Hsni.
  rewrite extractSNI_example in Hsni. injection Hsni as <-. exact Hname.
Defined.

(** ** The parser: direction *)

Lemma noDot_cons (c : ascii) (s : string) :
  noDot (String c s) = true -> c <> "."%char /\ noDot s = true.
Proof.
  simpl. intros H. apply andb_true_iff in H as [Hc Hs].
  apply negb_true_iff, Ascii.eqb_neq in Hc. done.
Qed.

Lemma prefix_String (a b : ascii) (s t : string) :
  String.prefix (String a s) (String b t) =
    if ascii_dec a b then String.prefix s t else false.
Proof. reflexivity. Qed.

Lemma prefix_nil (s : string) : String.prefix EmptyString s = true.
Proof. by destruct s. Qed.

(** Comparing a dotted prefix with a dotted string, part by part. *)
Lemma prefix_part (p x s r : string) :
  noDot p = true -> noDot x = true ->
  String.prefix (p ++ "." ++ s) (x ++ "." ++ r) =
    String.eqb p x && String.prefix s r.
Proof.
  revert x. induction p as [|c p IH]; intros [|c' x] Hp Hx.
  - change (String.prefix (String "." s) (String "." r) = String.prefix s r).
    rewrite prefix_String. by destruct (ascii_dec "." ".").
  - apply noDot_cons in Hx as [Hc' Hx].
    change (String.prefix (String "." s) (String c' (x ++ "." ++ r)) = false).
    rewrite prefix_String. destruct (ascii_dec "." c'); [congruence | done].
  - apply noDot_cons in Hp as [Hc Hp].
    change (String.prefix (String c (p ++ "." ++ s)) (String "." r) = false).
    rewrite prefix_String. destruct (ascii_dec c "."); [congruence | done].
  - apply noDot_cons in Hp as [Hc Hp]. apply noDot_cons in Hx as [Hc' Hx].
    change (String.prefix (String c (p ++ "." ++ s)) (String c' (x ++ "." ++ r)) =
            (if Ascii.eqb c c' then String.eqb p x else false) && String.prefix s r).
    rewrite prefix_String.
    destruct (ascii_dec c c') as [<-|Hne].
    + rewrite Ascii.eqb_refl. by apply IH.
    + apply Ascii.eqb_neq in Hne. by rewrite Hne.
Qed.

(** A string without dots starts with no dotted prefix. *)
Lemma prefix_noDot (p s x : string) :
  noDot x = true -> String.prefix (p ++ "." ++ s) x = false.
Proof.
  revert x. induction p as [|c p IH]; intros [|c' x] Hx; try done.
  - apply noDot_cons in Hx as [Hc' Hx].
    change (String.prefix (String "." s) (String c' x) = false).
    rewrite prefix_String. destruct (ascii_dec "." c'); [congruence | done].
  - apply noDot_cons in Hx as [Hc' Hx].
    change (String.prefix (String c (p ++ "." ++ s)) (String c' x) = false).
    rewrite prefix_String. destruct (ascii_dec c c'); [by apply IH | done].
Qed.

Lemma splitDot_part (x r : string) :
  noDot x = true -> splitDot (x ++ "." ++ r) = x :: splitDot r.
Proof.
  induction x as [|c x IH]; intros Hx; [done|].
  apply noDot_cons in Hx as [Hc Hx]. apply Ascii.eqb_neq in Hc.
  change (splitDot (String c (x ++ "." ++ r)) = String c x :: splitDot r).
  cbn [splitDot]. by rewrite Hc, (IH Hx).
Qed.

(** On a string whose first two parts are free of dots, [isLocalIP] looks
    at those parts only. *)
Lemma isLocalIP_parts (first second rest : string) :
  noDot first = true -> noDot second = true ->
  isLocalIP (first ++ "." ++ second ++ "." ++ rest) = localParts first second.
Proof.
  intros H1 H2. unfold isLocalIP, localParts.
  change "10."%string with ("10" ++ "." ++ EmptyString)%string.
  change "192.168."%string with ("192" ++ "." ++ "168" ++ "." ++ EmptyString)%string.
  change "127."%string with ("127" ++ "." ++ EmptyString)%string.
  change "169.254."%string with ("169" ++ "." ++ "254" ++ "." ++ EmptyString)%string.
  change "172."%string with ("172" ++ "." ++ EmptyString)%string.
  rewrite !prefix_part by done.
  rewrite !splitDot_part by done.
  rewrite !prefix_nil, !andb_true_r.
  rewrite !(String.eqb_sym _ first), !(String.eqb_sym _ second).
  destruct (String.eqb first "10"); [done|].
  destruct (String.eqb first "192" && String.eqb second "168"); [done|].
  destruct (String.eqb first "127"); [done|].
  destruct (String.eqb first "169" && String.eqb second "254"); [done|].
  cbn [orb]. destruct (String.eqb first "172"); [|done].
  cbn [nth andb].
  assert ((len (first :: second :: splitDot rest) >=? 2) = true) as ->.
  { rewrite Z.geb_leb. apply Z.leb_le. unfold len. simpl. lia. }
  rewrite Z.geb_leb.
  by destruct (16 <=? Sscanf_d second), (Sscanf_d second <=? 31).
Qed.

Lemma isLocalIP_noDot (ip : string) : noDot ip = true -> isLocalIP ip = false.
Proof.
  intros H. unfold isLocalIP.
  change "10."%string with ("10" ++ "." ++ EmptyString)%string.
  change "192.168."%string with ("192" ++ "." ++ "168.")%string.
  change "127."%string with ("127" ++ "." ++ EmptyString)%string.
  change "169.254."%string with ("169" ++ "." ++ "254.")%string.
  change "172."%string with ("172" ++ "." ++ EmptyString)%string.
  by rewrite !prefix_noDot.
Qed.


Example isLocalIP_examples :
  isLocalIP "10.1.2.3" = true /\ isLocalIP "100.1.2.3" = false /\
  isLocalIP "172.20.1.1" = true /\ isLocalIP "172.32.0.1" = false /\
  isLocalIP "192.168.0.7" = true /\ isLocalIP "192.169.0.7" = false /\
  isLocalIP "169.254.9.9" = true /\ isLocalIP "127.0.0.1" = true /\
  isLocalIP "8.8.8.8" = false /\ isLocalIP "fe80::1" = false /\
  isLocalIP EmptyString = false.
Proof. vm_compute. repeat split. Qed.

(** White space before the digits of the second part is passed over, a
    newline there stops the scan. *)
Example Sscanf_d_white_space :
  Sscanf_d " 16" = 16 /\
  Sscanf_d (String (ascii_of_nat 9) "-7") = -7 /\
  Sscanf_d (String (ascii_of_nat 194) (String (ascii_of_nat 160) "+20")) = 20 /\
  Sscanf_d (String (ascii_of_nat 10) "16") = 0 /\
  Sscanf_d "1 6" = 1 /\
  isLocalIP "172. 16.0.1" = true /\
  isLocalIP "172. 32.0.1" = false.
Proof. vm_compute. repeat split. Qed.

(** *** Every byte *)

Lemma byteOf_byteVal (b : byte) : byteOf (byteVal b) = b.
Proof.
  apply byteVal_inj. rewrite byteVal_byteOf. apply Z.mod_small.
  pose proof (byteVal_range b). lia.
Qed.

Lemma allBytes_complete (b : byte) : In b allBytes.
Proof.
  unfold allBytes. rewrite <- (byteOf_byteVal b). apply in_map.
  pose proof (byteVal_range b).
  rewrite <- (Z2Nat.id (byteVal b)) by lia. apply in_map.
  apply in_seq. lia.
Qed.

Lemma forall_byte (P : byte -> bool) :
  forallb P allBytes = true -> forall b, P b = true.
Proof.
  intros H b. rewrite forallb_forall in H. apply H, allBytes_complete.
Qed.

Lemma noDot_decimal (b : byte) : noDot (decimal b) = true.
Proof. revert b. apply forall_byte. vm_compute. reflexivity. Qed.

Lemma localParts_decimal (a b : byte) :
  localParts (decimal a) (decimal b) = localOctets (byteVal a) (byteVal b).
Proof.
  apply eqb_prop. revert b.
  apply (forall_byte (fun b => Bool.eqb (localParts (decimal a) (decimal b))
                                 (localOctets (byteVal a) (byteVal b)))).
  revert a.
  apply (forall_byte (fun a => forallb (fun b =>
           Bool.eqb (localParts (decimal a) (decimal b))
             (localOctets (byteVal a) (byteVal b))) allBytes)).
  vm_compute. reflexivity.
Qed.

(** *** The ranges as address blocks *)

Lemma inLocalRanges_octets (a b c d : byte) :
  inLocalRanges (ipv4Value a b c d) = localOctets (byteVal a) (byteVal b).
Proof.
  pose proof (byteVal_range a). pose proof (byteVal_range b).
  pose proof (byteVal_range c). pose proof (byteVal_range d).
  unfold inLocalRanges, inBlock, localOctets.
  change (ipv4Value x0a x00 x00 x00 / 2 ^ (32 - 8)) with 10.
  change (ipv4Value xac x10 x00 x00 / 2 ^ (32 - 12)) with 2753.
  change (ipv4Value xc0 xa8 x00 x00 / 2 ^ (32 - 16)) with 49320.
  change (ipv4Value x7f x00 x00 x00 / 2 ^ (32 - 8)) with 127.
  change (ipv4Value xa9 xfe x00 x00 / 2 ^ (32 - 16)) with 43518.
  change (2 ^ (32 - 8)) with 16777216. change (2 ^ (32 - 12)) with 1048576.
  change (2 ^ (32 - 16)) with 65536.
  unfold ipv4Value. set (A := byteVal a) in *. set (B := byteVal b) in *.
  set (C := byteVal c) in *. set (D := byteVal d) in *.
  assert ((((A * 256 + B) * 256 + C) * 256 + D) / 16777216 = A) as ->.
  { symmetry. apply (Z.div_unique _ _ _ ((B * 256 + C) * 256 + D)); lia. }
  assert ((((A * 256 + B) * 256 + C) * 256 + D) / 65536 = A * 256 + B) as ->.
  { symmetry. apply (Z.div_unique _ _ _ (C * 256 + D)); lia. }
  assert ((((A * 256 + B) * 256 + C) * 256 + D) / 1048576 = A * 16 + B / 16) as ->.
  { symmetry. apply (Z.div_unique _ _ _ ((B mod 16 * 256 + C) * 256 + D)).
    - pose proof (Z.mod_pos_bound B 16). lia.
    - pose proof (Z.div_mod B 16). lia. }
  pose proof (Z.div_mod B 16). pose proof (Z.mod_pos_bound B 16).
  set (q := B / 16) in *. set (r := B mod 16) in *.
  destruct (Z.eqb_spec A 10), (Z.eqb_spec A 172), (Z.eqb_spec A 192),
    (Z.eqb_spec A 127), (Z.eqb_spec A 169), (Z.eqb_spec B 168), (Z.eqb_spec B 254),
    (Z.leb_spec 16 B), (Z.leb_spec B 31),
    (Z.eqb_spec (A * 16 + q) 2753), (Z.eqb_spec (A * 256 + B) 49320),
    (Z.eqb_spec (A * 256 + B) 43518); simpl; try reflexivity; exfalso; lia.
Qed.

Lemma isLocalIP_ipv4 (a b c d : byte) :
  isLocalIP (ipv4String a b c d) = inLocalRanges (ipv4Value a b c d).
Proof.
  unfold ipv4String.
  rewrite isLocalIP_parts by apply noDot_decimal.
  by rewrite localParts_decimal, inLocalRanges_octets.
Qed.

(** C8. [determineDirection] compares [isLocalIP] of source and
    destination: local to remote is send with the destination as remote
    IP; remote to local is recv with the source as remote IP; remote to
    remote is send with the destination; local to local is local with the
    destination.  On the rendering of an IPv4 address [isLocalIP] is
    membership in 10.0.0.0/8, 172.16.0.0/12, 192.168.0.0/16, 127.0.0.0/8 or
    169.254.0.0/16; a rendering without dots (an IPv6 address) is never
    local, as no such address lies in those ranges. *)
Theorem C8_direction :
  (forall info : PacketInfo,
     let srcIsLocal := isLocalIP (SrcIP info) in
     let dstIsLocal := isLocalIP (DstIP info) in
     let info' := determineDirection info in
     (srcIsLocal = true -> dstIsLocal = false ->
        Direction info' = "send"%string /\ RemoteIP info' = DstIP info) /\
     (srcIsLocal = false -> dstIsLocal = true ->
        Direction info' = "recv"%string /\ RemoteIP info' = SrcIP info) /\
     (srcIsLocal = false -> dstIsLocal = false ->
        Direction info' = "send"%string /\ RemoteIP info' = DstIP info) /\
     (srcIsLocal = true -> dstIsLocal = true ->
        Direction info' = "local"%string /\ RemoteIP info' = DstIP info)) /\
  (forall a b c d : byte,
     isLocalIP (ipv4String a b c d) = inLocalRanges (ipv4Value a b c d)) /\
  (forall ip : string, noDot ip = true -> isLocalIP ip = false).
Proof.
  split; [|split; [apply isLocalIP_ipv4 | apply isLocalIP_noDot]].
  intros info srcIsLocal dstIsLocal info'. unfold info', determineDirection.
  fold srcIsLocal dstIsLocal.
  split; [|split; [|split]]; intros Hs Hd; rewrite Hs, Hd; split; reflexivity.
Qed.

Lemma C8_direction_witness :
  let info := set_DstIP (ipv4String x08 x08 x08 x08)
                (set_SrcIP (ipv4String xc0 xa8 x01 x05) zeroPacketInfo) in
  Direction (determineDirection info) = "send"%string /\
  RemoteIP (determineDirection info) = "8.8.8.8"%string.
Proof.
  intros info.
  destruct C8_direction as (Hdir & Hv4 & _).
  destruct (Hdir info) as (Hsend & _).
  apply Hsend.
  - unfold info. cbn [SrcIP set_DstIP set_SrcIP]. rewrite Hv4. reflexivity.
  - unfold info. cbn [DstIP set_DstIP set_SrcIP]. rewrite Hv4. reflexivity.
Defined.

(** ** The parser: DNS *)

Lemma dnsAnswerIPs_addressRecords (answers : list DNSResourceRecord) :
  dnsAnswerIPs answers = addressRecords answers.
Proof.
  unfold dnsAnswerIPs.
  enough (forall ips, fold_left
            (fun ips answer =>
               match rr_Type answer with
               | DNSTypeA =>
                   match rr_IP answer with Some ip => ips ++ [ip] | None => ips end
               | DNSTypeAAAA =>
                   match rr_IP answer with Some ip => ips ++ [ip] | None => ips end
               | DNSTypeOther _ => ips
               end) answers ips = ips ++ addressRecords answers) as H by apply (H []).
  induction answers as [|[ty ip] answers IH]; intros ips; simpl.
  - by rewrite app_nil_r.
  - rewrite IH. unfold addressRecords. simpl.
    destruct ty, ip; simpl; try done; by rewrite <- app_assoc.
Qed.

(** [parseTLS] comes back, and leaves everything but the TLS fields. *)
Lemma parseTLS_frame (info : PacketInfo) :
  exists info' : PacketInfo,
    parseTLS info = Ok info' /\
    Protocol info' = Protocol info /\
    SrcPort info' = SrcPort info /\
    DstPort info' = DstPort info /\
    SrcIP info' = SrcIP info /\
    DstIP info' = DstIP info /\
    IsDNS info' = IsDNS info /\
    DNSQueryName info' = DNSQueryName info /\
    DNSResponseIPs info' = DNSResponseIPs info.
Proof.
  unfold parseTLS. destruct (isTLSHandshake (Payload info)); cbn [negb].
  - destruct (extractSNI_returns (Payload info)) as [sni ->]. cbn [bind].
    destruct (len (Payload info) >=? 3), (negb (String.eqb sni EmptyString));
      eexists; (split; [reflexivity|]); repeat split.
  - exists info. repeat split.
Qed.

Lemma determineDirection_frame (info : PacketInfo) :
  IsDNS (determineDirection info) = IsDNS info /\
  DNSQueryName (determineDirection info) = DNSQueryName info /\
  DNSResponseIPs (determineDirection info) = DNSResponseIPs info.
Proof.
  unfold determineDirection.
  destruct (isLocalIP (SrcIP info)), (isLocalIP (DstIP info)); repeat split.
Qed.

Lemma layersInfo_fields (packet : Packet) :
  IsDNS (layersInfo packet) = false /\
  DNSQueryName (layersInfo packet) = EmptyString /\
  DNSResponseIPs (layersInfo packet) = [] /\
  Protocol (layersInfo packet) =
    match pkt_TCP packet, pkt_UDP packet with
    | Some _, _ => "TCP"%string
    | None, Some _ => "UDP"%string
    | None, None => EmptyString
    end /\
  (forall udp, pkt_TCP packet = None -> pkt_UDP packet = Some udp ->
     SrcPort (layersInfo packet) = udp_SrcPort udp /\
     DstPort (layersInfo packet) = udp_DstPort udp /\
     Payload (layersInfo packet) = udp_Payload udp).
Proof.
  unfold layersInfo, parseTransportLayer, parseNetworkLayer.
  destruct (pkt_NetworkLayer packet) as [[src dst]|], (pkt_TCP packet) as [tcp|],
    (pkt_UDP packet) as [udp|];
    (do 4 (split; [done|])); intros udp' Ht Hu; try discriminate;
    injection Hu as <-; done.
Qed.

(** [Parse] on a packet without TCP layer. *)
Lemma Parse_not_tcp (now : Z) (packet : Packet) (sr : Streams) :
  pkt_TCP packet = None ->
  Parse now packet sr =
    match pkt_ApplicationLayer packet with
    | None => (sr, Ok None)
    | Some appLayer =>
        (sr,
         info <~ (if len (app_Payload appLayer) >? 0
                  then parseApplicationLayerWithPayload
                         (set_Payload (app_Payload appLayer) (layersInfo packet))
                  else parseApplicationLayer packet (layersInfo packet)) ;;
         Ok (Some (determineDirection info)))
    end.
Proof.
  intros Htcp. unfold Parse, ProcessPacket. rewrite Htcp.
  by destruct (pkt_ApplicationLayer packet).
Qed.

Lemma parseApplicationLayerWithPayload_noDNS (info info' : PacketInfo) :
  parseApplicationLayerWithPayload info = Ok info' -> noDNS info -> noDNS info'.
Proof.
  unfold parseApplicationLayerWithPayload, noDNS.
  destruct (len (Payload info) >? 0); [|by intros [= <-]].
  destruct (parseTLS_frame info) as (info2 & -> & _ & _ & _ & _ & _ & H1 & H2 & H3).
  intros [= <-]. by rewrite H1, H2, H3.
Qed.

(** [parseApplicationLayer] sets a DNS field only for UDP on port 53 with a
    DNS layer. *)
Lemma parseApplicationLayer_noDNS (packet : Packet) (info info' : PacketInfo) :
  parseApplicationLayer packet info = Ok info' ->
  noDNS info ->
  noDNS info' \/
  (Protocol info = "UDP"%string /\
   (SrcPort info = "53(domain)"%string \/ DstPort info = "53(domain)"%string) /\
   pkt_DNS packet <> None).
Proof.
  unfold parseApplicationLayer.
  set (info1 := match pkt_ApplicationLayer packet with
                | Some appLayer => set_AppProtocol (app_LayerType appLayer) info
                | None => info
                end).
  assert (Protocol info1 = Protocol info /\ SrcPort info1 = SrcPort info /\
          DstPort info1 = DstPort info /\ IsDNS info1 = IsDNS info /\
          DNSQueryName info1 = DNSQueryName info /\
          DNSResponseIPs info1 = DNSResponseIPs info) as (P1 & P2 & P3 & P4 & P5 & P6).
  { unfold info1. by destruct (pkt_ApplicationLayer packet). }
  intros Hparse (N1 & N2 & N3).
  destruct (len (Payload info1) >? 0).
  - destruct (parseTLS_frame info1) as (info2 & Htls & Q1 & Q2 & Q3 & _ & _ & Q4 & Q5 & Q6).
    rewrite Htls in Hparse. cbn [bind] in Hparse.
    rewrite Q1, Q2, Q3, P1, P2, P3 in Hparse.
    destruct (String.eqb_spec (Protocol info) "UDP") as [Hudp|]; cbn [andb] in Hparse.
    + destruct (String.eqb_spec (SrcPort info) "53(domain)") as [Hsrc|];
        destruct (String.eqb_spec (DstPort info) "53(domain)") as [Hdst|];
        cbn [orb] in Hparse; injection Hparse as <-.
      4: { left. unfold noDNS. by rewrite Q4, Q5, Q6, P4, P5, P6. }
      all: destruct (pkt_DNS packet) as [dns|] eqn:Hdns;
        [right; auto | left; unfold parseDNS; rewrite Hdns; unfold noDNS;
                       by rewrite Q4, Q5, Q6, P4, P5, P6].
    + injection Hparse as <-. left. unfold noDNS. by rewrite Q4, Q5, Q6, P4, P5, P6.
  - injection Hparse as <-. left. unfold noDNS. by rewrite P4, P5, P6.
Qed.

(** What [parseApplicationLayer] extracts from a DNS layer on port 53. *)
Lemma parseApplicationLayer_dns (packet : Packet) (info : PacketInfo) (dns : DNS) :
  pkt_DNS packet = Some dns ->
  0 < len (Payload info) ->
  Protocol info = "UDP"%string ->
  SrcPort info = "53(domain)"%string \/ DstPort info = "53(domain)"%string ->
  noDNS info ->
  exists info' : PacketInfo,
    parseApplicationLayer packet info = Ok info' /\
    SrcIP info' = SrcIP info /\ DstIP info' = DstIP info /\
    IsDNS info' = true /\
    DNSQueryName info' = (if dns_QR dns then firstQuestion dns else EmptyString) /\
    DNSResponseIPs info' = (if dns_QR dns then addressRecords (dns_Answers dns) else []).
Proof.
  intros Hdns Hlen Hudp Hport (N1 & N2 & N3). unfold parseApplicationLayer.
  set (info1 := match pkt_ApplicationLayer packet with
                | Some appLayer => set_AppProtocol (app_LayerType appLayer) info
                | None => info
                end).
  assert (Protocol info1 = Protocol info /\ SrcPort info1 = SrcPort info /\
          DstPort info1 = DstPort info /\ IsDNS info1 = IsDNS info /\
          DNSQueryName info1 = DNSQueryName info /\
          DNSResponseIPs info1 = DNSResponseIPs info /\
          Payload info1 = Payload info /\ SrcIP info1 = SrcIP info /\
          DstIP info1 = DstIP info)
    as (P1 & P2 & P3 & P4 & P5 & P6 & P7 & P8 & P9).
  { unfold info1. by destruct (pkt_ApplicationLayer packet). }
  rewrite P7. destruct (len (Payload info) >? 0) eqn:E; zbool; [|lia].
  destruct (parseTLS_frame info1) as (info2 & -> & Q1 & Q2 & Q3 & Q7 & Q8 & Q4 & Q5 & Q6).
  cbn [bind]. rewrite Q1, Q2, Q3, P1, P2, P3, Hudp.
  assert (String.eqb (SrcPort info) "53(domain)" || String.eqb (DstPort info) "53(domain)"
          = true) as ->.
  { apply orb_true_iff. destruct Hport as [-> | ->]; [left | right]; reflexivity. }
  cbn [String.eqb andb]. eexists. split; [reflexivity|].
  unfold parseDNS. rewrite Hdns, dnsAnswerIPs_addressRecords. unfold firstQuestion.
  destruct (dns_QR dns); cbn [negb].
  - destruct (dns_Questions dns); cbn; rewrite ?Q7, ?Q8, ?Q5, ?P5, ?P8, ?P9; done.
  - cbn. rewrite Q5, Q6, Q7, Q8, P5, P6, P8, P9. done.
Qed.

(** A decoded packet comes out of one of the two application-layer paths
    of [Parse]: the one for a handed-back payload, or the one for the
    packet's own layers. *)
Lemma Parse_paths (now : Z) (packet : Packet) (sr : Streams) (info : PacketInfo) :
  (Parse now packet sr).2 = Ok (Some info) ->
  exists (payload : list byte) (parsed : PacketInfo),
    payloadOf (ProcessPacket now packet sr) = payload /\
    info = determineDirection parsed /\
    ((0 < len payload /\
      parseApplicationLayerWithPayload (set_Payload payload (layersInfo packet)) =
        Ok parsed) \/
     (len payload = 0 /\ parseApplicationLayer packet (layersInfo packet) = Ok parsed)).
Proof.
  unfold Parse, payloadOf.
  destruct (ProcessPacket now packet sr) as [sr' [[payload ready] flowKey]].
  destruct ready; cbn [negb snd fst]; [|discriminate].
  fold (layersInfo packet). intros Hparse. exists payload.
  pose proof (len_nonneg payload).
  destruct (len payload >? 0) eqn:E; zbool.
  - destruct (parseApplicationLayerWithPayload _) as [parsed| |] eqn:Hp;
      cbn [bind] in Hparse; try discriminate.
    injection Hparse as <-. exists parsed. split; [done|]. split; [done|]. left. done.
  - destruct (parseApplicationLayer _ _) as [parsed| |] eqn:Hp;
      cbn [bind] in Hparse; try discriminate.
    injection Hparse as <-. exists parsed. split; [done|]. split; [done|]. right.
    split; [lia | done].
Qed.

Lemma noDNS_layersInfo (packet : Packet) : noDNS (layersInfo packet).
Proof. destruct (layersInfo_fields packet) as (H1 & H2 & H3 & _). by repeat split. Qed.

(** What [Parse] makes of a UDP packet on port 53 whose DNS layer is the
    application layer, without payload bytes. *)
Lemma Parse_dns_layer (now : Z) (packet : Packet) (sr : Streams) (udp : UDP)
    (appLayer : AppLayer) (dns : DNS) :
  pkt_TCP packet = None ->
  pkt_UDP packet = Some udp ->
  udp_SrcPort udp = "53(domain)"%string \/ udp_DstPort udp = "53(domain)"%string ->
  udp_Payload udp <> [] ->
  pkt_ApplicationLayer packet = Some appLayer ->
  app_Payload appLayer = [] ->
  pkt_DNS packet = Some dns ->
  exists info : PacketInfo,
    Parse now packet sr = (sr, Ok (Some info)) /\
    IsDNS info = true /\
    DNSQueryName info = (if dns_QR dns then firstQuestion dns else EmptyString) /\
    DNSResponseIPs info = (if dns_QR dns then addressRecords (dns_Answers dns) else []).
Proof.
  intros Htcp Hudp Hport Hpay Happ Hnil Hdns.
  rewrite (Parse_not_tcp _ _ _ Htcp), Happ, Hnil. cbn [len length Z.of_nat Z.gtb Z.compare].
  destruct (layersInfo_fields packet) as (_ & _ & _ & Hproto & Hfields).
  rewrite Htcp, Hudp in Hproto.
  destruct (Hfields udp Htcp Hudp) as (S1 & S2 & S3).
  destruct (parseApplicationLayer_dns packet (layersInfo packet) dns Hdns)
    as (parsed & -> & _ & _ & P1 & P2 & P3).
  - rewrite S3. pose proof (len_nonneg (udp_Payload udp)).
    destruct (Z.eq_dec (len (udp_Payload udp)) 0) as [E|]; [|lia].
    by apply len_zero in E.
  - done.
  - by rewrite S1, S2.
  - apply noDNS_layersInfo.
  - cbn [bind]. eexists. split; [reflexivity|].
    destruct (determineDirection_frame parsed) as (D1 & D2 & D3).
    by rewrite D1, D2, D3, P1, P2, P3.
Qed.

(** C4.  DNS parsing is attempted only for UDP traffic on port 53: what
    [Parse] returns carries a DNS mark, query name or resolved address
    only if the packet is UDP traffic on port 53 with a DNS layer (and the
    reassembler's pass-through handed back no payload bytes).  Every UDP
    packet on port 53 with a DNS layer, as gopacket decodes it
    ([decodedDNS]), passes through [Parse]: the pass-through of the
    reassembler is ready with no payload bytes, and [Parse] returns a
    decoded packet with [IsDNS] set; when the QR flag is clear it has no
    query name and no resolved addresses; when the flag is set its query
    name is the first question's name and its resolved addresses are the
    IP literals of the A and AAAA answer records, in order. *)
Theorem C4_dns_parsing :
  (forall (now : Z) (packet : Packet) (sr : Streams) (info : PacketInfo),
     (Parse now packet sr).2 = Ok (Some info) ->
     ~ noDNS info ->
     udpPort53 packet /\
     pkt_DNS packet <> None /\
     payloadOf (ProcessPacket now packet sr) = []) /\
  (forall (now : Z) (packet : Packet) (sr : Streams) (dns : DNS),
     decodedDNS packet ->
     udpPort53 packet ->
     pkt_DNS packet = Some dns ->
     ProcessPacket now packet sr = (sr, ([], true, zeroFlowKey)) /\
     exists info : PacketInfo,
       Parse now packet sr = (sr, Ok (Some info)) /\
       IsDNS info = true /\
       (dns_QR dns = false ->
          DNSQueryName info = EmptyString /\ DNSResponseIPs info = []) /\
       (dns_QR dns = true ->
          DNSQueryName info = firstQuestion dns /\
          DNSResponseIPs info = addressRecords (dns_Answers dns))).
Proof.
  split.
  - intros now packet sr info Hparse Hdns.
    destruct (Parse_paths _ _ _ _ Hparse) as (payload & parsed & Hpay & -> & Hpath).
    assert (~ noDNS parsed) as Hparsed.
    { intros (N1 & N2 & N3). apply Hdns.
      destruct (determineDirection_frame parsed) as (D1 & D2 & D3).
      unfold noDNS. by rewrite D1, D2, D3. }
    destruct Hpath as [[Hlen Hp] | [Hlen Hp]].
    + exfalso. apply Hparsed.
      apply (parseApplicationLayerWithPayload_noDNS _ _ Hp).
      destruct (noDNS_layersInfo packet) as (N1 & N2 & N3). by repeat split.
    + destruct (parseApplicationLayer_noDNS _ _ _ Hp (noDNS_layersInfo packet))
        as [Hno | (Hproto & Hport & Hlayer)]; [done|].
      destruct (layersInfo_fields packet) as (_ & _ & _ & Hp' & Hudp).
      rewrite Hp' in Hproto.
      destruct (pkt_TCP packet) as [tcp|] eqn:Htcp; [discriminate|].
      destruct (pkt_UDP packet) as [udp|] eqn:Hu; [|discriminate].
      destruct (Hudp udp eq_refl eq_refl) as (S1 & S2 & _).
      rewrite S1, S2 in Hport.
      split; [|split; [done|]].
      * split; [done|]. by exists udp.
      * rewrite Hpay. by apply len_zero.
  - intros now packet sr dns Hdec (Htcp & udp & Hudp & Hport) Hdns.
    destruct (Hdec dns Hdns) as ((appLayer & Happ & Hnil) & Hpay).
    split.
    + unfold ProcessPacket. by rewrite Htcp, Happ, Hnil.
    + destruct (Parse_dns_layer now packet sr udp appLayer dns Htcp Hudp Hport
                  (Hpay udp Hudp) Happ Hnil Hdns) as (info & Hparse & H1 & H2 & H3).
      exists info. split; [done|]. split; [done|].
      split; intros Hqr; rewrite Hqr in H2, H3; done.
Qed.

Lemma C4_dns_parsing_witness :
  let payload := [x12; x34; x81; x80; x00; x01; x00; x02; x00; x00; x00; x00] in
  let packet := datagram "8.8.8.8" "192.168.1.5" "53(domain)" "50000" payload
                  (Some (mkAppLayer "DNS" [])) (Some exampleDNS) in
  exists info : PacketInfo,
    Parse 0 packet ∅ = (∅, Ok (Some info)) /\
    IsDNS info = true /\
    DNSQueryName info = "bad.example"%string /\
    DNSResponseIPs info = ["1.2.3.4"%string].
Proof.
  intros payload packet.
  destruct C4_dns_parsing as [_ H].
  assert (decodedDNS packet) as Hdec.
  { intros dns _. split.
    - exists (mkAppLayer "DNS" []). split; reflexivity.
    - intros udp [= <-]. discriminate. }
  assert (udpPort53 packet) as Hudp.
  { split; [reflexivity|]. eexists. split; [reflexivity|]. by left. }
  destruct (H 0 packet ∅ exampleDNS Hdec Hudp eq_refl)
    as (_ & info & Hparse & Hdns & _ & Hresp).
  exists info. split; [exact Hparse|]. split; [exact Hdns|].
  exact (Hresp eq_refl).
Defined.

(** ** The store: counters *)

Lemma int64_add_l (a b : Z) : int64 (int64 a + b) = int64 (a + b).
Proof.
  unfold int64.
  replace ((a + 2 ^ 63) mod 2 ^ 64 - 2 ^ 63 + b + 2 ^ 63)
    with ((a + 2 ^ 63) mod 2 ^ 64 + b) by lia.
  rewrite Zplus_mod_idemp_l. f_equal. f_equal. lia.
Qed.

Lemma int64_add_r (a b : Z) : int64 (a + int64 b) = int64 (a + b).
Proof. by rewrite (Z.add_comm a (int64 b)), int64_add_l, (Z.add_comm b a). Qed.

Lemma int64_small (a : Z) : - 2 ^ 63 <= a < 2 ^ 63 -> int64 a = a.
Proof. intros H. unfold int64. rewrite Z.mod_small; lia. Qed.

Lemma int64_int64 (a : Z) : int64 (int64 a) = int64 a.
Proof. by rewrite <- (Z.add_0_r (int64 a)) at 1; rewrite int64_add_l, Z.add_0_r. Qed.

Lemma sumSizes_snoc (records : list ConnectionRecord) (record : ConnectionRecord) :
  sumSizes (records ++ [record]) = sumSizes records + rec_PacketSize record.
Proof.
  unfold sumSizes. induction records as [|r records IH]; simpl; [lia|].
  rewrite IH. lia.
Qed.

Lemma countDirection_snoc (direction : string) (records : list ConnectionRecord)
    (record : ConnectionRecord) :
  countDirection direction (records ++ [record]) =
    countDirection direction records +
    (if String.eqb (rec_Direction record) direction then 1 else 0).
Proof.
  unfold countDirection. rewrite filter_app, len_app. f_equal.
  rewrite filter_cons, filter_nil.
  destruct (String.eqb_spec (rec_Direction record) direction) as [E|E].
  - by rewrite decide_True.
  - by rewrite decide_False.
Qed.

Lemma entryInv_new (info : PacketInfo) (dnsCache : gmap string (list string)) :
  entryInv (newRemoteIPStats info dnsCache).
Proof. by repeat split. Qed.

Lemma entryInv_recordPacket (info : PacketInfo) (entry : RemoteIPStats) :
  entryInv entry -> entryInv (recordPacket info entry).
Proof.
  intros (H1 & H2 & H3 & H4). unfold entryInv, recordPacket. cbn.
  rewrite len_app, sumSizes_snoc, !countDirection_snoc. cbn.
  rewrite H1, H2, H3, H4, !int64_add_l.
  change (len [connectionRecord info]) with 1.
  repeat split.
  - destruct (String.eqb (Direction info) "send"); [done|].
    by rewrite Z.add_0_r.
  - destruct (String.eqb_spec (Direction info) "send") as [->|]; cbn.
    + by rewrite Z.add_0_r.
    + destruct (String.eqb (Direction info) "recv"); [done|].
      by rewrite Z.add_0_r.
Qed.

Lemma entryInv_addDNSName (name : string) (entry : RemoteIPStats) :
  entryInv entry -> entryInv (addDNSName name entry).
Proof. done. Qed.

Lemma storeInv_correlateDNS (name : string) (ds : DataStore) (responseIP : string) :
  storeInv ds -> storeInv (correlateDNS name ds responseIP).
Proof.
  intros Hinv ip entry. unfold correlateDNS. cbn.
  destruct (ds_stats ds !! responseIP) as [ipStats|] eqn:E; [|apply Hinv].
  rewrite lookup_insert_Some. intros [[<- <-] | [_ H]]; [|by apply (Hinv ip)].
  apply entryInv_addDNSName. by apply (Hinv responseIP).
Qed.

Lemma storeInv_correlateAll (name : string) (ips : list string) (ds : DataStore) :
  storeInv ds -> storeInv (fold_left (correlateDNS name) ips ds).
Proof.
  revert ds. induction ips as [|ip ips IH]; intros ds Hinv; [done|].
  simpl. by apply IH, storeInv_correlateDNS.
Qed.

Lemma storeInv_Store (info : PacketInfo) (ds : DataStore) :
  storeInv ds -> storeInv (Store info ds).
Proof.
  intros Hinv. unfold Store. destruct (String.eqb (RemoteIP info) EmptyString); [done|].
  set (ds1 := mkDataStore _ _).
  assert (storeInv ds1) as Hinv1.
  { intros ip entry. unfold ds1. cbn. rewrite lookup_insert_Some.
    intros [[<- <-] | [_ H]]; [|by apply (Hinv ip)].
    apply entryInv_recordPacket.
    destruct (ds_stats ds !! RemoteIP info) eqn:E;
      [by apply (Hinv (RemoteIP info)) | apply entryInv_new]. }
  destruct (_ && _); [by apply storeInv_correlateAll | done].
Qed.

Lemma storeInv_StoreAll (infos : list PacketInfo) (ds : DataStore) :
  storeInv ds -> storeInv (StoreAll infos ds).
Proof.
  revert ds. induction infos as [|info infos IH]; intros ds Hinv; [done|].
  simpl. by apply IH, storeInv_Store.
Qed.

Lemma storeInv_new : storeInv NewDataStore.
Proof. intros ip entry. unfold NewDataStore. cbn. by rewrite lookup_empty. Qed.

Lemma countDirection_range (direction : string) (records : list ConnectionRecord) :
  0 <= countDirection direction records <= len records.
Proof.
  unfold countDirection, len. pose proof (length_filter
    (fun record => rec_Direction record = direction) records). lia.
Qed.

Lemma countDirection_sendOrRecv (records : list ConnectionRecord) :
  sendOrRecv records ->
  countDirection "send" records + countDirection "recv" records = len records.
Proof.
  unfold sendOrRecv, countDirection.
  induction 1 as [|record records Hd _ IH]; [done|].
  rewrite !filter_cons, len_cons.
  destruct Hd as [Hd | Hd]; rewrite Hd.
  - rewrite decide_True, decide_False by done. rewrite len_cons. lia.
  - rewrite decide_False, decide_True by done. rewrite len_cons. lia.
Qed.

(** ** The store: totals *)

Lemma GetTotalBytes_sum (ds : DataStore) :
  GetTotalBytes ds = int64 (sumTotalBytes (ds_stats ds)).
Proof.
  unfold GetTotalBytes, sumTotalBytes.
  induction (ds_stats ds) as [|ip entry stats Hip IH] using map_ind.
  - by rewrite !map_fold_empty.
  - rewrite !map_fold_insert_L; [| intros; lia | done | | done].
    + by rewrite IH, int64_add_l.
    + intros. rewrite !int64_add_l. f_equal. lia.
Qed.

Lemma sumTotalBytes_insert_None (stats : gmap string RemoteIPStats) (ip : string)
    (entry : RemoteIPStats) :
  stats !! ip = None ->
  sumTotalBytes (<[ip := entry]> stats) = sumTotalBytes stats + TotalBytes entry.
Proof.
  intros H. unfold sumTotalBytes. rewrite map_fold_insert_L; [done | intros; lia | done].
Qed.

Lemma sumTotalBytes_insert_Some (stats : gmap string RemoteIPStats) (ip : string)
    (old entry : RemoteIPStats) :
  stats !! ip = Some old ->
  sumTotalBytes (<[ip := entry]> stats) =
    sumTotalBytes stats - TotalBytes old + TotalBytes entry.
Proof.
  intros H.
  rewrite <- (insert_delete_id stats ip old H) at 2.
  rewrite <- (insert_delete_eq stats).
  rewrite !sumTotalBytes_insert_None by apply lookup_delete_eq. lia.
Qed.

Lemma sumTotalBytes_correlateDNS (name : string) (ds : DataStore) (responseIP : string) :
  sumTotalBytes (ds_stats (correlateDNS name ds responseIP)) = sumTotalBytes (ds_stats ds).
Proof.
  unfold correlateDNS. cbn.
  destruct (ds_stats ds !! responseIP) as [ipStats|] eqn:E; [|done].
  rewrite (sumTotalBytes_insert_Some _ _ _ _ E). cbn. lia.
Qed.

Lemma sumTotalBytes_correlateAll (name : string) (ips : list string) (ds : DataStore) :
  sumTotalBytes (ds_stats (fold_left (correlateDNS name) ips ds)) =
    sumTotalBytes (ds_stats ds).
Proof.
  revert ds. induction ips as [|ip ips IH]; intros ds; [done|].
  simpl. by rewrite IH, sumTotalBytes_correlateDNS.
Qed.

Lemma sumTotalBytes_Store (info : PacketInfo) (ds : DataStore) :
  int64 (sumTotalBytes (ds_stats (Store info ds))) =
    int64 (sumTotalBytes (ds_stats ds) +
           (if String.eqb (RemoteIP info) EmptyString then 0 else Length info)).
Proof.
  unfold Store. destruct (String.eqb (RemoteIP info) EmptyString); [by rewrite Z.add_0_r|].
  set (ds1 := mkDataStore _ _).
  assert (int64 (sumTotalBytes (ds_stats ds1)) =
          int64 (sumTotalBytes (ds_stats ds) + Length info)) as H1.
  { unfold ds1. cbn. destruct (ds_stats ds !! RemoteIP info) as [old|] eqn:E.
    - rewrite (sumTotalBytes_insert_Some _ _ _ _ E). cbn.
      rewrite int64_add_r. f_equal. lia.
    - rewrite (sumTotalBytes_insert_None _ _ _ E). cbn.
      by rewrite int64_add_r. }
  destruct (_ && _); [by rewrite sumTotalBytes_correlateAll | done].
Qed.

Lemma sumLengths_cons (info : PacketInfo) (infos : list PacketInfo) :
  sumLengths (info :: infos) = Length info + sumLengths infos.
Proof. reflexivity. Qed.

Lemma sumTotalBytes_StoreAll (infos : list PacketInfo) (ds : DataStore) :
  int64 (sumTotalBytes (ds_stats (StoreAll infos ds))) =
    int64 (sumTotalBytes (ds_stats ds) + sumLengths (recorded infos)).
Proof.
  revert ds. induction infos as [|info infos IH]; intros ds; [by rewrite Z.add_0_r|].
  cbn [StoreAll fold_left]. fold (StoreAll infos (Store info ds)).
  rewrite IH, <- int64_add_l, sumTotalBytes_Store, int64_add_l.
  unfold recorded. rewrite filter_cons.
  destruct (String.eqb_spec (RemoteIP info) EmptyString) as [E|E].
  - rewrite decide_False by (by intros ?). f_equal. lia.
  - rewrite decide_True by done. rewrite sumLengths_cons. f_equal. lia.
Qed.

(** C7. After any sequence of [Store] calls on a new store, every entry
    has [TotalPackets] equal to the number of its records and [TotalBytes]
    equal to the sum of their [PacketSize], and for an entry whose records
    are all send or recv [TotalPackets] is [SendPackets + RecvPackets]; the
    sum of [TotalBytes] over all entries, as [GetTotalBytes] computes it, is
    the sum of the wire lengths of the packets recorded, those with a
    non-empty remote IP.  The equalities are those of the 64-bit counters;
    they are equalities of the plain numbers whenever these fit 64 bits. *)
Theorem C7_aggregate_consistency :
  forall infos : list PacketInfo,
    let ds := StoreAll infos NewDataStore in
    (forall (ip : string) (entry : RemoteIPStats),
       ds_stats ds !! ip = Some entry ->
       TotalPackets entry = int64 (len (Records entry)) /\
       TotalBytes entry = int64 (sumSizes (Records entry)) /\
       (sendOrRecv (Records entry) ->
          TotalPackets entry = int64 (SendPackets entry + RecvPackets entry)) /\
       (len (Records entry) < 2 ^ 63 ->
          TotalPackets entry = len (Records entry) /\
          (sendOrRecv (Records entry) ->
             TotalPackets entry = SendPackets entry + RecvPackets entry)) /\
       (- 2 ^ 63 <= sumSizes (Records entry) < 2 ^ 63 ->
          TotalBytes entry = sumSizes (Records entry))) /\
    GetTotalBytes ds = int64 (sumLengths (recorded infos)) /\
    (- 2 ^ 63 <= sumLengths (recorded infos) < 2 ^ 63 ->
       GetTotalBytes ds = sumLengths (recorded infos)).
Proof.
  intros infos ds.
  assert (GetTotalBytes ds = int64 (sumLengths (recorded infos))) as Htotal.
  { rewrite GetTotalBytes_sum. unfold ds. rewrite sumTotalBytes_StoreAll.
    unfold NewDataStore, sumTotalBytes. cbn. by rewrite map_fold_empty. }
  split; [|split; [done | by intros H; rewrite Htotal, int64_small]].
  intros ip entry Hentry.
  destruct (storeInv_StoreAll infos NewDataStore storeInv_new ip entry Hentry)
    as (H1 & H2 & H3 & H4).
  pose proof (len_nonneg (Records entry)) as Hlen.
  pose proof (countDirection_range "send" (Records entry)) as Hsend.
  pose proof (countDirection_range "recv" (Records entry)) as Hrecv.
  split; [done|]. split; [done|]. split; [|split].
  - intros Hdir. rewrite H1, H3, H4, int64_add_l, int64_add_r.
    by rewrite countDirection_sendOrRecv.
  - intros Hfit. split; [rewrite H1; apply int64_small; lia|].
    intros Hdir. rewrite H1, H3, H4, !int64_small by lia.
    by rewrite countDirection_sendOrRecv.
  - intros Hfit. rewrite H2. by apply int64_small.
Qed.

Lemma C7_aggregate_consistency_witness :
  let infos := [dataInfo "93.184.216.34"; dnsResponseInfo "8.8.8.8" "bad.example" ["1.2.3.4"];
                dataInfo "93.184.216.34"; set_RemoteIP EmptyString (dataInfo EmptyString)] in
  GetTotalBytes (StoreAll infos NewDataStore) = 240.
Proof.
  intros infos.
  destruct (C7_aggregate_consistency infos) as (_ & _ & H).
  assert (sumLengths (recorded infos) = 240) as Hsum by (vm_compute; reflexivity).
  rewrite Hsum in H. apply H. lia.
Defined.

(** ** The store: DNS correlation *)

Lemma existsb_eqb_elem_of (name : string) (cached : list string) :
  existsb (fun cachedDomain => String.eqb cachedDomain name) cached = true <->
  name ∈ cached.
Proof.
  rewrite existsb_exists, list_elem_of_In. split.
  - intros (x & Hin & Heq). apply String.eqb_eq in Heq. by subst.
  - intros Hin. exists name. split; [done | apply String.eqb_refl].
Qed.

(** The cache after one turn of the loop over the resolved addresses. *)
Lemma correlateDNS_cache (name : string) (ds : DataStore) (responseIP ip : string) :
  ds_dnsCache (correlateDNS name ds responseIP) !! ip =
    if decide (ip = responseIP) then
      let cached := default [] (ds_dnsCache ds !! ip) in
      Some (if decide (name ∈ cached) then cached else cached ++ [name])
    else ds_dnsCache ds !! ip.
Proof.
  unfold correlateDNS. cbn [ds_dnsCache].
  set (cache1 := match ds_dnsCache ds !! responseIP with
                 | Some _ => ds_dnsCache ds
                 | None => <[responseIP := []]> (ds_dnsCache ds)
                 end).
  assert (cache1 !! responseIP = Some (default [] (ds_dnsCache ds !! responseIP))) as H1.
  { unfold cache1. destruct (ds_dnsCache ds !! responseIP) eqn:E; [done|].
    by rewrite lookup_insert_eq. }
  assert (forall j, j <> responseIP -> cache1 !! j = ds_dnsCache ds !! j) as H2.
  { intros j Hj. unfold cache1. destruct (ds_dnsCache ds !! responseIP); [done|].
    by rewrite lookup_insert_ne. }
  rewrite H1. cbn [default from_option id].
  set (cached := default [] (ds_dnsCache ds !! responseIP)) in *.
  destruct (decide (ip = responseIP)) as [->|Hne].
  - fold cached. cbn zeta.
    destruct (existsb (fun cachedDomain => String.eqb cachedDomain name) cached) eqn:E;
      cbn [negb].
    + apply existsb_eqb_elem_of in E. by rewrite H1, decide_True.
    + rewrite lookup_insert_eq, decide_False; [done|].
      intros Hin. apply existsb_eqb_elem_of in Hin. congruence.
  - destruct (negb _); [rewrite lookup_insert_ne by done|]; by apply H2.
Qed.

Lemma correlateDNS_stats (name : string) (ds : DataStore) (responseIP ip : string) :
  ds_stats (correlateDNS name ds responseIP) !! ip =
    if decide (ip = responseIP) then addDNSName name <$> ds_stats ds !! ip
    else ds_stats ds !! ip.
Proof.
  unfold correlateDNS. cbn [ds_stats].
  destruct (decide (ip = responseIP)) as [->|Hne].
  - destruct (ds_stats ds !! responseIP) eqn:E; [|by rewrite E].
    by rewrite lookup_insert_eq.
  - destruct (ds_stats ds !! responseIP); [by rewrite lookup_insert_ne | done].
Qed.

Lemma cacheInv_correlateDNS (name : string) (ds : DataStore) (responseIP : string) :
  cacheInv ds -> cacheInv (correlateDNS name ds responseIP).
Proof.
  intros Hinv ip names. rewrite correlateDNS_cache.
  destruct (decide (ip = responseIP)) as [->|Hne]; [|apply Hinv].
  cbn zeta. intros [= <-].
  assert (NoDup (default [] (ds_dnsCache ds !! responseIP))) as Hnd.
  { destruct (ds_dnsCache ds !! responseIP) eqn:E; [by apply (Hinv responseIP) | constructor]. }
  destruct (decide _) as [Hin|Hnin]; [done|].
  apply NoDup_app. split; [done|]. split; [|apply NoDup_singleton].
  intros x Hx Hx'. apply list_elem_of_singleton in Hx'. by subst.
Qed.

Lemma cacheInv_correlateAll (name : string) (ips : list string) (ds : DataStore) :
  cacheInv ds -> cacheInv (fold_left (correlateDNS name) ips ds).
Proof.
  revert ds. induction ips as [|ip ips IH]; intros ds Hinv; [done|].
  simpl. by apply IH, cacheInv_correlateDNS.
Qed.

Lemma cacheInv_Store (info : PacketInfo) (ds : DataStore) :
  cacheInv ds -> cacheInv (Store info ds).
Proof.
  intros Hinv. unfold Store. destruct (String.eqb (RemoteIP info) EmptyString); [done|].
  destruct (_ && _); [by apply cacheInv_correlateAll | done].
Qed.

Lemma cacheInv_StoreAll (infos : list PacketInfo) (ds : DataStore) :
  cacheInv ds -> cacheInv (StoreAll infos ds).
Proof.
  revert ds. induction infos as [|info infos IH]; intros ds Hinv; [done|].
  simpl. by apply IH, cacheInv_Store.
Qed.

Lemma cacheInv_new : cacheInv NewDataStore.
Proof. intros ip names. unfold NewDataStore. cbn. by rewrite lookup_empty. Qed.

(** What storing a DNS response that names [ip] does to the cache entry
    and the statistics of [ip]. *)
Lemma Store_namesAddress (info : PacketInfo) (name ip : string) (ds : DataStore) :
  namesAddress info name ip ->
  ds_dnsCache (Store info ds) !! ip =
    (let cached := default [] (ds_dnsCache ds !! ip) in
     Some (if decide (name ∈ cached) then cached else cached ++ [name])) /\
  ds_stats (Store info ds) !! ip = addDNSName name <$> ds_stats ds !! ip.
Proof.
  intros (Hr & Hne & Hdns & Hname & Hname' & Hips). unfold Store.
  apply String.eqb_neq in Hr. rewrite Hr, Hdns, Hname, Hips.
  apply String.eqb_neq in Hname'. rewrite Hname'.
  change (len [ip] >? 0) with true. cbn [negb andb fold_left].
  rewrite correlateDNS_cache, correlateDNS_stats, !decide_True by done.
  cbn [ds_dnsCache ds_stats]. split; [done|].
  destruct (decide (ip = ip)); [|done]. by rewrite lookup_insert_ne.
Qed.

(** What storing a packet to or from [ip] does to them. *)
Lemma Store_dataPacket (info : PacketInfo) (ip : string) (ds : DataStore) :
  dataPacket info ip ->
  ds_dnsCache (Store info ds) = ds_dnsCache ds /\
  ds_stats (Store info ds) !! ip =
    Some (recordPacket info
            (default (newRemoteIPStats info (ds_dnsCache ds)) (ds_stats ds !! ip))).
Proof.
  intros (Hr & Hne & Hdns). unfold Store. subst ip.
  apply String.eqb_neq in Hne. rewrite Hne, Hdns. cbn [andb ds_dnsCache ds_stats].
  split; [done|]. rewrite lookup_insert_eq.
  by destruct (ds_stats ds !! RemoteIP info).
Qed.

Lemma DNSNames_recordPacket (info : PacketInfo) (entry : RemoteIPStats) :
  DNSNames (recordPacket info entry) = DNSNames entry.
Proof. reflexivity. Qed.

Lemma DNSNames_addDNSName (name : string) (entry : RemoteIPStats) :
  DNSNames (addDNSName name entry) = incr name (DNSNames entry).
Proof. reflexivity. Qed.

Lemma DNSNames_new (info : PacketInfo) (dnsCache : gmap string (list string)) :
  DNSNames (newRemoteIPStats info dnsCache) =
    fold_left (fun names domain => incr domain names)
      (default [] (dnsCache !! RemoteIP info)) ∅.
Proof. unfold newRemoteIPStats. cbn. by destruct (dnsCache !! RemoteIP info). Qed.

Lemma incr_empty (name : string) : incr name ∅ = {[name := 1]}.
Proof. unfold incr. rewrite lookup_empty. done. Qed.

Lemma incr_singleton (name : string) (n : Z) :
  incr name {[name := n]} = {[name := int64 (n + 1)]}.
Proof. unfold incr. rewrite lookup_singleton_eq. cbn. apply insert_singleton_eq. Qed.

Section Correlation.

Variables (response data : PacketInfo) (name ip : string) (ds : DataStore).
Hypothesis response_names : namesAddress response name ip.
Hypothesis data_for : dataPacket data ip.
Hypothesis unknown : unknownAddress ds ip.

(** The response first, the data packet after it. *)
Lemma correlation_response_data :
  ds_dnsCache (StoreAll [response; data] ds) !! ip = Some [name] /\
  exists entry, ds_stats (StoreAll [response; data] ds) !! ip = Some entry /\
                DNSNames entry = {[name := 1]}.
Proof.
  destruct unknown as [Hstats Hcache]. cbn [StoreAll fold_left].
  destruct (Store_namesAddress response name ip ds response_names) as [C1 S1].
  rewrite Hcache in C1. rewrite Hstats in S1. cbn in C1, S1.
  rewrite decide_False in C1 by apply not_elem_of_nil.
  destruct (Store_dataPacket data ip (Store response ds) data_for) as [C2 S2].
  rewrite C2, C1. split; [done|]. eexists. split; [exact S2|].
  rewrite S1. cbn [default from_option id].
  rewrite DNSNames_recordPacket, DNSNames_new.
  destruct data_for as (-> & _ & _). rewrite C1. cbn. apply incr_empty.
Qed.

(** The data packet first, the response after it. *)
Lemma correlation_data_response :
  ds_dnsCache (StoreAll [data; response] ds) !! ip = Some [name] /\
  exists entry, ds_stats (StoreAll [data; response] ds) !! ip = Some entry /\
                DNSNames entry = {[name := 1]}.
Proof.
  destruct unknown as [Hstats Hcache]. cbn [StoreAll fold_left].
  destruct (Store_dataPacket data ip ds data_for) as [C1 S1].
  destruct (Store_namesAddress response name ip (Store data ds) response_names) as [C2 S2].
  rewrite C1, Hcache in C2. cbn in C2.
  rewrite decide_False in C2 by apply not_elem_of_nil.
  split; [done|]. rewrite S2, S1. eexists. split; [reflexivity|].
  rewrite Hstats. cbn [default from_option id].
  rewrite DNSNames_addDNSName, DNSNames_recordPacket, DNSNames_new.
  destruct data_for as (-> & _ & _). rewrite Hcache. cbn. apply incr_empty.
Qed.

(** The response twice, then the data packet. *)
Lemma correlation_response_twice_data :
  ds_dnsCache (StoreAll [response; response; data] ds) !! ip = Some [name] /\
  exists entry, ds_stats (StoreAll [response; response; data] ds) !! ip = Some entry /\
                DNSNames entry = {[name := 1]}.
Proof.
  destruct unknown as [Hstats Hcache]. cbn [StoreAll fold_left].
  destruct (Store_namesAddress response name ip ds response_names) as [C1 S1].
  rewrite Hcache in C1. rewrite Hstats in S1. cbn in C1, S1.
  rewrite decide_False in C1 by apply not_elem_of_nil.
  destruct (Store_namesAddress response name ip (Store response ds) response_names)
    as [C2 S2].
  rewrite C1 in C2. rewrite S1 in S2. cbn in C2, S2.
  rewrite decide_True in C2 by apply list_elem_of_singleton, eq_refl.
  destruct (Store_dataPacket data ip (Store response (Store response ds)) data_for)
    as [C3 S3].
  rewrite C3, C2. split; [done|]. eexists. split; [exact S3|].
  rewrite S2. cbn [default from_option id].
  rewrite DNSNames_recordPacket, DNSNames_new.
  destruct data_for as (-> & _ & _). rewrite C2. cbn. apply incr_empty.
Qed.

(** The response, the data packet, the response again: the name is counted
    twice in the table, and held once by the cache. *)
Lemma correlation_response_data_response :
  ds_dnsCache (StoreAll [response; data; response] ds) !! ip = Some [name] /\
  exists entry, ds_stats (StoreAll [response; data; response] ds) !! ip = Some entry /\
                DNSNames entry = {[name := 2]}.
Proof.
  destruct correlation_response_data as (C & entry & S & Hnames).
  cbn [StoreAll fold_left] in *.
  destruct (Store_namesAddress response name ip (Store data (Store response ds))
              response_names) as [C3 S3].
  rewrite C in C3. rewrite S in S3. cbn in C3, S3.
  rewrite decide_True in C3 by apply list_elem_of_singleton, eq_refl.
  split; [done|]. eexists. split; [exact S3|].
  by rewrite DNSNames_addDNSName, Hnames, incr_singleton.
Qed.

End Correlation.

Lemma example_namesAddress :
  namesAddress (dnsResponseInfo "8.8.8.8" "bad.example" ["1.2.3.4"%string])
    "bad.example" "1.2.3.4".
Proof. by repeat split. Qed.

Lemma example_dataPacket : dataPacket (dataInfo "1.2.3.4") "1.2.3.4".
Proof. by repeat split. Qed.

Lemma example_unknownAddress : unknownAddress NewDataStore "1.2.3.4".
Proof. split; apply lookup_empty. Qed.




(** ** The reassembler: the unit handed to the parser *)

Lemma peekTLSRecord_not_ready (buffer : list byte) :
  (peekTLSRecord buffer).1 = false -> peekTLSRecord buffer = (false, []).
Proof.
  unfold peekTLSRecord.
  destruct (len buffer <? 5); [done|].
  destruct (negb (byteAt buffer 0 =? 22)); [done|].
  cbv zeta. destruct (len buffer >=? _); done.
Qed.

Lemma len_take (n : Z) (s : list byte) :
  0 <= n <= len s -> len (take (Z.to_nat n) s) = n.
Proof. unfold len. intros H. rewrite length_take. lia. Qed.

(** X1. Whatever [peekTLSRecord] reports complete is a leading part of the
    buffer of at least 5 bytes that is itself complete: checked again on its
    own it is returned whole.  For a buffer that starts with 0x16 it is the
    5 + L bytes the header declares, otherwise the whole buffer. *)
Theorem peekTLSRecord_unit (buffer data : list byte) :
  peekTLSRecord buffer = (true, data) ->
  data `prefix_of` buffer /\
  5 <= len data /\
  peekTLSRecord data = (true, data) /\
  (head buffer = Some x16 -> len data = 5 + declaredLen buffer) /\
  (head buffer <> Some x16 -> data = buffer).
Proof.
  intros Hpeek.
  assert (head buffer = Some x16 \/ head buffer <> Some x16) as [Hh|Hh].
  { destruct (Z.eq_dec (byteAt buffer 0) 22) as [E|E].
    - left. by apply byteAt_head_x16.
    - right. by intros H%byteAt_head_x16. }
  - rewrite (peekTLSRecord_tls _ Hh) in Hpeek.
    pose proof (declaredLen_nonneg buffer) as HL.
    destruct (_ <=? _) eqn:E; [|discriminate]. zbool. injection Hpeek as <-.
    set (n := 5 + declaredLen buffer) in *.
    assert (len (take (Z.to_nat n) buffer) = n) as Hlen by (apply len_take; lia).
    assert (take (Z.to_nat n) buffer `prefix_of` buffer) as Hpre.
    { exists (drop (Z.to_nat n) buffer). by rewrite take_drop. }
    destruct Hpre as [rest Hrest].
    assert (head (take (Z.to_nat n) buffer) = Some x16) as Hh'.
    { destruct (take (Z.to_nat n) buffer) as [|c data] eqn:Et.
      - unfold len in Hlen. simpl in Hlen. lia.
      - rewrite Hrest in Hh. done. }
    assert (declaredLen (take (Z.to_nat n) buffer) = declaredLen buffer) as HL'.
    { unfold declaredLen. rewrite Hrest at 3 4. rewrite !byteAt_app_l; [done | lia | lia]. }
    split; [by exists rest|]. split; [lia|]. split; [|split; [done|done]].
    apply peekTLSRecord_exact; [done|]. rewrite HL'. done.
  - rewrite (peekTLSRecord_other _ Hh) in Hpeek.
    destruct (len buffer <? 5) eqn:E; [discriminate|]. zbool. injection Hpeek as <-.
    split; [done|]. split; [lia|]. split; [|split; [done|done]].
    rewrite (peekTLSRecord_other _ Hh). destruct (len buffer <? 5) eqn:E'; zbool; [lia|done].
Qed.

Lemma peekTLSRecord_unit_witness :
  [x47; x45; x54; x20; x2f] `prefix_of` [x47; x45; x54; x20; x2f] /\
  5 <= len [x47; x45; x54; x20; x2f].
Proof.
  destruct (peekTLSRecord_unit [x47; x45; x54; x20; x2f] [x47; x45; x54; x20; x2f])
    as (H1 & H2 & _); [reflexivity|].
  split; [exact H1 | exact H2].
Defined.

(** ** The reassembler: flows are kept apart *)

Lemma packetFlowKey_segment (srcIP dstIP srcPort dstPort : string) (seq : Z)
    (payload : list byte) (tcp : TCP) :
  pkt_TCP (segment srcIP dstIP srcPort dstPort seq payload) = Some tcp ->
  packetFlowKey (segment srcIP dstIP srcPort dstPort seq payload) tcp =
    mkFlowKey srcIP dstIP srcPort dstPort "TCP" /\
  tcp_Payload tcp = payload /\ tcp_Seq tcp = seq.
Proof. intros [= <-]. done. Qed.

(** X2. [ProcessPacket] changes no entry but that of the packet's own
    flow: a packet without TCP layer or without payload bytes changes
    nothing and hands nothing to a buffer, and a segment with payload
    leaves every other flow's entry as it was. *)
Theorem ProcessPacket_other_flows (now : Z) (packet : Packet) (sr : Streams) :
  (forall k : FlowKey,
     (forall tcp, pkt_TCP packet = Some tcp -> tcp_Payload tcp <> [] ->
                  k <> packetFlowKey packet tcp) ->
     streamsOf (ProcessPacket now packet sr) !! k = sr !! k) /\
  (pkt_TCP packet = None -> streamsOf (ProcessPacket now packet sr) = sr) /\
  (forall tcp, pkt_TCP packet = Some tcp -> tcp_Payload tcp = [] ->
     ProcessPacket now packet sr = (sr, ([], false, packetFlowKey packet tcp))).
Proof.
  split; [|split].
  - intros k Hk. unfold ProcessPacket.
    destruct (pkt_TCP packet) as [tcp|] eqn:Htcp.
    + destruct (len (tcp_Payload tcp) =? 0) eqn:E; [done|]. zbool.
      assert (tcp_Payload tcp <> []) as Hpay by (by intros H%len_zero).
      specialize (Hk tcp eq_refl Hpay).
      destruct (peekTLSRecord _) as [[] data]; unfold streamsOf; cbn [fst].
      * by rewrite lookup_delete_ne, lookup_insert_ne.
      * by rewrite lookup_insert_ne.
    + by destruct (pkt_ApplicationLayer packet).
  - intros Htcp. unfold ProcessPacket. rewrite Htcp.
    by destruct (pkt_ApplicationLayer packet).
  - intros tcp Htcp Hpay. unfold ProcessPacket. rewrite Htcp, Hpay. done.
Qed.

Lemma ProcessPacket_other_flows_witness :
  streamsOf (ProcessPacket 0 (segment "10.0.0.1" "1.2.3.4" "50000" "443(https)" 1 [x16])
               NewStreamReassembler)
    !! mkFlowKey "1.2.3.4" "10.0.0.1" "443(https)" "50000" "TCP" = None.
Proof.
  destruct (ProcessPacket_other_flows 0
              (segment "10.0.0.1" "1.2.3.4" "50000" "443(https)" 1 [x16])
              NewStreamReassembler) as (H & _).
  rewrite H; [reflexivity|].
  intros tcp [= <-] _. discriminate.
Defined.

(** X3. [Reverse] swaps the two ends of a flow and keeps the protocol, so
    reversing twice gives the key back; a key is its own reverse only when
    both ends are the same.  The reassembler keys a segment by its own
    direction: a segment of the reverse direction is filed under the
    reversed key and leaves the buffer of the forward flow alone. *)
Theorem Reverse_flow :
  (forall fk : FlowKey,
     Reverse (Reverse fk) = fk /\
     fk_Proto (Reverse fk) = fk_Proto fk /\
     (Reverse fk = fk <->
        fk_SrcIP fk = fk_DstIP fk /\ fk_SrcPort fk = fk_DstPort fk)) /\
  (forall (now : Z) (srcIP dstIP srcPort dstPort : string) (seq : Z)
          (payload : list byte) (sr : Streams),
     let fk := mkFlowKey srcIP dstIP srcPort dstPort "TCP" in
     (ProcessPacket now (segment dstIP srcIP dstPort srcPort seq payload) sr).2.2 =
       Reverse fk /\
     (Reverse fk <> fk ->
        streamsOf (ProcessPacket now (segment dstIP srcIP dstPort srcPort seq payload) sr)
          !! fk = sr !! fk)).
Proof.
  split.
  - intros [a b c d e]. unfold Reverse. cbn. split; [done|]. split; [done|].
    split; [intros H; split; congruence | by intros [-> ->]].
  - intros now srcIP dstIP srcPort dstPort seq payload sr fk. split.
    + unfold ProcessPacket. cbn [pkt_TCP segment tcp_Payload].
      destruct (len payload =? 0); [done|].
      by destruct (peekTLSRecord _) as [[] data].
    + intros Hne.
      apply (proj1 (ProcessPacket_other_flows now _ sr)).
      intros tcp Htcp _. apply packetFlowKey_segment in Htcp as (-> & _).
      unfold fk, Reverse in *. cbn in Hne. congruence.
Qed.

Lemma Reverse_flow_witness :
  streamsOf (ProcessPacket 0 (segment "1.2.3.4" "10.0.0.1" "443(https)" "50000" 1 [x16])
               NewStreamReassembler)
    !! mkFlowKey "10.0.0.1" "1.2.3.4" "50000" "443(https)" "TCP" = None.
Proof.
  destruct Reverse_flow as (_ & H).
  destruct (H 0 "10.0.0.1"%string "1.2.3.4"%string "50000"%string "443(https)"%string
              1 [x16] NewStreamReassembler) as (_ & H2).
  rewrite H2; [reflexivity | discriminate].
Defined.

(** ** The reassembler: what stays in the map *)

Lemma uint32_range (z : Z) : 0 <= uint32 z < 2 ^ 32.
Proof. unfold uint32. apply Z.mod_pos_bound. lia. Qed.

Lemma app_not_nil_r (s t : list byte) : t <> [] -> s ++ t <> [].
Proof. by destruct s, t. Qed.

Lemma app_not_nil_l (s t : list byte) : s <> [] -> s ++ t <> [].
Proof. by destruct s, t. Qed.

(** The first three parts of [buffering] for the entry a segment with
    payload leaves behind. *)
Lemma touchedStream_buffering (now : Z) (tcp : TCP) (flowKey : FlowKey) (sr : Streams) :
  tcp_Payload tcp <> [] ->
  (forall stream, sr !! flowKey = Some stream -> buffering stream) ->
  let stream := touchedStream now tcp flowKey sr in
  sb_Initialized stream = true /\ sb_Buffer stream <> [] /\
  0 <= sb_NextSeq stream < 2 ^ 32.
Proof.
  intros Hpay Hinv. cbv zeta.
  destruct (sr !! flowKey) as [old|] eqn:E.
  - rewrite (touchedStream_existing _ _ _ _ _ E).
    destruct (Hinv old eq_refl) as (Hi & Hb & _ & Hn).
    unfold updateStream. rewrite Hi. cbn [negb]. cbv zeta.
    pose proof (uint32_range (tcp_Seq tcp + uint32 (len (tcp_Payload tcp)))).
    repeat case_match; cbn; (split; [done|]); (split; [|done]);
      try done; by apply app_not_nil_l.
  - rewrite (touchedStream_fresh _ _ _ _ E). unfold firstStream. cbn.
    split; [done|]. split; [done|]. apply uint32_range.
Qed.

Lemma touchedStream_bounded (now : Z) (tcp : TCP) (flowKey : FlowKey) (sr : Streams) :
  len (tcp_Payload tcp) <= MaxBufferSize ->
  (forall stream, sr !! flowKey = Some stream ->
     sb_Initialized stream = true /\ len (sb_Buffer stream) <= MaxBufferSize) ->
  len (sb_Buffer (touchedStream now tcp flowKey sr)) <= MaxBufferSize.
Proof.
  intros Hpay Hinv.
  destruct (sr !! flowKey) as [old|] eqn:E.
  - rewrite (touchedStream_existing _ _ _ _ _ E).
    destruct (Hinv old eq_refl) as (Hi & Hb).
    unfold updateStream. rewrite Hi. cbn [negb]. cbv zeta.
    repeat case_match; cbn; zbool; rewrite ?len_app; lia.
  - rewrite (touchedStream_fresh _ _ _ _ E). done.
Qed.

Lemma cleanupExpiredStreams_lookup (now : Z) (sr : Streams) (k : FlowKey)
    (stream : StreamBuffer) :
  cleanupExpiredStreams now sr !! k = Some stream <->
  sr !! k = Some stream /\ now - sb_LastActivity stream <= StreamTimeout.
Proof.
  unfold cleanupExpiredStreams. rewrite map_lookup_filter_Some. cbn.
  destruct (_ >? _) eqn:E; zbool; cbn; split; intros [H1 H2]; split; try done; lia.
Qed.

Lemma step_lookup (sr : Streams) (event : Event) (k : FlowKey) (stream : StreamBuffer) :
  step sr event !! k = Some stream ->
  sr !! k = Some stream \/
  exists now packet tcp,
    event = Arrival now packet /\ pkt_TCP packet = Some tcp /\
    tcp_Payload tcp <> [] /\ k = packetFlowKey packet tcp /\
    stream = touchedStream now tcp k sr /\
    peekTLSRecord (sb_Buffer stream) = (false, []).
Proof.
  destruct event as [now packet|now]; cbn [step].
  - unfold ProcessPacket.
    destruct (pkt_TCP packet) as [tcp|] eqn:Htcp.
    + destruct (len (tcp_Payload tcp) =? 0) eqn:E; [by left|]. zbool.
      assert (tcp_Payload tcp <> []) as Hpay by (by intros H%len_zero).
      destruct (peekTLSRecord _) as [[] data] eqn:Hpeek; unfold streamsOf; cbn [fst].
      * rewrite delete_insert_eq. rewrite lookup_delete_Some. intros [_ H]. by left.
      * rewrite lookup_insert_Some. intros [[<- <-] | [_ H]]; [|by left].
        right. exists now, packet, tcp. repeat (split; [done|]).
        apply peekTLSRecord_not_ready. by rewrite Hpeek.
    + destruct (pkt_ApplicationLayer packet); by left.
  - rewrite cleanupExpiredStreams_lookup. intros [H _]. by left.
Qed.

Lemma streamsInv_step (sr : Streams) (event : Event) :
  streamsInv sr -> streamsInv (step sr event).
Proof.
  intros Hinv k stream Hk.
  destruct (step_lookup _ _ _ _ Hk)
    as [H | (now & packet & tcp & -> & Htcp & Hpay & -> & -> & Hpeek)];
    [by apply (Hinv k)|].
  split; [|unfold packetFlowKey; by destruct (pkt_NetworkLayer packet) as [[? ?]|]].
  destruct (touchedStream_buffering now tcp (packetFlowKey packet tcp) sr Hpay)
    as (H1 & H2 & H3).
  { intros old Hold. by apply (Hinv _ _ Hold). }
  exact (conj H1 (conj H2 (conj Hpeek H3))).
Qed.

Lemma streamsBounded_step (sr : Streams) (event : Event) :
  smallPayload event -> streamsInv sr -> streamsBounded sr ->
  streamsBounded (step sr event).
Proof.
  intros Hsmall Hinv Hb k stream Hk.
  destruct (step_lookup _ _ _ _ Hk)
    as [H | (now & packet & tcp & -> & Htcp & Hpay & -> & -> & Hpeek)];
    [by apply (Hb k)|].
  cbn in Hsmall. rewrite Htcp in Hsmall.
  apply touchedStream_bounded; [done|].
  intros old Hold. split; [apply (Hinv _ _ Hold) | apply (Hb _ _ Hold)].
Qed.

Lemma streamsInv_run (events : list Event) (sr : Streams) :
  streamsInv sr -> streamsInv (run events sr).
Proof.
  revert sr. induction events as [|event events IH]; intros sr Hinv; [done|].
  cbn. by apply IH, streamsInv_step.
Qed.

Lemma streamsBounded_run (events : list Event) (sr : Streams) :
  Forall smallPayload events -> streamsInv sr -> streamsBounded sr ->
  streamsBounded (run events sr).
Proof.
  revert sr. induction events as [|event events IH]; intros sr Hs Hinv Hb; [done|].
  apply Forall_cons in Hs as [Hs1 Hs2].
  cbn. apply IH; [done | by apply streamsInv_step | by apply streamsBounded_step].
Qed.

(** X4. Whatever packets arrive and whenever the cleanup runs, an entry
    found in the map of a reassembler that started empty is that of a TCP
    flow waiting for more bytes: it is initialized, holds at least one byte
    and no complete unit, so once it holds 5 bytes or more these start with
    0x16 and are fewer than the 5 + L the header declares.  When no TCP
    payload exceeds [MaxBufferSize], no buffer does. *)
Theorem buffered_streams_invariant (events : list Event) (k : FlowKey)
    (stream : StreamBuffer) :
  run events NewStreamReassembler !! k = Some stream ->
  buffering stream /\
  fk_Proto k = "TCP"%string /\
  (5 <= len (sb_Buffer stream) ->
     head (sb_Buffer stream) = Some x16 /\
     len (sb_Buffer stream) < 5 + declaredLen (sb_Buffer stream)) /\
  (Forall smallPayload events -> len (sb_Buffer stream) <= MaxBufferSize).
Proof.
  intros Hk.
  assert (streamsInv NewStreamReassembler) as H0.
  { intros k' s'. unfold NewStreamReassembler. by rewrite lookup_empty. }
  destruct (streamsInv_run events _ H0 k stream Hk) as (Hbuf & Hproto).
  split; [done|]. split; [done|]. split.
  - intros Hlen. destruct Hbuf as (_ & _ & Hpeek & _).
    assert (head (sb_Buffer stream) = Some x16) as Hh.
    { apply byteAt_head_x16.
      destruct (Z.eq_dec (byteAt (sb_Buffer stream) 0) 22) as [E|E]; [done|].
      rewrite peekTLSRecord_other in Hpeek by (by intros H%byteAt_head_x16).
      destruct (_ <? 5) eqn:E'; zbool; [lia | discriminate]. }
    split; [done|]. rewrite (peekTLSRecord_tls _ Hh) in Hpeek.
    destruct (_ <=? _) eqn:E'; zbool; [discriminate | lia].
  - intros Hsmall. apply (streamsBounded_run events _ Hsmall H0) with k; [|done].
    intros k' s'. unfold NewStreamReassembler. by rewrite lookup_empty.
Qed.

Lemma buffered_streams_invariant_witness :
  buffering (mkStreamBuffer [x16; x03; x03] 7 4 true).
Proof.
  refine (proj1 (buffered_streams_invariant
            [Arrival 5 (segment "10.0.0.1" "1.2.3.4" "50000" "443(https)" 1 [x16; x03]);
             Sweep 6;
             Arrival 7 (segment "10.0.0.1" "1.2.3.4" "50000" "443(https)" 3 [x03])]
            (mkFlowKey "10.0.0.1" "1.2.3.4" "50000" "443(https)" "TCP") _ _)).
  vm_compute. reflexivity.
Defined.

(** ** The reassembler: a record in any number of segments *)

Lemma ProcessPacket_segment (now : Z) (srcIP dstIP srcPort dstPort : string) (seq : Z)
    (payload : list byte) (sr : Streams) :
  payload <> [] ->
  let flowKey := mkFlowKey srcIP dstIP srcPort dstPort "TCP" in
  let tcp := mkTCP srcPort dstPort seq 0 false true false false true false payload in
  let stream := touchedStream now tcp flowKey sr in
  ProcessPacket now (segment srcIP dstIP srcPort dstPort seq payload) sr =
    if (peekTLSRecord (sb_Buffer stream)).1
    then (delete flowKey sr, ((peekTLSRecord (sb_Buffer stream)).2, true, flowKey))
    else (<[flowKey := stream]> sr, ([], false, flowKey)).
Proof.
  intros Hpay flowKey tcp stream.
  by rewrite (ProcessPacket_payload now
                (segment srcIP dstIP srcPort dstPort seq payload) tcp sr eq_refl Hpay).
Qed.

Lemma concat_not_nil (chunks : list (list byte)) :
  chunks <> [] -> Forall (fun chunk => chunk <> []) chunks -> concat chunks <> [].
Proof.
  destruct chunks as [|chunk chunks]; [done|]. intros _ H.
  apply Forall_cons in H as [H _]. cbn. by apply app_not_nil_l.
Qed.

(** The segments after the first: the entry holds [part], and the chunks
    to come complete the record. *)
Lemma ProcessPackets_rest (srcIP dstIP srcPort dstPort : string)
    (chunks : list (list byte)) :
  forall (part : list byte) (seq last : Z) (arrivals : list (Z * Packet)) (sr : Streams),
    let flowKey := mkFlowKey srcIP dstIP srcPort dstPort "TCP" in
    sr !! flowKey = Some (mkStreamBuffer part last seq true) ->
    head (part ++ concat chunks) = Some x16 ->
    len (part ++ concat chunks) = 5 + declaredLen (part ++ concat chunks) ->
    len (part ++ concat chunks) <= MaxBufferSize ->
    chunks <> [] ->
    Forall (fun chunk => chunk <> []) chunks ->
    map snd arrivals = segments srcIP dstIP srcPort dstPort seq chunks ->
    ProcessPackets arrivals sr =
      (delete flowKey sr,
       map (fun _ => ([], false)) (removelast chunks) ++ [(part ++ concat chunks, true)]).
Proof.
  induction chunks as [|chunk chunks IH];
    intros part seq last arrivals sr flowKey Hsr Hh Hl Hmax Hne Hall Harr; [done|].
  apply Forall_cons in Hall as [Hchunk Hall].
  destruct arrivals as [|[now packet] arrivals]; [done|].
  cbn [map segments snd] in Harr. injection Harr as -> Harr.
  cbn [ProcessPackets]. cbn [concat] in Hh, Hl, Hmax.
  rewrite (ProcessPacket_segment now _ _ _ _ seq chunk sr Hchunk). fold flowKey.
  rewrite (touchedStream_existing _ _ _ _ _ Hsr).
  rewrite updateStream_in_order; cbn [sb_Initialized sb_NextSeq sb_Buffer tcp_Seq tcp_Payload];
    [|done|done|pose proof (len_nonneg (concat chunks)); rewrite !len_app in Hmax; lia].
  destruct chunks as [|chunk' chunks'].
  - cbn [concat] in *. rewrite app_nil_r in *.
    rewrite (peekTLSRecord_exact _ Hh Hl). cbn [fst snd].
    destruct arrivals; [|done].
    unfold streamsOf, payloadOf, readyOf. cbn. done.
  - assert (concat (chunk' :: chunks') <> []) as Hrest by (by apply concat_not_nil).
    rewrite app_assoc in Hh, Hl, Hmax.
    rewrite (peekTLSRecord_partial _ _ Hh Hl Hrest). cbn [fst snd].
    unfold streamsOf at 1 2, payloadOf, readyOf. cbn [fst snd].
    rewrite (IH (part ++ chunk) (uint32 (seq + len chunk)) now arrivals
               (<[flowKey := _]> sr)); try done.
    + cbn [fst snd]. rewrite delete_insert_eq. f_equal.
      change (removelast (chunk :: chunk' :: chunks'))
        with (chunk :: removelast (chunk' :: chunks')).
      cbn [map app]. by rewrite <- !app_assoc.
    + by rewrite lookup_insert_eq.
Qed.

(** X5. A TLS record of at most [MaxBufferSize] bytes that reaches a flow
    without entry cut into any number of non-empty segments, in
    sequence-number order, is handed out whole: every call before the last
    returns nothing, the last returns exactly the record, and the
    reassembler is left as it was before the first segment. *)
Theorem reassembly_round_trip (srcIP dstIP srcPort dstPort : string) (seq : Z)
    (record : list byte) (chunks : list (list byte)) (arrivals : list (Z * Packet))
    (sr : Streams) :
  head record = Some x16 ->
  len record = 5 + declaredLen record ->
  len record <= MaxBufferSize ->
  concat chunks = record ->
  Forall (fun chunk => chunk <> []) chunks ->
  map snd arrivals = segments srcIP dstIP srcPort dstPort seq chunks ->
  sr !! mkFlowKey srcIP dstIP srcPort dstPort "TCP" = None ->
  ProcessPackets arrivals sr =
    (sr, map (fun _ => ([], false)) (removelast chunks) ++ [(record, true)]).
Proof.
  intros Hh Hl Hmax <- Hall Harr Hsr.
  set (flowKey := mkFlowKey srcIP dstIP srcPort dstPort "TCP") in *.
  destruct chunks as [|chunk chunks]; [done|].
  apply Forall_cons in Hall as [Hchunk Hall].
  destruct arrivals as [|[now packet] arrivals]; [done|].
  cbn [map segments snd] in Harr. injection Harr as -> Harr.
  cbn [ProcessPackets]. cbn [concat] in Hh, Hl, Hmax.
  rewrite (ProcessPacket_segment now _ _ _ _ seq chunk sr Hchunk). fold flowKey.
  rewrite (touchedStream_fresh _ _ _ _ Hsr). unfold firstStream.
  cbn [sb_Buffer tcp_Payload tcp_Seq].
  destruct chunks as [|chunk' chunks'].
  - cbn [concat] in *. rewrite app_nil_r in *.
    rewrite (peekTLSRecord_exact _ Hh Hl). cbn [fst snd].
    destruct arrivals; [|done].
    unfold streamsOf, payloadOf, readyOf. cbn. by rewrite delete_id.
  - assert (concat (chunk' :: chunks') <> []) as Hrest by (by apply concat_not_nil).
    rewrite (peekTLSRecord_partial _ _ Hh Hl Hrest). cbn [fst snd].
    unfold streamsOf at 1 2, payloadOf, readyOf. cbn [fst snd].
    rewrite (ProcessPackets_rest srcIP dstIP srcPort dstPort (chunk' :: chunks')
               chunk (uint32 (seq + len chunk)) now arrivals (<[flowKey := _]> sr));
      try done.
    + cbn [fst snd]. rewrite delete_insert_eq, delete_id by done. done.
    + by rewrite lookup_insert_eq.
Qed.

Lemma reassembly_round_trip_witness :
  let record := [x16; x03; x03; x00; x02; xaa; xbb] in
  ProcessPackets
    [(1, segment "10.0.0.1" "1.2.3.4" "50000" "443(https)" 4294967294 [x16; x03; x03]);
     (2, segment "10.0.0.1" "1.2.3.4" "50000" "443(https)" 1 [x00]);
     (3, segment "10.0.0.1" "1.2.3.4" "50000" "443(https)" 2 [x02; xaa; xbb])]
    NewStreamReassembler =
  (NewStreamReassembler, [([], false); ([], false); (record, true)]).
Proof.
  intros record.
  apply (reassembly_round_trip "10.0.0.1" "1.2.3.4" "50000" "443(https)" 4294967294
           record [[x16; x03; x03]; [x00]; [x02; xaa; xbb]]).
  - reflexivity.
  - reflexivity.
  - vm_compute. discriminate.
  - reflexivity.
  - repeat constructor; discriminate.
  - reflexivity.
  - reflexivity.
Defined.

(** ** The reassembler: idle flows *)

Lemma touchedStream_LastActivity (now : Z) (tcp : TCP) (flowKey : FlowKey) (sr : Streams) :
  sb_LastActivity (touchedStream now tcp flowKey sr) = now.
Proof.
  unfold touchedStream, updateStream. cbv zeta. by repeat case_match.
Qed.

(** What [ProcessPacket] returns depends on the entry of the packet's flow
    alone. *)
Lemma ProcessPacket_result_lookup (now : Z) (packet : Packet) (sr sr' : Streams) :
  (forall tcp, pkt_TCP packet = Some tcp ->
     sr !! packetFlowKey packet tcp = sr' !! packetFlowKey packet tcp) ->
  (ProcessPacket now packet sr).2 = (ProcessPacket now packet sr').2.
Proof.
  intros H. unfold ProcessPacket.
  destruct (pkt_TCP packet) as [tcp|].
  - destruct (len (tcp_Payload tcp) =? 0); [done|].
    unfold touchedStream. rewrite (H tcp eq_refl).
    by destruct (peekTLSRecord _) as [[] data].
  - by destruct (pkt_ApplicationLayer packet).
Qed.

(** X6. A flow that is waiting for more bytes since its segment of instant
    [now] keeps its entry through every run of the cleanup up to
    [StreamTimeout] later; a run after that removes the entry, and the
    flow's next segment is treated as the first of a flow never seen: the
    bytes buffered before are not part of what is handed out. *)
Theorem idle_eviction (now later : Z) (packet : Packet) (tcp : TCP) (sr : Streams) :
  pkt_TCP packet = Some tcp ->
  tcp_Payload tcp <> [] ->
  readyOf (ProcessPacket now packet sr) = false ->
  let flowKey := packetFlowKey packet tcp in
  let sr1 := streamsOf (ProcessPacket now packet sr) in
  sr1 !! flowKey = Some (touchedStream now tcp flowKey sr) /\
  (later - now <= StreamTimeout ->
     cleanupExpiredStreams later sr1 !! flowKey = sr1 !! flowKey) /\
  (later - now > StreamTimeout ->
     cleanupExpiredStreams later sr1 !! flowKey = None /\
     forall (now2 : Z) (packet2 : Packet) (tcp2 : TCP),
       pkt_TCP packet2 = Some tcp2 ->
       packetFlowKey packet2 tcp2 = flowKey ->
       (ProcessPacket now2 packet2 (cleanupExpiredStreams later sr1)).2 =
       (ProcessPacket now2 packet2 NewStreamReassembler).2).
Proof.
  intros Htcp Hpay Hready flowKey sr1.
  assert (sr1 !! flowKey = Some (touchedStream now tcp flowKey sr)) as Hsr1.
  { unfold sr1. unfold readyOf in Hready.
    rewrite (ProcessPacket_payload now packet tcp sr Htcp Hpay) in *.
    fold flowKey in Hready |- *.
    destruct (peekTLSRecord _).1; [discriminate|].
    unfold streamsOf. cbn [fst]. by rewrite lookup_insert_eq. }
  split; [done|]. split.
  - intros Hage. rewrite Hsr1. apply cleanupExpiredStreams_lookup.
    rewrite touchedStream_LastActivity. done.
  - intros Hage.
    assert (cleanupExpiredStreams later sr1 !! flowKey = None) as Hgone.
    { apply eq_None_not_Some. intros [stream Hs].
      apply cleanupExpiredStreams_lookup in Hs as [Hs Hle].
      rewrite Hsr1 in Hs. injection Hs as <-.
      rewrite touchedStream_LastActivity in Hle. lia. }
    split; [done|]. intros now2 packet2 tcp2 Htcp2 Hkey.
    apply ProcessPacket_result_lookup. intros tcp' Htcp'.
    rewrite Htcp2 in Htcp'. injection Htcp' as <-. rewrite Hkey, Hgone.
    unfold NewStreamReassembler. by rewrite lookup_empty.
Qed.

Lemma idle_eviction_witness :
  let packet := segment "10.0.0.1" "1.2.3.4" "50000" "443(https)" 1 [x16; x03] in
  let sr1 := streamsOf (ProcessPacket 0 packet NewStreamReassembler) in
  cleanupExpiredStreams (3 * Second + 1) sr1
    !! mkFlowKey "10.0.0.1" "1.2.3.4" "50000" "443(https)" "TCP" = None.
Proof.
  intros packet sr1.
  destruct (idle_eviction 0 (3 * Second + 1) packet
              (mkTCP "50000" "443(https)" 1 0 false true false false true false [x16; x03])
              NewStreamReassembler) as (_ & _ & H).
  - reflexivity.
  - discriminate.
  - reflexivity.
  - apply H. vm_compute. reflexivity.
Defined.

(** X7. A run of the cleanup removes exactly the entries idle for more
    than [StreamTimeout] and changes no other; running it again at the same
    or a later instant gives what the later run alone would give.
    [GetStreamStats] counts the entries it lists; after a run of the
    cleanup at the same instant none of them is older than [StreamTimeout],
    and when every flow has been idle for longer it reports 0 active
    streams. *)
Theorem cleanupExpiredStreams_sweeps (now : Z) (sr : Streams) :
  cleanupExpiredStreams now sr ⊆ sr /\
  (forall k stream,
     cleanupExpiredStreams now sr !! k = Some stream <->
     sr !! k = Some stream /\ now - sb_LastActivity stream <= StreamTimeout) /\
  (forall later, now <= later ->
     cleanupExpiredStreams later (cleanupExpiredStreams now sr) =
       cleanupExpiredStreams later sr) /\
  active_streams (GetStreamStats now sr) = len (streams (GetStreamStats now sr)) /\
  active_streams (GetStreamStats now (cleanupExpiredStreams now sr)) <=
    active_streams (GetStreamStats now sr) /\
  Forall (fun info => si_age info <= StreamTimeout)
    (streams (GetStreamStats now (cleanupExpiredStreams now sr))) /\
  ((forall k stream, sr !! k = Some stream ->
      now - sb_LastActivity stream > StreamTimeout) ->
   GetStreamStats now (cleanupExpiredStreams now sr) = mkStreamStats 0 []).
Proof.
  split; [apply map_filter_subseteq|].
  split; [intros k stream; apply cleanupExpiredStreams_lookup|].
  split; [|split; [|split; [|split]]].
  - intros later Hle. apply map_eq. intros k. apply option_eq. intros stream.
    rewrite !cleanupExpiredStreams_lookup. intuition lia.
  - unfold GetStreamStats, len. cbn. by rewrite length_map, length_map_to_list.
  - unfold GetStreamStats. cbn. apply inj_le, map_subseteq_size, map_filter_subseteq.
  - unfold GetStreamStats. cbn. apply Forall_map, Forall_forall.
    intros [k stream] Hin. cbn.
    apply elem_of_map_to_list, cleanupExpiredStreams_lookup in Hin. tauto.
  - intros Hidle.
    assert (cleanupExpiredStreams now sr = ∅) as ->.
    { apply map_eq. intros k. rewrite lookup_empty. apply eq_None_not_Some.
      intros [stream Hs]. apply cleanupExpiredStreams_lookup in Hs as [Hs Hle].
      specialize (Hidle k stream Hs). lia. }
    unfold GetStreamStats. by rewrite map_size_empty, map_to_list_empty.
Qed.

Lemma cleanupExpiredStreams_sweeps_witness :
  let sr : Streams :=
    {[ mkFlowKey "10.0.0.1" "1.2.3.4" "50000" "443(https)" "TCP" :=
         mkStreamBuffer [x16; x03] 0 3 true ]} in
  GetStreamStats (3 * Second + 1) (cleanupExpiredStreams (3 * Second + 1) sr) =
    mkStreamStats 0 [].
Proof.
  intros sr.
  destruct (cleanupExpiredStreams_sweeps (3 * Second + 1) sr)
    as (_ & _ & _ & _ & _ & _ & H).
  apply H. intros k stream Hk. unfold sr in Hk.
  apply lookup_singleton_Some in Hk as [_ <-]. vm_compute. reflexivity.
Defined.

(** ** The store: what an entry holds *)

Lemma StoreAll_snoc (infos : list PacketInfo) (info : PacketInfo) (ds : DataStore) :
  StoreAll (infos ++ [info]) ds = Store info (StoreAll infos ds).
Proof. unfold StoreAll. by rewrite fold_left_app. Qed.

Lemma Store_no_remote (info : PacketInfo) (ds : DataStore) :
  RemoteIP info = EmptyString -> Store info ds = ds.
Proof. intros H. unfold Store. by rewrite H. Qed.

Section Projection.

(** A view of an entry that the DNS correlation does not change. *)
Context {A : Type} (f : RemoteIPStats -> A).
Hypothesis f_addDNSName : forall name entry, f (addDNSName name entry) = f entry.

Lemma correlateAll_proj (name : string) (ips : list string) (ds : DataStore) (ip : string) :
  f <$> ds_stats (fold_left (correlateDNS name) ips ds) !! ip = f <$> ds_stats ds !! ip.
Proof.
  revert ds. induction ips as [|responseIP ips IH]; intros ds; [done|].
  cbn [fold_left]. rewrite IH, correlateDNS_stats.
  destruct (decide (ip = responseIP)); [|done].
  destruct (ds_stats ds !! ip); cbn; [|done]. by rewrite f_addDNSName.
Qed.

Lemma Store_proj (info : PacketInfo) (ds : DataStore) (ip : string) :
  RemoteIP info <> EmptyString ->
  f <$> ds_stats (Store info ds) !! ip =
    if decide (ip = RemoteIP info)
    then Some (f (recordPacket info
                    (default (newRemoteIPStats info (ds_dnsCache ds)) (ds_stats ds !! ip))))
    else f <$> ds_stats ds !! ip.
Proof.
  intros Hr. unfold Store. apply String.eqb_neq in Hr. rewrite Hr.
  set (ds1 := mkDataStore _ _).
  assert (f <$> ds_stats ds1 !! ip =
          if decide (ip = RemoteIP info)
          then Some (f (recordPacket info
                    (default (newRemoteIPStats info (ds_dnsCache ds)) (ds_stats ds !! ip))))
          else f <$> ds_stats ds !! ip) as H1.
  { unfold ds1. cbn [ds_stats]. destruct (decide (ip = RemoteIP info)) as [->|Hne].
    - rewrite lookup_insert_eq. by destruct (ds_stats ds !! RemoteIP info).
    - by rewrite lookup_insert_ne. }
  destruct (_ && _); [by rewrite correlateAll_proj | done].
Qed.

End Projection.

Section EntryInvariant.

(** A property of entries that holds once the first packet is recorded
    and that recording and correlating keep. *)
Variable P : RemoteIPStats -> Prop.
Hypothesis P_first : forall info dnsCache,
  P (recordPacket info (newRemoteIPStats info dnsCache)).
Hypothesis P_recordPacket : forall info entry, P entry -> P (recordPacket info entry).
Hypothesis P_addDNSName : forall name entry, P entry -> P (addDNSName name entry).

Lemma entries_correlateAll (name : string) (ips : list string) (ds : DataStore) :
  (forall ip entry, ds_stats ds !! ip = Some entry -> P entry) ->
  forall ip entry,
    ds_stats (fold_left (correlateDNS name) ips ds) !! ip = Some entry -> P entry.
Proof.
  revert ds. induction ips as [|responseIP ips IH]; intros ds Hinv; [done|].
  cbn [fold_left]. apply IH. intros ip entry. rewrite correlateDNS_stats.
  destruct (decide (ip = responseIP)); [|apply Hinv].
  destruct (ds_stats ds !! ip) as [old|] eqn:E; cbn; [|done].
  intros [= <-]. by apply P_addDNSName, (Hinv ip).
Qed.

Lemma entries_Store (info : PacketInfo) (ds : DataStore) :
  (forall ip entry, ds_stats ds !! ip = Some entry -> P entry) ->
  forall ip entry, ds_stats (Store info ds) !! ip = Some entry -> P entry.
Proof.
  intros Hinv. unfold Store. destruct (String.eqb (RemoteIP info) EmptyString); [done|].
  set (ds1 := mkDataStore _ _).
  assert (forall ip entry, ds_stats ds1 !! ip = Some entry -> P entry) as Hinv1.
  { intros ip entry. unfold ds1. cbn. rewrite lookup_insert_Some.
    intros [[<- <-] | [_ H]]; [|by apply (Hinv ip)].
    destruct (ds_stats ds !! RemoteIP info) eqn:E;
      [by apply P_recordPacket, (Hinv (RemoteIP info)) | apply P_first]. }
  destruct (_ && _); [by apply entries_correlateAll | done].
Qed.

Lemma entries_StoreAll (infos : list PacketInfo) :
  forall ip entry, ds_stats (StoreAll infos NewDataStore) !! ip = Some entry -> P entry.
Proof.
  induction infos as [|info infos IH] using rev_ind.
  - intros ip entry. unfold NewDataStore. cbn. by rewrite lookup_empty.
  - rewrite StoreAll_snoc. by apply entries_Store.
Qed.

End EntryInvariant.

Lemma packetsOf_snoc (ip : string) (infos : list PacketInfo) (info : PacketInfo) :
  packetsOf ip (infos ++ [info]) =
    packetsOf ip infos ++ (if decide (RemoteIP info = ip) then [info] else []).
Proof.
  unfold packetsOf. rewrite filter_app, filter_cons, filter_nil.
  by destruct (decide (RemoteIP info = ip)).
Qed.

(** The records of an entry are those of the packets with its address. *)
Lemma Records_StoreAll (infos : list PacketInfo) (ip : string) :
  (ds_stats (StoreAll infos NewDataStore) !! ip = None <->
     ip = EmptyString \/ packetsOf ip infos = []) /\
  (forall entry, ds_stats (StoreAll infos NewDataStore) !! ip = Some entry ->
     stats_RemoteIP entry = ip /\
     Records entry = map connectionRecord (packetsOf ip infos)).
Proof.
  induction infos as [|info infos (IHa & IHb)] using rev_ind.
  - unfold NewDataStore. cbn. rewrite lookup_empty. split; [|done].
    split; [by right | done].
  - rewrite StoreAll_snoc, packetsOf_snoc.
    set (ds := StoreAll infos NewDataStore) in *.
    destruct (decide (RemoteIP info = EmptyString)) as [Hr|Hr].
    { rewrite (Store_no_remote _ _ Hr).
      destruct (decide (RemoteIP info = ip)) as [E|E].
      - subst ip. rewrite Hr in *. split.
        { split; [intros _; by left | intros _; apply IHa; by left]. }
        intros entry H. assert (ds_stats ds !! EmptyString = None) as H0 by (apply IHa; by left).
        congruence.
      - by rewrite app_nil_r. }
    pose proof (Store_proj (fun entry => (stats_RemoteIP entry, Records entry))
                  (fun _ _ => eq_refl) info ds ip Hr) as Hp.
    destruct (decide (ip = RemoteIP info)) as [->|Hne].
    + rewrite decide_True by done.
      destruct (ds_stats (Store info ds) !! RemoteIP info) as [entry'|] eqn:E'; [|done].
      cbn in Hp. injection Hp as Hp1 Hp2.
      split.
      { split; [done|]. intros [H|H]; [done|]. by destruct (packetsOf _ infos). }
      intros entry [= <-]. rewrite Hp1, Hp2, map_app. cbn [map].
      destruct (ds_stats ds !! RemoteIP info) as [old|] eqn:E;
        unfold recordPacket; cbn [stats_RemoteIP Records default from_option id].
      * destruct (IHb old eq_refl) as (-> & ->). done.
      * destruct (proj1 IHa eq_refl) as [H|H]; [done|]. rewrite H. done.
    + rewrite decide_False by done. rewrite app_nil_r.
      destruct (ds_stats (Store info ds) !! ip) as [entry'|] eqn:E';
        destruct (ds_stats ds !! ip) as [old|] eqn:E; try done.
      cbn in Hp. injection Hp as Hp1 Hp2. split; [by rewrite <- IHa|].
      intros entry [= <-]. rewrite Hp1, Hp2. by apply IHb.
Qed.

Lemma packetsOf_nil_iff (ip : string) (infos : list PacketInfo) :
  packetsOf ip infos = [] <-> forall info, info ∈ infos -> RemoteIP info <> ip.
Proof.
  unfold packetsOf. split.
  - intros H info Hin Hr.
    assert (info ∈ filter (fun info => RemoteIP info = ip) infos) as Hf
      by (by apply list_elem_of_filter).
    rewrite H in Hf. by apply not_elem_of_nil in Hf.
  - intros H. induction infos as [|info infos IH]; [done|].
    rewrite filter_cons, decide_False; [|apply H; left].
    apply IH. intros info' Hin. apply H. by right.
Qed.

(** X8. After any sequence of [Store] calls on a new store, an address has
    an entry exactly when it is not empty and is the remote address of one
    of the packets, and the records of the entry are those packets, each
    with its own fields, in the order stored; packets without remote
    address leave no trace, so the sequence without them gives the same
    store. *)
Theorem Store_records (infos : list PacketInfo) (ip : string) :
  let ds := StoreAll infos NewDataStore in
  (GetStatsForIP ip ds = None <-> ip = EmptyString \/ packetsOf ip infos = []) /\
  (forall entry, GetStatsForIP ip ds = Some entry ->
     stats_RemoteIP entry = ip /\
     Records entry = map connectionRecord (packetsOf ip infos)) /\
  StoreAll (recorded infos) NewDataStore = ds.
Proof.
  intros ds. destruct (Records_StoreAll infos ip) as (Ha & Hb).
  split; [done|]. split; [done|].
  clear Ha Hb. unfold ds. clear ds. generalize NewDataStore. unfold recorded, StoreAll.
  induction infos as [|info infos IH]; intros ds0; [done|].
  rewrite filter_cons. cbn [fold_left].
  destruct (decide (RemoteIP info <> EmptyString)) as [Hr|Hr].
  - cbn [fold_left]. apply IH.
  - assert (RemoteIP info = EmptyString) as Hr'.
    { by destruct (String.eqb_spec (RemoteIP info) EmptyString). }
    rewrite (Store_no_remote _ _ Hr'). apply IH.
Qed.

Lemma Store_records_witness :
  let infos := [dataInfo "93.184.216.34"; dnsResponseInfo "8.8.8.8" "bad.example" ["1.2.3.4"];
                dataInfo "93.184.216.34"] in
  Records <$> GetStatsForIP "93.184.216.34" (StoreAll infos NewDataStore) =
    Some [connectionRecord (dataInfo "93.184.216.34");
          connectionRecord (dataInfo "93.184.216.34")].
Proof.
  intros infos.
  destruct (Store_records infos "93.184.216.34") as (Ha & Hb & _).
  destruct (GetStatsForIP "93.184.216.34" (StoreAll infos NewDataStore)) as [entry|] eqn:E.
  - destruct (Hb entry eq_refl) as (_ & H). cbn [fmap option_fmap option_map].
    rewrite H. reflexivity.
  - destruct (proj1 Ha eq_refl) as [H|H]; discriminate H.
Defined.

(** ** The store: how many addresses, how many packets *)

Lemma sumOver_fold (field : RemoteIPStats -> Z) (stats : gmap string RemoteIPStats) :
  map_fold (fun _ entry total => int64 (total + field entry)) 0 stats =
    int64 (sumOver field stats).
Proof.
  unfold sumOver.
  induction stats as [|ip entry stats Hip IH] using map_ind.
  - by rewrite !map_fold_empty.
  - rewrite !map_fold_insert_L; [| intros; lia | done | | done].
    + by rewrite IH, int64_add_l.
    + intros. rewrite !int64_add_l. f_equal. lia.
Qed.

Lemma sumOver_insert_None (field : RemoteIPStats -> Z) (stats : gmap string RemoteIPStats)
    (ip : string) (entry : RemoteIPStats) :
  stats !! ip = None ->
  sumOver field (<[ip := entry]> stats) = sumOver field stats + field entry.
Proof.
  intros H. unfold sumOver. rewrite map_fold_insert_L; [done | intros; lia | done].
Qed.

Lemma sumOver_insert_Some (field : RemoteIPStats -> Z) (stats : gmap string RemoteIPStats)
    (ip : string) (old entry : RemoteIPStats) :
  stats !! ip = Some old ->
  sumOver field (<[ip := entry]> stats) = sumOver field stats - field old + field entry.
Proof.
  intros H.
  rewrite <- (insert_delete_id stats ip old H) at 2.
  rewrite <- (insert_delete_eq stats).
  rewrite !sumOver_insert_None by apply lookup_delete_eq. lia.
Qed.

Lemma sumOver_TotalPackets_correlateAll (name : string) (ips : list string)
    (ds : DataStore) :
  sumOver TotalPackets (ds_stats (fold_left (correlateDNS name) ips ds)) =
    sumOver TotalPackets (ds_stats ds).
Proof.
  revert ds. induction ips as [|ip ips IH]; intros ds; [done|].
  cbn [fold_left]. rewrite IH. unfold correlateDNS. cbn [ds_stats].
  destruct (ds_stats ds !! ip) as [ipStats|] eqn:E; [|done].
  rewrite (sumOver_insert_Some _ _ _ _ _ E). cbn. lia.
Qed.

Lemma sumOver_TotalPackets_Store (info : PacketInfo) (ds : DataStore) :
  RemoteIP info <> EmptyString ->
  int64 (sumOver TotalPackets (ds_stats (Store info ds))) =
    int64 (sumOver TotalPackets (ds_stats ds) + 1).
Proof.
  intros Hr. unfold Store. apply String.eqb_neq in Hr. rewrite Hr.
  set (ds1 := mkDataStore _ _).
  assert (int64 (sumOver TotalPackets (ds_stats ds1)) =
          int64 (sumOver TotalPackets (ds_stats ds) + 1)) as H1.
  { unfold ds1. cbn [ds_stats]. destruct (ds_stats ds !! RemoteIP info) as [old|] eqn:E.
    - rewrite (sumOver_insert_Some _ _ _ _ _ E). cbn.
      rewrite int64_add_r. f_equal. lia.
    - rewrite (sumOver_insert_None _ _ _ _ E). cbn.
      by rewrite int64_add_r. }
  destruct (_ && _); [by rewrite sumOver_TotalPackets_correlateAll | done].
Qed.

Lemma recorded_snoc (infos : list PacketInfo) (info : PacketInfo) :
  recorded (infos ++ [info]) =
    recorded infos ++ (if decide (RemoteIP info = EmptyString) then [] else [info]).
Proof.
  unfold recorded. rewrite filter_app, filter_cons, filter_nil.
  destruct (decide (RemoteIP info = EmptyString)) as [E|E].
  - by rewrite decide_False by (by intros ?).
  - by rewrite decide_True.
Qed.

Lemma sumOver_TotalPackets_StoreAll (infos : list PacketInfo) :
  int64 (sumOver TotalPackets (ds_stats (StoreAll infos NewDataStore))) =
    int64 (len (recorded infos)).
Proof.
  induction infos as [|info infos IH] using rev_ind.
  - unfold NewDataStore, sumOver. cbn. by rewrite map_fold_empty.
  - rewrite StoreAll_snoc, recorded_snoc.
    destruct (decide (RemoteIP info = EmptyString)) as [Hr|Hr].
    + by rewrite (Store_no_remote _ _ Hr), app_nil_r.
    + rewrite (sumOver_TotalPackets_Store _ _ Hr), <- int64_add_l, IH, int64_add_l.
      by rewrite len_app.
Qed.

Lemma elem_of_remoteIPs (infos : list PacketInfo) (ip : string) :
  ip ∈ remoteIPs infos <-> ip <> EmptyString /\ packetsOf ip infos <> [].
Proof.
  unfold remoteIPs, recorded. rewrite elem_of_list_to_set, list_elem_of_In, in_map_iff.
  split.
  - intros (info & <- & Hin). apply list_elem_of_In, list_elem_of_filter in Hin as [Hr Hin].
    split; [done|]. intros H. by apply (proj1 (packetsOf_nil_iff _ _) H info).
  - intros [Hip Hex].
    destruct (packetsOf ip infos) as [|info rest] eqn:E; [done|].
    assert (info ∈ packetsOf ip infos) as Hin by (rewrite E; left).
    unfold packetsOf in Hin. apply list_elem_of_filter in Hin as [Hr Hin].
    exists info. split; [done|].
    apply list_elem_of_In, list_elem_of_filter. split; [congruence | done].
Qed.

(** X9. After any sequence of [Store] calls on a new store, [GetIPCount]
    is the number of different remote addresses among the packets recorded
    (those with a remote address), and [GetTotalPackets] is the number of
    packets recorded: every recorded packet is counted once, under one
    address. *)
Theorem store_counts (infos : list PacketInfo) :
  let ds := StoreAll infos NewDataStore in
  GetIPCount ds = Z.of_nat (size (remoteIPs infos)) /\
  GetTotalPackets ds = int64 (len (recorded infos)) /\
  (len (recorded infos) < 2 ^ 63 -> GetTotalPackets ds = len (recorded infos)).
Proof.
  intros ds.
  assert (GetTotalPackets ds = int64 (len (recorded infos))) as Htotal.
  { unfold GetTotalPackets. rewrite sumOver_fold. apply sumOver_TotalPackets_StoreAll. }
  split; [|split; [done|]].
  - unfold GetIPCount. f_equal. rewrite <- size_dom. f_equal.
    apply set_eq. intros ip. rewrite elem_of_dom, elem_of_remoteIPs.
    destruct (Records_StoreAll infos ip) as (Ha & _). fold ds in Ha.
    rewrite <- not_eq_None_Some, Ha.
    destruct (decide (ip = EmptyString)), (decide (packetsOf ip infos = [])); tauto.
  - intros Hfit. rewrite Htotal. apply int64_small.
    pose proof (len_nonneg (recorded infos)). lia.
Qed.

Lemma store_counts_witness :
  let infos := [dataInfo "93.184.216.34"; dnsResponseInfo "8.8.8.8" "bad.example" ["1.2.3.4"];
                dataInfo "93.184.216.34"; set_RemoteIP EmptyString (dataInfo EmptyString)] in
  GetTotalPackets (StoreAll infos NewDataStore) = 3.
Proof.
  intros infos. destruct (store_counts infos) as (_ & _ & H).
  assert (len (recorded infos) = 3) as Hlen by (vm_compute; reflexivity).
  rewrite Hlen in H. apply H. lia.
Defined.

(** ** The store: first and last seen *)

Lemma timesInv_first (info : PacketInfo) (dnsCache : gmap string (list string)) :
  timesInv (recordPacket info (newRemoteIPStats info dnsCache)).
Proof. by split. Qed.

Lemma timesInv_recordPacket (info : PacketInfo) (entry : RemoteIPStats) :
  timesInv entry -> timesInv (recordPacket info entry).
Proof.
  intros [H1 H2]. unfold timesInv, recordPacket. cbn [Records FirstSeen LastSeen].
  split; [|by rewrite last_snoc].
  destruct (Records entry) as [|record records]; [discriminate H1 | exact H1].
Qed.

Lemma timesInv_addDNSName (name : string) (entry : RemoteIPStats) :
  timesInv entry -> timesInv (addDNSName name entry).
Proof. done. Qed.

Lemma head_map_connectionRecord (infos : list PacketInfo) :
  rec_Timestamp <$> head (map connectionRecord infos) = Timestamp <$> head infos.
Proof. by destruct infos. Qed.

Lemma last_map_connectionRecord (infos : list PacketInfo) :
  rec_Timestamp <$> last (map connectionRecord infos) = Timestamp <$> last infos.
Proof.
  induction infos as [|info infos IH] using rev_ind; [done|].
  rewrite map_app. cbn [map]. by rewrite !last_snoc.
Qed.

(** X10. After any sequence of [Store] calls on a new store, the
    [FirstSeen] of an entry is the timestamp of the first packet stored
    for its address and [LastSeen] that of the last one stored, whatever
    the timestamps of the packets between are. *)
Theorem first_and_last_seen (infos : list PacketInfo) (ip : string) (entry : RemoteIPStats) :
  GetStatsForIP ip (StoreAll infos NewDataStore) = Some entry ->
  Timestamp <$> head (packetsOf ip infos) = Some (FirstSeen entry) /\
  Timestamp <$> last (packetsOf ip infos) = Some (LastSeen entry).
Proof.
  intros Hentry.
  destruct (entries_StoreAll timesInv timesInv_first timesInv_recordPacket
              timesInv_addDNSName infos ip entry Hentry) as [H1 H2].
  destruct (Records_StoreAll infos ip) as (_ & Hb).
  destruct (Hb entry Hentry) as (_ & Hrec). rewrite Hrec in H1, H2.
  by rewrite head_map_connectionRecord in H1; rewrite last_map_connectionRecord in H2.
Qed.

Lemma first_and_last_seen_witness :
  let infos := [set_Timestamp 7 (dataInfo "93.184.216.34");
                set_Timestamp 9 (dataInfo "1.2.3.4");
                set_Timestamp 5 (dataInfo "93.184.216.34")] in
  exists entry,
    GetStatsForIP "93.184.216.34" (StoreAll infos NewDataStore) = Some entry /\
    FirstSeen entry = 7 /\ LastSeen entry = 5.
Proof.
  intros infos.
  destruct (GetStatsForIP "93.184.216.34" (StoreAll infos NewDataStore)) as [entry|] eqn:E;
    [|vm_compute in E; discriminate E].
  exists entry. split; [reflexivity|].
  destruct (first_and_last_seen infos "93.184.216.34" entry E) as [H1 H2].
  split; [by injection H1 | by injection H2].
Defined.

(** ** The store: bytes per direction and TLS packets *)

Lemma sumSizesOf_snoc (direction : string) (records : list ConnectionRecord)
    (record : ConnectionRecord) :
  sumSizesOf direction (records ++ [record]) =
    sumSizesOf direction records +
    (if String.eqb (rec_Direction record) direction then rec_PacketSize record else 0).
Proof.
  unfold sumSizesOf. rewrite filter_app, filter_cons, filter_nil.
  destruct (String.eqb_spec (rec_Direction record) direction) as [E|E].
  - rewrite decide_True by done. apply sumSizes_snoc.
  - rewrite decide_False by done. rewrite app_nil_r. lia.
Qed.

Lemma countTLS_snoc (records : list ConnectionRecord) (record : ConnectionRecord) :
  countTLS (records ++ [record]) =
    countTLS records + (if rec_IsTLS record then 1 else 0).
Proof.
  unfold countTLS. rewrite filter_app, len_app, filter_cons, filter_nil.
  by destruct (rec_IsTLS record).
Qed.

Lemma countersInv_recordPacket (info : PacketInfo) (entry : RemoteIPStats) :
  countersInv entry -> countersInv (recordPacket info entry).
Proof.
  intros (H1 & H2 & H3). unfold countersInv, recordPacket.
  cbn [Records SendBytes RecvBytes TLSCount].
  rewrite !sumSizesOf_snoc, countTLS_snoc.
  cbn [connectionRecord rec_Direction rec_PacketSize rec_IsTLS].
  rewrite H1, H2, H3, !int64_add_l. split; [|split].
  - destruct (String.eqb (Direction info) "send"); [done|]. by rewrite Z.add_0_r.
  - destruct (String.eqb_spec (Direction info) "send") as [->|]; cbn [negb andb].
    + by rewrite Z.add_0_r.
    + destruct (String.eqb (Direction info) "recv"); [done|]. by rewrite Z.add_0_r.
  - destruct (IsTLS info); [done|]. by rewrite Z.add_0_r.
Qed.

Lemma countersInv_first (info : PacketInfo) (dnsCache : gmap string (list string)) :
  countersInv (recordPacket info (newRemoteIPStats info dnsCache)).
Proof. apply countersInv_recordPacket. by repeat split. Qed.

Lemma countersInv_addDNSName (name : string) (entry : RemoteIPStats) :
  countersInv entry -> countersInv (addDNSName name entry).
Proof. done. Qed.

Lemma sumSizes_app (records records' : list ConnectionRecord) :
  sumSizes (records ++ records') = sumSizes records + sumSizes records'.
Proof.
  unfold sumSizes. induction records as [|record records IH]; cbn; [done|].
  rewrite IH. lia.
Qed.

Lemma sumSizes_sendOrRecv (records : list ConnectionRecord) :
  sendOrRecv records ->
  sumSizesOf "send" records + sumSizesOf "recv" records = sumSizes records.
Proof.
  unfold sendOrRecv, sumSizesOf.
  induction 1 as [|record records Hd _ IH]; [done|].
  rewrite !filter_cons.
  change (sumSizes (record :: records)) with (rec_PacketSize record + sumSizes records).
  destruct Hd as [Hd | Hd]; rewrite Hd.
  - rewrite decide_True, decide_False by done.
    change (sumSizes (record :: ?l)) with (rec_PacketSize record + sumSizes l). lia.
  - rewrite decide_False, decide_True by done.
    change (sumSizes (record :: ?l)) with (rec_PacketSize record + sumSizes l). lia.
Qed.

(** X11. After any sequence of [Store] calls on a new store, the
    [SendBytes] and [RecvBytes] of an entry are the sums of the sizes of
    its send and of its recv records and [TLSCount] is the number of its
    records marked as TLS; the sizes of records with direction local are
    in [TotalBytes] only, so [TotalBytes] is [SendBytes + RecvBytes] for an
    entry whose records are all send or recv.  The equalities are those of
    the 64-bit counters. *)
Theorem direction_and_tls_counters (infos : list PacketInfo) (ip : string)
    (entry : RemoteIPStats) :
  GetStatsForIP ip (StoreAll infos NewDataStore) = Some entry ->
  SendBytes entry = int64 (sumSizesOf "send" (Records entry)) /\
  RecvBytes entry = int64 (sumSizesOf "recv" (Records entry)) /\
  TLSCount entry = int64 (countTLS (Records entry)) /\
  (sendOrRecv (Records entry) ->
     TotalBytes entry = int64 (SendBytes entry + RecvBytes entry)).
Proof.
  intros Hentry.
  destruct (entries_StoreAll countersInv countersInv_first countersInv_recordPacket
              countersInv_addDNSName infos ip entry Hentry) as (H1 & H2 & H3).
  destruct (storeInv_StoreAll infos NewDataStore storeInv_new ip entry Hentry)
    as (_ & Hbytes & _).
  split; [done|]. split; [done|]. split; [done|].
  intros Hdir. rewrite Hbytes, H1, H2, int64_add_l, int64_add_r.
  by rewrite sumSizes_sendOrRecv.
Qed.

Lemma direction_and_tls_counters_witness :
  let infos := [dataInfo "93.184.216.34"; dnsResponseInfo "8.8.8.8" "bad.example" ["1.2.3.4"];
                set_IsTLS true (dataInfo "93.184.216.34")] in
  exists entry,
    GetStatsForIP "93.184.216.34" (StoreAll infos NewDataStore) = Some entry /\
    SendBytes entry = 120 /\ RecvBytes entry = 0 /\ TLSCount entry = 1.
Proof.
  intros infos.
  destruct (GetStatsForIP "93.184.216.34" (StoreAll infos NewDataStore)) as [entry|] eqn:E;
    [|vm_compute in E; discriminate E].
  exists entry. split; [reflexivity|].
  destruct (direction_and_tls_counters infos "93.184.216.34" entry E) as (H1 & H2 & H3 & _).
  destruct (Records_StoreAll infos "93.184.216.34") as (_ & Hb).
  destruct (Hb entry E) as (_ & Hrec). rewrite Hrec in H1, H2, H3.
  rewrite H1, H2, H3. vm_compute. done.
Defined.

(** ** The store: frequency tables *)

Lemma countField_snoc (field : ConnectionRecord -> string) (k : string)
    (records : list ConnectionRecord) (record : ConnectionRecord) :
  countField field k (records ++ [record]) =
    countField field k records + (if decide (field record = k) then 1 else 0).
Proof.
  unfold countField. rewrite filter_app, len_app, filter_cons, filter_nil.
  by destruct (decide (field record = k)).
Qed.

Lemma countField_nonneg (field : ConnectionRecord -> string) (k : string)
    (records : list ConnectionRecord) :
  0 <= countField field k records.
Proof. apply len_nonneg. Qed.

(** [m[k]++], guarded by the test that [k] is not empty, keeps a table in
    step with the records. *)
Lemma incrNonEmpty_tableEntry (field : ConnectionRecord -> string)
    (table : gmap string Z) (records : list ConnectionRecord) (record : ConnectionRecord) :
  (forall k, table !! k = tableEntry field records k) ->
  forall k, incrNonEmpty (field record) table !! k =
            tableEntry field (records ++ [record]) k.
Proof.
  intros H k. unfold incrNonEmpty, tableEntry. rewrite countField_snoc.
  pose proof (countField_nonneg field k records) as Hc.
  destruct (String.eqb_spec (field record) EmptyString) as [E|E]; cbn [negb].
  - rewrite H. unfold tableEntry. destruct (decide (k = EmptyString)) as [Hk|Hk]; [done|].
    rewrite decide_False by congruence. by rewrite Z.add_0_r.
  - unfold incr. destruct (decide (field record = k)) as [Hf|Hf].
    + rewrite Hf, lookup_insert_eq, H. unfold tableEntry.
      destruct (decide (k = EmptyString)) as [Hk|Hk]; [congruence|].
      destruct (countField field k records =? 0) eqn:E0; zbool;
        destruct (countField field k records + 1 =? 0) eqn:E1; zbool; try lia;
        cbn [default from_option id].
      * by rewrite E0.
      * by rewrite int64_add_l.
    + rewrite lookup_insert_ne by done. rewrite H. unfold tableEntry.
      by rewrite Z.add_0_r.
Qed.

Lemma tablesInv_recordPacket (info : PacketInfo) (entry : RemoteIPStats) :
  tablesInv entry -> tablesInv (recordPacket info entry).
Proof.
  intros (H1 & H2 & H3 & H4 & H5). unfold tablesInv, recordPacket.
  cbn [Records RemotePorts LocalPorts SNINames Processes Protocols].
  split; [|split; [|split; [|split]]].
  - apply (incrNonEmpty_tableEntry rec_RemotePort _ _ (connectionRecord info) H1).
  - apply (incrNonEmpty_tableEntry rec_LocalPort _ _ (connectionRecord info) H2).
  - apply (incrNonEmpty_tableEntry rec_SNI _ _ (connectionRecord info) H3).
  - apply (incrNonEmpty_tableEntry rec_ProcessName _ _ (connectionRecord info) H4).
  - apply (incrNonEmpty_tableEntry rec_Protocol _ _ (connectionRecord info) H5).
Qed.

Lemma tableEntry_nil (field : ConnectionRecord -> string) (k : string) :
  tableEntry field [] k = None.
Proof. unfold tableEntry. by destruct (decide (k = EmptyString)). Qed.

Lemma tablesInv_first (info : PacketInfo) (dnsCache : gmap string (list string)) :
  tablesInv (recordPacket info (newRemoteIPStats info dnsCache)).
Proof.
  apply tablesInv_recordPacket. unfold tablesInv, newRemoteIPStats.
  cbn [Records RemotePorts LocalPorts SNINames Processes Protocols].
  repeat split; intros k; by rewrite lookup_empty, tableEntry_nil.
Qed.

Lemma tablesInv_addDNSName (name : string) (entry : RemoteIPStats) :
  tablesInv entry -> tablesInv (addDNSName name entry).
Proof. done. Qed.

(** X12. After any sequence of [Store] calls on a new store, the tables
    of remote ports, local ports, SNI names, process names and protocols of
    an entry count its records by that field: a table has a key exactly
    for the non-empty values that occur in the records, and holds under it
    the number of records with that value (as a 64-bit counter); the empty
    string is never a key. *)
Theorem frequency_tables (infos : list PacketInfo) (ip : string) (entry : RemoteIPStats) :
  GetStatsForIP ip (StoreAll infos NewDataStore) = Some entry ->
  forall k : string,
    RemotePorts entry !! k = tableEntry rec_RemotePort (Records entry) k /\
    LocalPorts entry !! k = tableEntry rec_LocalPort (Records entry) k /\
    SNINames entry !! k = tableEntry rec_SNI (Records entry) k /\
    Processes entry !! k = tableEntry rec_ProcessName (Records entry) k /\
    Protocols entry !! k = tableEntry rec_Protocol (Records entry) k.
Proof.
  intros Hentry k.
  destruct (entries_StoreAll tablesInv tablesInv_first tablesInv_recordPacket
              tablesInv_addDNSName infos ip entry Hentry) as (H1 & H2 & H3 & H4 & H5).
  by repeat split.
Qed.

Lemma frequency_tables_witness :
  let infos := [dataInfo "93.184.216.34"; dnsResponseInfo "8.8.8.8" "bad.example" ["1.2.3.4"];
                dataInfo "93.184.216.34"] in
  exists entry,
    GetStatsForIP "93.184.216.34" (StoreAll infos NewDataStore) = Some entry /\
    RemotePorts entry !! "443(https)"%string = Some 2 /\
    SNINames entry !! EmptyString = None.
Proof.
  intros infos.
  destruct (GetStatsForIP "93.184.216.34" (StoreAll infos NewDataStore)) as [entry|] eqn:E;
    [|vm_compute in E; discriminate E].
  exists entry. split; [reflexivity|].
  destruct (Records_StoreAll infos "93.184.216.34") as (_ & Hb).
  destruct (Hb entry E) as (_ & Hrec).
  split.
  - destruct (frequency_tables infos "93.184.216.34" entry E "443(https)"%string)
      as (H & _).
    rewrite H, Hrec. vm_compute. reflexivity.
  - destruct (frequency_tables infos "93.184.216.34" entry E EmptyString)
      as (_ & _ & H & _).
    rewrite H. reflexivity.
Defined.

(** ** The store: names and addresses *)

Lemma cache_correlateAll (name : string) (ips : list string) (ds : DataStore)
    (ip n : string) :
  n ∈ default [] (ds_dnsCache (fold_left (correlateDNS name) ips ds) !! ip) <->
  n ∈ default [] (ds_dnsCache ds !! ip) \/ (n = name /\ ip ∈ ips).
Proof.
  revert ds. induction ips as [|responseIP ips IH]; intros ds.
  - cbn [fold_left]. split; [by left|]. intros [H|[_ H]]; [done|].
    by apply not_elem_of_nil in H.
  - cbn [fold_left]. rewrite IH, correlateDNS_cache, elem_of_cons.
    destruct (decide (ip = responseIP)) as [->|Hne]; [|intuition (subst; eauto; congruence)].
    cbn zeta. cbn [default from_option id].
    destruct (decide (name ∈ default [] (ds_dnsCache ds !! responseIP))) as [Hin|Hnin].
    + intuition (subst; eauto; congruence).
    + rewrite elem_of_app, list_elem_of_singleton. intuition (subst; eauto; congruence).
Qed.

Lemma cache_Store (info : PacketInfo) (ds : DataStore) (ip n : string) :
  n ∈ default [] (ds_dnsCache (Store info ds) !! ip) <->
  n ∈ default [] (ds_dnsCache ds !! ip) \/ resolves info n ip.
Proof.
  unfold Store, resolves.
  destruct (String.eqb_spec (RemoteIP info) EmptyString) as [Hr|Hr]; [intuition (subst; eauto; congruence)|].
  destruct (IsDNS info); cbn [andb]; [|intuition (subst; eauto; congruence)].
  destruct (String.eqb_spec (DNSQueryName info) EmptyString) as [Hq|Hq]; cbn [negb andb].
  { split; [by left|]. intros [H|(_ & _ & <- & H & _)]; done. }
  destruct (len (DNSResponseIPs info) >? 0) eqn:E; zbool.
  - rewrite cache_correlateAll. cbn [ds_dnsCache]. intuition (subst; eauto; congruence).
  - cbn [ds_dnsCache]. split; [by left|]. intros [H|(_ & _ & _ & _ & H)]; [done|].
    destruct (DNSResponseIPs info); [by apply not_elem_of_nil in H|].
    rewrite len_cons in E. pose proof (len_nonneg l). lia.
Qed.

Lemma cache_StoreAll (infos : list PacketInfo) (ip n : string) :
  n ∈ default [] (ds_dnsCache (StoreAll infos NewDataStore) !! ip) <->
  Exists (fun info => resolves info n ip) infos.
Proof.
  induction infos as [|info infos IH] using rev_ind.
  - unfold NewDataStore. cbn. rewrite lookup_empty, Exists_nil. cbn.
    split; [by intros H%not_elem_of_nil | done].
  - rewrite StoreAll_snoc, cache_Store, IH, Exists_app, Exists_cons, Exists_nil. tauto.
Qed.

(** X13. After any sequence of [Store] calls on a new store, the DNS
    cache holds a name for an address exactly when one of the packets
    stored was a DNS response with that query name, not empty, and that
    address among its resolved addresses, and came with a remote address
    of its own: a response without remote address is dropped before its
    answers are looked at. *)
Theorem dns_cache_contents (infos : list PacketInfo) (ip name : string) :
  (name ∈ default [] (ds_dnsCache (StoreAll infos NewDataStore) !! ip) <->
   Exists (fun info => resolves info name ip) infos) /\
  (forall names, ds_dnsCache (StoreAll infos NewDataStore) !! ip = Some names ->
     NoDup names /\ names <> []).
Proof.
  split; [apply cache_StoreAll|].
  intros names Hnames. split.
  { by apply (cacheInv_StoreAll infos NewDataStore cacheInv_new ip). }
  revert names Hnames.
  induction infos as [|info infos IH] using rev_ind; intros names.
  { unfold NewDataStore. cbn. by rewrite lookup_empty. }
  rewrite StoreAll_snoc. set (ds := StoreAll infos NewDataStore) in *. clearbody ds.
  unfold Store. destruct (String.eqb (RemoteIP info) EmptyString); [apply IH|].
  destruct (_ && _); [|apply IH]. set (ds1 := mkDataStore _ _).
  assert (forall names, ds_dnsCache ds1 !! ip = Some names -> names <> []) as H1 by apply IH.
  clearbody ds1. revert ds1 H1 names.
  induction (DNSResponseIPs info) as [|responseIP ips IHips]; intros ds1 H1 names; [apply H1|].
  cbn [fold_left]. apply IHips. intros names'. rewrite correlateDNS_cache.
  destruct (decide (ip = responseIP)); [|apply H1].
  cbn zeta. intros [= <-].
  destruct (decide _) as [Hin|Hnin].
  - intros E. rewrite E in Hin. by apply not_elem_of_nil in Hin.
  - by destruct (default [] _).
Qed.

Lemma dns_cache_contents_witness :
  let infos := [dnsResponseInfo "8.8.8.8" "bad.example" ["1.2.3.4"; "5.6.7.8"];
                dataInfo "1.2.3.4"] in
  "bad.example"%string ∈ default [] (ds_dnsCache (StoreAll infos NewDataStore) !! "5.6.7.8"%string).
Proof.
  intros infos. apply (proj1 (dns_cache_contents infos "5.6.7.8" "bad.example")).
  left. unfold resolves. cbn.
  split; [discriminate|]. split; [reflexivity|]. split; [reflexivity|].
  split; [discriminate|]. right. left.
Defined.

(** ** The store: the DNS-name table *)

Lemma incr_is_Some (name n : string) (names : gmap string Z) :
  is_Some (incr name names !! n) <-> n = name \/ is_Some (names !! n).
Proof.
  unfold incr. destruct (decide (n = name)) as [->|Hne].
  - rewrite lookup_insert_eq. split; [by left | by eexists].
  - rewrite lookup_insert_ne by done. intuition (subst; eauto; congruence).
Qed.

Lemma fold_incr_is_Some (cached : list string) (names : gmap string Z) (n : string) :
  is_Some (fold_left (fun names domain => incr domain names) cached names !! n) <->
  n ∈ cached \/ is_Some (names !! n).
Proof.
  revert names. induction cached as [|domain cached IH]; intros names; cbn [fold_left].
  - split; [by right|]. intros [H|H]; [by apply not_elem_of_nil in H | done].
  - rewrite IH, incr_is_Some, elem_of_cons. tauto.
Qed.

Lemma namesInv_correlateDNS (name : string) (ds : DataStore) (responseIP : string) :
  namesInv ds -> namesInv (correlateDNS name ds responseIP).
Proof.
  intros Hinv ip entry. rewrite correlateDNS_stats, correlateDNS_cache.
  destruct (decide (ip = responseIP)) as [->|Hne]; [|apply Hinv].
  destruct (ds_stats ds !! responseIP) as [old|] eqn:E; cbn; [|done].
  intros [= <-] n. rewrite DNSNames_addDNSName, incr_is_Some, (Hinv _ _ E n).
  destruct (decide _) as [Hin|Hnin].
  - intuition (subst; eauto; congruence).
  - rewrite elem_of_app, list_elem_of_singleton. tauto.
Qed.

Lemma namesInv_Store (info : PacketInfo) (ds : DataStore) :
  namesInv ds -> namesInv (Store info ds).
Proof.
  intros Hinv. unfold Store. destruct (String.eqb (RemoteIP info) EmptyString); [done|].
  set (ds1 := mkDataStore _ _).
  assert (namesInv ds1) as Hinv1.
  { intros ip entry. unfold ds1. cbn [ds_stats ds_dnsCache]. rewrite lookup_insert_Some.
    intros [[<- <-] | [_ H]]; [|by apply (Hinv ip)].
    intros n. rewrite DNSNames_recordPacket.
    destruct (ds_stats ds !! RemoteIP info) as [old|] eqn:E; cbn [default from_option id].
    - by apply (Hinv (RemoteIP info)).
    - rewrite DNSNames_new, fold_incr_is_Some, lookup_empty.
      split; [intros [H|[x H]]; done | by left]. }
  destruct (_ && _); [|done]. clearbody ds1. revert ds1 Hinv1.
  induction (DNSResponseIPs info) as [|responseIP ips IH]; intros ds1 Hinv1; [done|].
  cbn [fold_left]. by apply IH, namesInv_correlateDNS.
Qed.

Lemma namesInv_StoreAll (infos : list PacketInfo) : namesInv (StoreAll infos NewDataStore).
Proof.
  induction infos as [|info infos IH] using rev_ind.
  - intros ip entry. unfold NewDataStore. cbn. by rewrite lookup_empty.
  - rewrite StoreAll_snoc. by apply namesInv_Store.
Qed.

(** X14. After any sequence of [Store] calls on a new store, in whatever
    order responses and other packets came, the DNS-name table of an
    address that has an entry has as its keys exactly the names cached for
    the address: the names that the DNS responses stored so far gave an
    address of which is this one. *)
Theorem dns_names_table (infos : list PacketInfo) (ip : string) (entry : RemoteIPStats)
    (name : string) :
  GetStatsForIP ip (StoreAll infos NewDataStore) = Some entry ->
  (is_Some (DNSNames entry !! name) <->
     name ∈ default [] (ds_dnsCache (StoreAll infos NewDataStore) !! ip)) /\
  (is_Some (DNSNames entry !! name) <->
     Exists (fun info => resolves info name ip) infos).
Proof.
  intros Hentry. pose proof (namesInv_StoreAll infos ip entry Hentry name) as H.
  split; [done|]. by rewrite H, cache_StoreAll.
Qed.

Lemma dns_names_table_witness :
  let infos := [dataInfo "1.2.3.4";
                dnsResponseInfo "8.8.8.8" "bad.example" ["1.2.3.4"];
                dnsResponseInfo "8.8.8.8" "worse.example" ["5.6.7.8"; "1.2.3.4"]] in
  exists entry,
    GetStatsForIP "1.2.3.4" (StoreAll infos NewDataStore) = Some entry /\
    is_Some (DNSNames entry !! "worse.example"%string).
Proof.
  intros infos.
  destruct (GetStatsForIP "1.2.3.4" (StoreAll infos NewDataStore)) as [entry|] eqn:E;
    [|vm_compute in E; discriminate E].
  exists entry. split; [reflexivity|].
  apply (proj2 (dns_names_table infos "1.2.3.4" entry "worse.example" E)).
  right. right. left. unfold resolves. cbn.
  split; [discriminate|]. split; [reflexivity|]. split; [reflexivity|].
  split; [discriminate|]. right. left.
Defined.

(** ** The parser: where a server name comes from *)

Lemma be16_range (hi lo : Z) :
  0 <= hi <= 255 -> 0 <= lo <= 255 -> 0 <= be16 hi lo <= 65535.
Proof. intros Hhi Hlo. rewrite be16_arith by lia. lia. Qed.

Lemma len_bytesFrom (payload : list byte) (pos n : Z) :
  0 <= pos -> 0 <= n -> pos + n <= len payload -> len (bytesFrom payload pos n) = n.
Proof.
  intros Hpos Hn Hle. unfold bytesFrom, len in *. rewrite length_take, length_drop. lia.
Qed.

Lemma bytesFrom_bytesFrom (payload : list byte) (a m p n : Z) :
  0 <= a -> 0 <= p -> 0 <= n -> p + n <= m ->
  bytesFrom (bytesFrom payload a m) p n = bytesFrom payload (a + p) n.
Proof.
  intros Ha Hp Hn Hle. unfold bytesFrom.
  replace (Z.to_nat m) with (Z.to_nat p + Z.to_nat (m - p))%nat by lia.
  rewrite <- take_drop_commute, take_take, drop_drop.
  replace (Z.to_nat n `min` Z.to_nat (m - p))%nat with (Z.to_nat n) by lia.
  by replace (Z.to_nat a + Z.to_nat p)%nat with (Z.to_nat (a + p)) by lia.
Qed.

Lemma parseSNIExtension_loop_bytes (fuel : nat) (data : list byte) (sni : string) :
  forall pos, 0 <= pos ->
    parseSNIExtension_loop fuel data pos = Ok sni -> sni <> EmptyString ->
    exists p n, 0 <= p /\ 0 <= n <= 65535 /\ p + n <= len data /\
                sni = string_of_list_byte (bytesFrom data p n).
Proof.
  induction fuel as [|fuel IH]; intros pos Hpos Hloop Hsni; [discriminate|].
  cbn [parseSNIExtension_loop] in Hloop.
  destruct (pos + 3 <=? len data) eqn:Hc; [|by injection Hloop as <-]. zbool.
  rewrite !index_ok in Hloop by lia. cbn [bind] in Hloop.
  set (nameLen := be16 _ _) in Hloop.
  assert (0 <= nameLen <= 65535) by (apply be16_range; apply byteAt_range).
  destruct (pos + 1 + 2 + nameLen >? len data) eqn:Hn; [by injection Hloop as <-|]. zbool.
  destruct (byteAt data pos =? 0).
  - rewrite slice_ok in Hloop by lia. cbn [bind] in Hloop. injection Hloop as <-.
    exists (pos + 1 + 2), nameLen. repeat (split; [lia|]).
    unfold bytesFrom. do 3 f_equal. lia.
  - apply (IH (pos + 1 + 2 + nameLen)); [lia | done | done].
Qed.

Lemma parseSNIExtension_bytes (data : list byte) (sni : string) :
  parseSNIExtension data = Ok sni -> sni <> EmptyString ->
  exists p n, 0 <= p /\ 0 <= n <= 65535 /\ p + n <= len data /\
              sni = string_of_list_byte (bytesFrom data p n).
Proof.
  unfold parseSNIExtension. intros Hparse Hsni.
  destruct (len data <? 2) eqn:H2; [by injection Hparse as <-|]. zbool.
  rewrite !index_ok in Hparse by lia. cbn [bind] in Hparse.
  destruct (len data <? _); [by injection Hparse as <-|].
  apply (parseSNIExtension_loop_bytes (S (length data)) data sni 2); [lia | done | done].
Qed.

Lemma extractSNI_loop_bytes (fuel : nat) (payload : list byte) (extensionsEnd : Z)
    (sni : string) :
  forall pos, 0 <= pos ->
    extractSNI_loop fuel payload extensionsEnd pos = Ok sni -> sni <> EmptyString ->
    exists p n, 0 <= p /\ 0 <= n <= 65535 /\ p + n <= len payload /\
                sni = string_of_list_byte (bytesFrom payload p n).
Proof.
  induction fuel as [|fuel IH]; intros pos Hpos Hloop Hsni; [discriminate|].
  cbn [extractSNI_loop] in Hloop.
  destruct (pos + 4 <=? extensionsEnd) eqn:Hc; [|by injection Hloop as <-]. zbool.
  destruct (index payload pos) as [t1| |] eqn:E1; cbn [bind] in Hloop; try discriminate.
  destruct (index payload (pos + 1)) as [t0| |] eqn:E0; cbn [bind] in Hloop;
    try discriminate.
  destruct (index payload (pos + 2)) as [l1| |] eqn:F1; cbn [bind] in Hloop;
    try discriminate.
  destruct (index payload (pos + 2 + 1)) as [l0| |] eqn:F0; cbn [bind] in Hloop;
    try discriminate.
  assert (0 <= l1 <= 255 /\ 0 <= l0 <= 255) as [Hl1 Hl0].
  { unfold index in F1, F0. split.
    - clear F0. destruct (_ && _); [|discriminate]. injection F1 as <-. apply byteAt_range.
    - clear F1. destruct (_ && _); [|discriminate]. injection F0 as <-. apply byteAt_range. }
  set (extLen := be16 l1 l0) in Hloop.
  assert (0 <= extLen <= 65535) by (by apply be16_range).
  destruct (pos + 2 + 2 + extLen >? len payload) eqn:Hn; [by injection Hloop as <-|]. zbool.
  destruct (be16 t1 t0 =? 0).
  - rewrite slice_ok in Hloop by lia. cbn [bind] in Hloop.
    replace (pos + 2 + 2 + extLen - (pos + 2 + 2)) with extLen in Hloop by lia.
    fold (bytesFrom payload (pos + 2 + 2) extLen) in Hloop.
    destruct (parseSNIExtension_bytes _ _ Hloop Hsni) as (p & n & Hp & Hn' & Hle & ->).
    rewrite len_bytesFrom in Hle by lia.
    exists (pos + 2 + 2 + p), n. repeat (split; [lia|]).
    by rewrite bytesFrom_bytesFrom by lia.
  - apply (IH (pos + 2 + 2 + extLen)); [lia | done | done].
Qed.

(** X15. A server name that [extractSNI] returns is made of bytes of the
    payload: some run of at most 65535 bytes inside it, never anything
    else; and it returns one only for a payload that starts with 0x16,
    holds the whole record its header declares, and has the handshake type
    1 of a ClientHello at offset 5. *)
Theorem extractSNI_bytes_of_payload (payload : list byte) (sni : string) :
  extractSNI payload = Ok sni -> sni <> EmptyString ->
  byteAt payload 0 = 22 /\ byteAt payload 5 = 1 /\
  5 + declaredLen payload <= len payload /\
  exists pos n, 0 <= pos /\ 0 < n <= 65535 /\ pos + n <= len payload /\
                sni = string_of_list_byte (bytesFrom payload pos n).
Proof.
  unfold extractSNI. intros Hsni Hne.
  destruct (len payload <? 6) eqn:H6; [by injection Hsni as <-|]. zbool.
  rewrite !index_ok in Hsni by lia. cbn [bind] in Hsni.
  destruct (negb _) eqn:H0; [by injection Hsni as <-|]. zbool.
  fold (declaredLen payload) in Hsni.
  destruct (len payload <? _) eqn:Hrec; [by injection Hsni as <-|]. zbool.
  destruct (5 >=? len payload); [by injection Hsni as <-|].
  destruct (negb _) eqn:H1; [by injection Hsni as <-|]. zbool.
  split; [done|]. split; [done|]. split; [done|].
  destruct (5 + 1 + 3 >? len payload); [by injection Hsni as <-|].
  destruct (5 + 1 + 3 + 2 >? len payload); [by injection Hsni as <-|].
  destruct (5 + 1 + 3 + 2 + 32 >? len payload); [by injection Hsni as <-|].
  destruct (5 + 1 + 3 + 2 + 32 >=? len payload) eqn:H43; [by injection Hsni as <-|]. zbool.
  rewrite index_ok in Hsni by lia. cbn [bind] in Hsni.
  set (sessionIDLen := byteAt payload _) in Hsni.
  assert (0 <= sessionIDLen) by apply byteAt_range.
  set (p1 := 5 + 1 + 3 + 2 + 32 + 1 + sessionIDLen) in Hsni.
  destruct (p1 >? len payload); [by injection Hsni as <-|].
  destruct (p1 + 2 >? len payload) eqn:Hp1; [by injection Hsni as <-|]. zbool.
  rewrite !index_ok in Hsni by lia. cbn [bind] in Hsni.
  set (cipherSuitesLen := be16 _ _) in Hsni.
  assert (0 <= cipherSuitesLen) by (apply be16_nonneg; apply byteAt_range).
  set (p2 := p1 + 2 + cipherSuitesLen) in Hsni.
  destruct (p2 >? len payload); [by injection Hsni as <-|].
  destruct (p2 >=? len payload) eqn:Hp2; [by injection Hsni as <-|]. zbool.
  rewrite index_ok in Hsni by lia. cbn [bind] in Hsni.
  set (compressionMethodsLen := byteAt payload _) in Hsni.
  assert (0 <= compressionMethodsLen) by apply byteAt_range.
  set (p3 := p2 + 1 + compressionMethodsLen) in Hsni.
  destruct (p3 >? len payload); [by injection Hsni as <-|].
  destruct (p3 + 2 >? len payload) eqn:Hp3; [by injection Hsni as <-|]. zbool.
  rewrite !index_ok in Hsni by lia. cbn [bind] in Hsni.
  set (extensionsLen := be16 _ _) in Hsni.
  destruct (p3 + 2 + extensionsLen >? len payload) eqn:He; [by injection Hsni as <-|].
  assert (0 <= p3 + 2) as Hp by lia.
  destruct (extractSNI_loop_bytes _ _ _ _ (p3 + 2) Hp Hsni Hne)
    as (pos & n & Hpos & Hn & Hle & Heq).
  exists pos, n. split; [done|]. split; [|done].
  split; [|lia]. destruct (Z.eq_dec n 0) as [->|]; [|lia].
  by rewrite Heq in Hne.
Qed.

Lemma extractSNI_bytes_of_payload_witness :
  exists pos n,
    "example.com"%string = string_of_list_byte (bytesFrom exampleClientHello pos n).
Proof.
  destruct (extractSNI_bytes_of_payload exampleClientHello "example.com")
    as (_ & _ & _ & pos & n & _ & _ & _ & H).
  - apply extractSNI_example.
  - discriminate.
  - by exists pos, n.
Defined.

(** ** The parser: what [Parse] hands on *)

(** The fields no application-layer step of the parser assigns. *)
Lemma parseTLS_base (info : PacketInfo) :
  exists info' : PacketInfo,
    parseTLS info = Ok info' /\
    info' = set_SNI (SNI info') (set_TLSVersion (TLSVersion info')
              (set_IsTLS (IsTLS info') info)) /\
    IsTLS info' = (IsTLS info || isTLSHandshake (Payload info)).
Proof.
  unfold parseTLS. destruct (isTLSHandshake (Payload info)); cbn [negb].
  - destruct (extractSNI_returns (Payload info)) as [sni ->]. cbn [bind].
    destruct (len (Payload info) >=? 3), (negb (String.eqb sni EmptyString));
      eexists; (split; [reflexivity|]); destruct info; cbn; by rewrite ?orb_true_r.
  - exists info. split; [done|]. destruct info; cbn. by rewrite orb_false_r.
Qed.

Lemma peekTLSRecord_ready_len (buffer data : list byte) :
  peekTLSRecord buffer = (true, data) -> 5 <= len data.
Proof.
  unfold peekTLSRecord.
  destruct (len buffer <? 5) eqn:E; [discriminate|]. zbool.
  destruct (negb _); [by intros [= <-]|]. cbv zeta.
  pose proof (be16_nonneg (byteAt buffer 3) (byteAt buffer 4)
                (proj1 (byteAt_range _ _)) (proj1 (byteAt_range _ _))).
  destruct (_ >=? _) eqn:E'; [|discriminate]. zbool. intros [= <-].
  rewrite len_take; lia.
Qed.

(** What [ProcessPacket] hands out for a TCP packet has at least 5 bytes. *)
Lemma ProcessPacket_tcp_ready (now : Z) (packet : Packet) (tcp : TCP) (sr : Streams) :
  pkt_TCP packet = Some tcp ->
  readyOf (ProcessPacket now packet sr) = true ->
  5 <= len (payloadOf (ProcessPacket now packet sr)).
Proof.
  intros Htcp. unfold ProcessPacket, readyOf, payloadOf. rewrite Htcp.
  destruct (len (tcp_Payload tcp) =? 0); [discriminate|].
  destruct (peekTLSRecord _) as [[] data] eqn:E; cbn; [|discriminate].
  intros _. by apply peekTLSRecord_ready_len in E.
Qed.

Lemma determineDirection_ends (info : PacketInfo) :
  let info' := determineDirection info in
  knownDirection (Direction info') /\ endsAgree info' /\
  info' = set_RemotePort (RemotePort info') (set_LocalPort (LocalPort info')
            (set_RemoteIP (RemoteIP info') (set_Direction (Direction info') info))).
Proof.
  unfold determineDirection, knownDirection, endsAgree.
  destruct (isLocalIP (SrcIP info)), (isLocalIP (DstIP info)); destruct info; cbn;
    (split; [tauto|]); (split; [|done]);
    ((left; done) || (right; done)).
Qed.

Lemma parseApplicationLayerWithPayload_base (info : PacketInfo) :
  exists info' : PacketInfo,
    parseApplicationLayerWithPayload info = Ok info' /\
    info' = set_SNI (SNI info') (set_TLSVersion (TLSVersion info')
              (set_IsTLS (IsTLS info') info)) /\
    (0 < len (Payload info) ->
     IsTLS info' = (IsTLS info || isTLSHandshake (Payload info))).
Proof.
  unfold parseApplicationLayerWithPayload.
  destruct (len (Payload info) >? 0) eqn:E; zbool.
  - destruct (parseTLS_base info) as (info' & H1 & H2 & H3). by exists info'.
  - exists info. split; [done|]. split; [by destruct info | lia].
Qed.

Lemma parseApplicationLayer_base (packet : Packet) (info : PacketInfo) :
  exists info' : PacketInfo,
    parseApplicationLayer packet info = Ok info' /\
    Timestamp info' = Timestamp info /\ Length info' = Length info /\
    RawData info' = RawData info /\ SrcIP info' = SrcIP info /\
    DstIP info' = DstIP info /\ SrcPort info' = SrcPort info /\
    DstPort info' = DstPort info.
Proof.
  unfold parseApplicationLayer.
  set (info1 := match pkt_ApplicationLayer packet with
                | Some appLayer => set_AppProtocol (app_LayerType appLayer) info
                | None => info
                end).
  assert (Timestamp info1 = Timestamp info /\ Length info1 = Length info /\
          RawData info1 = RawData info /\ SrcIP info1 = SrcIP info /\
          DstIP info1 = DstIP info /\ SrcPort info1 = SrcPort info /\
          DstPort info1 = DstPort info) as (P1 & P2 & P3 & P4 & P5 & P6 & P7).
  { unfold info1. by destruct (pkt_ApplicationLayer packet). }
  rewrite <- P1, <- P2, <- P3, <- P4, <- P5, <- P6, <- P7. clearbody info1.
  destruct (len (Payload info1) >? 0); [|by exists info1].
  destruct (parseTLS_base info1) as (info2 & -> & H2 & _). cbn [bind].
  assert (Timestamp info2 = Timestamp info1 /\ Length info2 = Length info1 /\
          RawData info2 = RawData info1 /\ SrcIP info2 = SrcIP info1 /\
          DstIP info2 = DstIP info1 /\ SrcPort info2 = SrcPort info1 /\
          DstPort info2 = DstPort info1) as (Q1 & Q2 & Q3 & Q4 & Q5 & Q6 & Q7).
  { rewrite H2. by destruct info1. }
  rewrite <- Q1, <- Q2, <- Q3, <- Q4, <- Q5, <- Q6, <- Q7.
  destruct (_ && _); [|by exists info2].
  eexists. split; [reflexivity|]. unfold parseDNS.
  destruct (pkt_DNS packet) as [dns|]; [|done].
  destruct (dns_QR dns); cbn [negb]; [|by destruct info2].
  destruct (dns_Questions dns); by destruct info2.
Qed.

(** X16. [Parse] comes back for every packet and every state of the
    reassembler: no index or slice of the byte-walking code is out of
    range.  It returns nothing exactly when the reassembler is still
    waiting for bytes of the flow; what it returns otherwise carries the
    packet's timestamp, wire length, raw bytes and addresses, one of the
    directions send, recv and local, and a remote address, remote port and
    local port taken from the two ends of the packet consistently. *)
Theorem Parse_total (now : Z) (packet : Packet) (sr : Streams) :
  exists r : option PacketInfo,
    Parse now packet sr = (streamsOf (ProcessPacket now packet sr), Ok r) /\
    (r = None <-> readyOf (ProcessPacket now packet sr) = false) /\
    forall info, r = Some info ->
      Timestamp info = pkt_Timestamp packet /\
      Length info = pkt_Length packet /\
      RawData info = pkt_Data packet /\
      (SrcIP info, DstIP info) =
        default (EmptyString, EmptyString) (pkt_NetworkLayer packet) /\
      knownDirection (Direction info) /\
      endsAgree info.
Proof.
  unfold Parse, streamsOf, readyOf.
  destruct (ProcessPacket now packet sr) as [sr' [[payload ready] flowKey]].
  cbn [fst snd]. destruct ready; cbn [negb]; [|by exists None].
  fold (layersInfo packet).
  assert (Timestamp (layersInfo packet) = pkt_Timestamp packet /\
          Length (layersInfo packet) = pkt_Length packet /\
          RawData (layersInfo packet) = pkt_Data packet /\
          (SrcIP (layersInfo packet), DstIP (layersInfo packet)) =
            default (EmptyString, EmptyString) (pkt_NetworkLayer packet))
    as (L1 & L2 & L3 & L4).
  { unfold layersInfo, parseTransportLayer, parseNetworkLayer.
    by destruct (pkt_NetworkLayer packet) as [[src dst]|], (pkt_TCP packet) as [tcp|],
      (pkt_UDP packet) as [udp|]. }
  assert (exists parsed,
            (if len payload >? 0
             then parseApplicationLayerWithPayload (set_Payload payload (layersInfo packet))
             else parseApplicationLayer packet (layersInfo packet)) = Ok parsed /\
            Timestamp parsed = Timestamp (layersInfo packet) /\
            Length parsed = Length (layersInfo packet) /\
            RawData parsed = RawData (layersInfo packet) /\
            SrcIP parsed = SrcIP (layersInfo packet) /\
            DstIP parsed = DstIP (layersInfo packet))
    as (parsed & -> & P1 & P2 & P3 & P4 & P5).
  { destruct (len payload >? 0).
    - destruct (parseApplicationLayerWithPayload_base
                  (set_Payload payload (layersInfo packet))) as (parsed & H1 & H2 & _).
      exists parsed. split; [done|]. rewrite H2. by destruct (layersInfo packet).
    - destruct (parseApplicationLayer_base packet (layersInfo packet))
        as (parsed & H1 & Q1 & Q2 & Q3 & Q4 & Q5 & _).
      by exists parsed. }
  cbn [bind]. eexists. split; [reflexivity|]. split; [done|].
  intros info [= <-].
  destruct (determineDirection_ends parsed) as (D1 & D2 & D3).
  assert (Timestamp (determineDirection parsed) = Timestamp parsed /\
          Length (determineDirection parsed) = Length parsed /\
          RawData (determineDirection parsed) = RawData parsed /\
          SrcIP (determineDirection parsed) = SrcIP parsed /\
          DstIP (determineDirection parsed) = DstIP parsed) as (E1 & E2 & E3 & E4 & E5).
  { rewrite D3. by destruct parsed. }
  rewrite E1, E2, E3, E4, E5, P1, P2, P3, P4, P5. done.
Qed.

Lemma Parse_total_witness :
  exists info,
    (Parse 0 (segment "192.168.1.5" "1.2.3.4" "50000" "443(https)" 1 exampleClientHello)
       NewStreamReassembler).2 = Ok (Some info) /\
    Direction info = "send"%string /\ RemoteIP info = "1.2.3.4"%string.
Proof.
  destruct (Parse_total 0
              (segment "192.168.1.5" "1.2.3.4" "50000" "443(https)" 1 exampleClientHello)
              NewStreamReassembler) as ([info|] & H1 & H2 & H3).
  - exists info. rewrite H1. split; [reflexivity|].
    vm_compute in H1. injection H1 as <-. split; reflexivity.
  - exfalso. destruct H2 as [H2 _]. specialize (H2 eq_refl).
    vm_compute in H2. discriminate H2.
Defined.

(** X17. What [Parse] returns for a packet with a TCP layer is built on
    the unit the reassembler handed out, not on the segment: its payload is
    that unit, of 5 bytes or more, and it is marked TLS exactly when the
    unit passes the TLS handshake test.  Such a packet goes through the
    path for a handed-back payload only: no DNS field is ever set for it,
    whatever its ports, and its application protocol stays empty. *)
Theorem Parse_tcp (now : Z) (packet : Packet) (tcp : TCP) (sr : Streams)
    (info : PacketInfo) :
  pkt_TCP packet = Some tcp ->
  (Parse now packet sr).2 = Ok (Some info) ->
  Payload info = payloadOf (ProcessPacket now packet sr) /\
  5 <= len (Payload info) /\
  IsTLS info = isTLSHandshake (Payload info) /\
  Protocol info = "TCP"%string /\
  SequenceNum info = tcp_Seq tcp /\
  AppProtocol info = EmptyString /\
  noDNS info.
Proof.
  intros Htcp Hparse.
  pose proof (ProcessPacket_tcp_ready now packet tcp sr Htcp) as Hlen.
  unfold Parse, readyOf, payloadOf in *.
  destruct (ProcessPacket now packet sr) as [sr' [[payload ready] flowKey]].
  cbn [fst snd] in *. destruct ready; cbn [negb] in Hparse; [|discriminate].
  specialize (Hlen eq_refl). fold (layersInfo packet) in Hparse.
  destruct (len payload >? 0) eqn:E; zbool; [|lia].
  destruct (parseApplicationLayerWithPayload_base
              (set_Payload payload (layersInfo packet))) as (parsed & H1 & H2 & H3).
  rewrite H1 in Hparse. cbn [bind] in Hparse. injection Hparse as <-.
  destruct (determineDirection_ends parsed) as (_ & _ & D3).
  assert (Payload (set_Payload payload (layersInfo packet)) = payload) as Hp
    by (by destruct (layersInfo packet)).
  rewrite Hp in H3. specialize (H3 ltac:(lia)).
  assert (IsTLS (set_Payload payload (layersInfo packet)) = false /\
          Protocol (set_Payload payload (layersInfo packet)) = "TCP"%string /\
          SequenceNum (set_Payload payload (layersInfo packet)) = tcp_Seq tcp /\
          AppProtocol (set_Payload payload (layersInfo packet)) = EmptyString /\
          noDNS (set_Payload payload (layersInfo packet)))
    as (B1 & B2 & B3 & B4 & B5).
  { unfold layersInfo, parseTransportLayer, parseNetworkLayer, noDNS. rewrite Htcp.
    by destruct (pkt_NetworkLayer packet) as [[src dst]|]. }
  rewrite B1 in H3. cbn [orb] in H3.
  set (base := set_Payload payload (layersInfo packet)) in *. clearbody base.
  assert (Payload (determineDirection parsed) = Payload base /\
          IsTLS (determineDirection parsed) = IsTLS parsed /\
          Protocol (determineDirection parsed) = Protocol base /\
          SequenceNum (determineDirection parsed) = SequenceNum base /\
          AppProtocol (determineDirection parsed) = AppProtocol base /\
          IsDNS (determineDirection parsed) = IsDNS base /\
          DNSQueryName (determineDirection parsed) = DNSQueryName base /\
          DNSResponseIPs (determineDirection parsed) = DNSResponseIPs base)
    as (F1 & F2 & F3 & F4 & F5 & F6 & F7 & F8).
  { rewrite D3. rewrite H2. by destruct base. }
  destruct B5 as (N1 & N2 & N3). unfold noDNS.
  rewrite F1, F2, F3, F4, F5, F6, F7, F8, Hp, H3, B2, B3, B4, N1, N2, N3.
  repeat split; try done.
Qed.

Lemma Parse_tcp_witness :
  exists info,
    (Parse 0 (segment "192.168.1.5" "1.2.3.4" "50000" "53(domain)" 1 exampleClientHello)
       NewStreamReassembler).2 = Ok (Some info) /\
    IsDNS info = false /\ Payload info = exampleClientHello.
Proof.
  destruct (Parse 0 (segment "192.168.1.5" "1.2.3.4" "50000" "53(domain)" 1
                       exampleClientHello) NewStreamReassembler).2
    as [[info|]| |] eqn:E; try (vm_compute in E; discriminate E).
  exists info. split; [reflexivity|].
  destruct (Parse_tcp 0
              (segment "192.168.1.5" "1.2.3.4" "50000" "53(domain)" 1 exampleClientHello)
              (mkTCP "50000" "53(domain)" 1 0 false true false false true false
                 exampleClientHello)
              NewStreamReassembler info eq_refl E)
    as (H1 & _ & _ & _ & _ & _ & H2 & _).
  split; [exact H2|]. rewrite H1. vm_compute. reflexivity.
Defined.

(** ** The process monitor: byte order *)

Lemma ntohs_bytes (hi lo : byte) :
  ntohs (byteVal hi * 256 + byteVal lo) = byteVal lo * 256 + byteVal hi.
Proof.
  revert lo. revert hi.
  assert (forall hi, forallb (fun lo =>
            ntohs (byteVal hi * 256 + byteVal lo) =? byteVal lo * 256 + byteVal hi)
            allBytes = true) as H.
  { apply (forall_byte (fun hi => forallb (fun lo =>
             ntohs (byteVal hi * 256 + byteVal lo) =? byteVal lo * 256 + byteVal hi)
             allBytes)).
    vm_compute. reflexivity. }
  intros hi lo. apply Z.eqb_eq.
  apply (forall_byte (fun lo =>
           ntohs (byteVal hi * 256 + byteVal lo) =? byteVal lo * 256 + byteVal hi)), H.
Qed.

Lemma split_port (port : Z) :
  0 <= port < 65536 ->
  port = byteVal (byteOf (port / 256)) * 256 + byteVal (byteOf port).
Proof.
  intros H. rewrite !byteVal_byteOf.
  rewrite (Z.mod_small (port / 256)).
  - pose proof (Z.div_mod port 256). lia.
  - split; [apply Z.div_pos; lia | apply Z.div_lt_upper_bound; lia].
Qed.

(** X18. [ntohs] swaps the two bytes of a 16-bit port number, so it stays
    within 16 bits and undoes itself; [intToIP] renders a 32-bit address
    with its lowest byte first, the order in which the connection table
    holds an address. *)
Theorem byte_order_helpers :
  (forall hi lo : byte,
     ntohs (byteVal hi * 256 + byteVal lo) = byteVal lo * 256 + byteVal hi) /\
  (forall port : Z, 0 <= port < 65536 ->
     0 <= ntohs port < 65536 /\ ntohs (ntohs port) = port) /\
  (forall a b c d : byte,
     intToIP (byteVal a + 256 * byteVal b + 65536 * byteVal c + 16777216 * byteVal d) =
       ipv4String a b c d).
Proof.
  split; [apply ntohs_bytes|]. split.
  - intros port Hport. pose proof (split_port port Hport) as Hsplit.
    set (hi := byteOf (port / 256)) in Hsplit. set (lo := byteOf port) in Hsplit.
    clearbody hi lo. subst port. rewrite !ntohs_bytes.
    pose proof (byteVal_range hi). pose proof (byteVal_range lo). lia.
  - intros a b c d.
    pose proof (byteVal_range a). pose proof (byteVal_range b).
    pose proof (byteVal_range c). pose proof (byteVal_range d).
    unfold intToIP. rewrite !Z.shiftr_div_pow2 by lia.
    change (2 ^ 8) with 256. change (2 ^ 16) with 65536. change (2 ^ 24) with 16777216.
    set (v := byteVal a + 256 * byteVal b + 65536 * byteVal c + 16777216 * byteVal d).
    assert (v mod 256 = byteVal a) as Ha.
    { symmetry. apply (Z.mod_unique _ _ (byteVal b + 256 * byteVal c + 65536 * byteVal d));
        [lia | unfold v; lia]. }
    assert (v / 256 = byteVal b + 256 * byteVal c + 65536 * byteVal d) as Hb.
    { symmetry. apply (Z.div_unique _ _ _ (byteVal a)); [lia | unfold v; lia]. }
    assert (v / 65536 = byteVal c + 256 * byteVal d) as Hc.
    { symmetry. apply (Z.div_unique _ _ _ (byteVal a + 256 * byteVal b));
        [lia | unfold v; lia]. }
    assert (v / 16777216 = byteVal d) as Hd.
    { symmetry.
      apply (Z.div_unique _ _ _ (byteVal a + 256 * byteVal b + 65536 * byteVal c));
        [lia | unfold v; lia]. }
    f_equal; apply byteVal_inj; rewrite byteVal_byteOf.
    + done.
    + rewrite Hb. symmetry.
      apply (Z.mod_unique _ _ (byteVal c + 256 * byteVal d)); lia.
    + rewrite Hc. symmetry. apply (Z.mod_unique _ _ (byteVal d)); lia.
    + rewrite Hd. apply Z.mod_small. lia.
Qed.

Lemma byte_order_helpers_witness : ntohs (ntohs 443) = 443.
Proof.
  destruct byte_order_helpers as (_ & H & _). apply H. lia.
Defined.

(** ** The capture loop *)

Lemma Parse_buffering (now : Z) (packet : Packet) (sr : Streams) :
  readyOf (ProcessPacket now packet sr) = false ->
  Parse now packet sr = (streamsOf (ProcessPacket now packet sr), Ok None).
Proof.
  unfold Parse, readyOf, streamsOf.
  destruct (ProcessPacket now packet sr) as [sr' [[payload ready] flowKey]].
  cbn [fst snd]. by intros ->.
Qed.

(** [Parse] on a packet for which the reassembler hands out bytes. *)
Lemma Parse_handed_back (now : Z) (packet : Packet) (sr sr' : Streams)
    (payload : list byte) (flowKey : FlowKey) :
  ProcessPacket now packet sr = (sr', (payload, true, flowKey)) ->
  0 < len payload ->
  exists info,
    Parse now packet sr = (sr', Ok (Some info)) /\
    Payload info = payload /\
    Length info = pkt_Length packet /\
    Timestamp info = pkt_Timestamp packet /\
    (SrcIP info, DstIP info) =
      default (EmptyString, EmptyString) (pkt_NetworkLayer packet).
Proof.
  intros Hpp Hlen. unfold Parse. rewrite Hpp. cbn [negb].
  fold (layersInfo packet).
  destruct (len payload >? 0) eqn:E; zbool; [|lia].
  destruct (parseApplicationLayerWithPayload_base
              (set_Payload payload (layersInfo packet))) as (parsed & -> & H2 & _).
  cbn [bind]. eexists. split; [reflexivity|].
  destruct (determineDirection_ends parsed) as (_ & _ & D3).
  assert (Payload (determineDirection parsed) = payload /\
          Length (determineDirection parsed) = Length (layersInfo packet) /\
          Timestamp (determineDirection parsed) = Timestamp (layersInfo packet) /\
          SrcIP (determineDirection parsed) = SrcIP (layersInfo packet) /\
          DstIP (determineDirection parsed) = DstIP (layersInfo packet))
    as (F1 & F2 & F3 & F4 & F5).
  { rewrite D3, H2. by destruct (layersInfo packet). }
  rewrite F1, F2, F3, F4, F5.
  unfold layersInfo, parseTransportLayer, parseNetworkLayer.
  by destruct (pkt_NetworkLayer packet) as [[src dst]|], (pkt_TCP packet) as [tcp|],
    (pkt_UDP packet) as [udp|].
Qed.

Lemma Parse_Ok (now : Z) (packet : Packet) (sr : Streams) :
  exists r, Parse now packet sr = (streamsOf (ProcessPacket now packet sr), Ok r).
Proof.
  destruct (readyOf (ProcessPacket now packet sr)) eqn:Hready.
  - unfold Parse, readyOf, streamsOf in *.
    destruct (ProcessPacket now packet sr) as [sr' [[payload ready] flowKey]].
    cbn [fst snd] in *. subst ready. cbn [negb]. fold (layersInfo packet).
    destruct (len payload >? 0).
    + destruct (parseApplicationLayerWithPayload_base
                  (set_Payload payload (layersInfo packet))) as (parsed & -> & _).
      by eexists.
    + destruct (parseApplicationLayer_base packet (layersInfo packet))
        as (parsed & -> & _).
      by eexists.
  - exists None. by apply Parse_buffering.
Qed.

(** One turn of the loop comes back; it counts the packet, and stores at
    most one decoded packet. *)
Lemma capturePacket_Ok (EqualFold : string -> string -> bool) (filter : ProcessFilter)
    (now : Z) (packet : Packet) (processInfo : option (string * Z)) (st : Capture) :
  exists st',
    capturePacket EqualFold filter now packet processInfo st = Ok st' /\
    cap_parser st' = streamsOf (ProcessPacket now packet (cap_parser st)) /\
    cap_packetCount st' = int64 (cap_packetCount st + 1) /\
    ((cap_dataStore st' = cap_dataStore st /\
      cap_filteredCount st' = cap_filteredCount st) \/
     (exists info,
        cap_dataStore st' = Store info (cap_dataStore st) /\
        cap_filteredCount st' = int64 (cap_filteredCount st + 1))).
Proof.
  unfold capturePacket.
  destruct (Parse_Ok now packet (cap_parser st)) as [r ->]. cbn [bind].
  destruct r as [info|]; [|eexists; split; [reflexivity|]; cbn; tauto].
  destruct (shouldDisplay _ _ _); eexists; (split; [reflexivity|]); cbn;
    (split; [done|]); (split; [done|]); [right; by eexists | by left].
Qed.

Lemma len_displayed (EqualFold : string -> string -> bool) (filter : ProcessFilter)
    (inputs : list (Z * Packet * option (string * Z))) :
  forall sr : Streams, len (displayed EqualFold filter inputs sr) <= len inputs.
Proof.
  assert (forall sr, len (decodedPackets inputs sr) <= len inputs) as Hdec.
  { induction inputs as [|[[now packet] processInfo] inputs IH]; intros sr; [done|].
    cbn [decodedPackets].
    destruct (Parse now packet sr) as [sr' [[info|]| |]];
      rewrite ?len_cons; specialize (IH sr'); lia. }
  intros sr. specialize (Hdec sr). unfold displayed.
  assert (len (List.filter (shouldDisplay EqualFold filter) (decodedPackets inputs sr))
          <= len (decodedPackets inputs sr)); [|lia].
  unfold len. apply inj_le, List.filter_length_le.
Qed.

(** The loop from any state: it stores the displayed packets, in order,
    and counts them. *)
Lemma capturePackets_displayed (EqualFold : string -> string -> bool)
    (filter : ProcessFilter) (inputs : list (Z * Packet * option (string * Z))) :
  forall st : Capture,
    0 <= cap_filteredCount st ->
    0 <= cap_packetCount st ->
    cap_filteredCount st + len inputs < 2 ^ 63 ->
    cap_packetCount st + len inputs < 2 ^ 63 ->
    exists st',
      capturePackets EqualFold filter inputs st = Ok st' /\
      cap_parser st' = run (arrivalsOf inputs) (cap_parser st) /\
      cap_dataStore st' =
        StoreAll (displayed EqualFold filter inputs (cap_parser st)) (cap_dataStore st) /\
      cap_filteredCount st' =
        cap_filteredCount st + len (displayed EqualFold filter inputs (cap_parser st)) /\
      cap_packetCount st' = cap_packetCount st + len inputs.
Proof.
  induction inputs as [|[[now packet] processInfo] inputs IH];
    intros st Hf0 Hp0 Hf Hp.
  - exists st. cbn. change (len []) with 0. repeat split; try done; lia.
  - rewrite len_cons in Hf, Hp. pose proof (len_nonneg inputs) as Hn.
    cbn [capturePackets]. unfold displayed. cbn [decodedPackets].
    unfold capturePacket.
    destruct (Parse_Ok now packet (cap_parser st)) as [r Hparse].
    rewrite Hparse. cbn [bind].
    set (sr1 := streamsOf (ProcessPacket now packet (cap_parser st))).
    fold (withProcess processInfo).
    assert (run (arrivalsOf ((now, packet, processInfo) :: inputs)) (cap_parser st)
            = run (arrivalsOf inputs) sr1) as Hrun by reflexivity.
    rewrite Hrun. rewrite !int64_small by lia.
    destruct r as [info|].
    + fold (withProcess processInfo info). cbn [List.filter].
      destruct (shouldDisplay EqualFold filter (withProcess processInfo info)).
      * destruct (IH (mkCapture sr1 (Store (withProcess processInfo info) (cap_dataStore st))
                        (cap_packetCount st + 1) (cap_filteredCount st + 1)))
          as (st' & H1 & H2 & H3 & H4 & H5); cbn; try lia.
        exists st'. cbn in H2, H3, H4, H5. fold (displayed EqualFold filter inputs sr1).
        split; [done|]. split; [done|]. split; [done|].
        rewrite !len_cons. split; lia.
      * destruct (IH (mkCapture sr1 (cap_dataStore st) (cap_packetCount st + 1)
                        (cap_filteredCount st)))
          as (st' & H1 & H2 & H3 & H4 & H5); cbn; try lia.
        exists st'. cbn in H2, H3, H4, H5. fold (displayed EqualFold filter inputs sr1).
        split; [done|]. split; [done|]. split; [done|]. rewrite !len_cons. split; lia.
    + destruct (IH (mkCapture sr1 (cap_dataStore st) (cap_packetCount st + 1)
                      (cap_filteredCount st)))
        as (st' & H1 & H2 & H3 & H4 & H5); cbn; try lia.
      exists st'. cbn in H2, H3, H4, H5. fold (displayed EqualFold filter inputs sr1).
      split; [done|]. split; [done|]. split; [done|]. rewrite !len_cons. split; lia.
Qed.



(** ** The capture loop: a record in several segments *)

Lemma capturePacket_buffering (EqualFold : string -> string -> bool)
    (filter : ProcessFilter) (now : Z) (packet : Packet)
    (processInfo : option (string * Z)) (st : Capture) :
  readyOf (ProcessPacket now packet (cap_parser st)) = false ->
  capturePacket EqualFold filter now packet processInfo st =
    Ok (mkCapture (streamsOf (ProcessPacket now packet (cap_parser st)))
          (cap_dataStore st) (int64 (cap_packetCount st + 1)) (cap_filteredCount st)).
Proof.
  intros Hready. unfold capturePacket. by rewrite (Parse_buffering _ _ _ Hready).
Qed.

Lemma capturePacket_handed_back (EqualFold : string -> string -> bool) (now : Z)
    (packet : Packet) (st : Capture) (sr' : Streams) (payload : list byte)
    (flowKey : FlowKey) :
  ProcessPacket now packet (cap_parser st) = (sr', (payload, true, flowKey)) ->
  0 < len payload ->
  exists info,
    capturePacket EqualFold noFilter now packet None st =
      Ok (mkCapture sr' (Store info (cap_dataStore st)) (int64 (cap_packetCount st + 1))
            (int64 (cap_filteredCount st + 1))) /\
    Payload info = payload /\
    Length info = pkt_Length packet /\
    Timestamp info = pkt_Timestamp packet /\
    (SrcIP info, DstIP info) =
      default (EmptyString, EmptyString) (pkt_NetworkLayer packet).
Proof.
  intros Hpp Hlen.
  destruct (Parse_handed_back _ _ _ _ _ _ Hpp Hlen) as (info & Hparse & Hinfo).
  exists info. split; [|done]. unfold capturePacket. by rewrite Hparse.
Qed.

(** The entry after an in-order segment, for a flow without entry or with
    an initialized one. *)
Lemma touchedStream_continues (now : Z) (tcp : TCP) (flowKey : FlowKey) (sr : Streams)
    (part : list byte) (last : Z) :
  (sr !! flowKey = None /\ part = []) \/
  sr !! flowKey = Some (mkStreamBuffer part last (tcp_Seq tcp) true) ->
  len part + len (tcp_Payload tcp) <= MaxBufferSize ->
  touchedStream now tcp flowKey sr =
    mkStreamBuffer (part ++ tcp_Payload tcp) now
      (uint32 (tcp_Seq tcp + len (tcp_Payload tcp))) true.
Proof.
  intros [[Hsr ->] | Hsr] Hmax.
  - by rewrite (touchedStream_fresh _ _ _ _ Hsr).
  - rewrite (touchedStream_existing _ _ _ _ _ Hsr). by rewrite updateStream_in_order.
Qed.

Lemma capturePackets_segments (EqualFold : string -> string -> bool)
    (srcIP dstIP srcPort dstPort : string) (final : list byte)
    (chunks : list (list byte)) :
  forall (part : list byte) (seq last : Z) (arrivals : list (Z * Packet)) (st : Capture),
    let flowKey := mkFlowKey srcIP dstIP srcPort dstPort "TCP" in
    (cap_parser st !! flowKey = None /\ part = []) \/
    cap_parser st !! flowKey = Some (mkStreamBuffer part last seq true) ->
    head (part ++ concat (chunks ++ [final])) = Some x16 ->
    len (part ++ concat (chunks ++ [final])) =
      5 + declaredLen (part ++ concat (chunks ++ [final])) ->
    len (part ++ concat (chunks ++ [final])) <= MaxBufferSize ->
    Forall (fun chunk => chunk <> []) (chunks ++ [final]) ->
    map snd arrivals = segments srcIP dstIP srcPort dstPort seq (chunks ++ [final]) ->
    exists info,
      capturePackets EqualFold noFilter (unmonitored arrivals) st =
        Ok (mkCapture (delete flowKey (cap_parser st)) (Store info (cap_dataStore st))
              (int64 (cap_packetCount st + len arrivals))
              (int64 (cap_filteredCount st + 1))) /\
      Payload info = part ++ concat (chunks ++ [final]) /\
      Length info = 54 + len final /\
      Timestamp info = 0 /\
      SrcIP info = srcIP /\ DstIP info = dstIP.
Proof.
  induction chunks as [|chunk chunks IH];
    intros part seq last arrivals st flowKey Hsr Hh Hl Hmax Hall Harr.
  - cbn [app concat] in *. rewrite app_nil_r in *.
    apply Forall_cons in Hall as [Hfinal _].
    destruct arrivals as [|[now packet] [|? ?]]; try done.
    cbn [map segments snd] in Harr. injection Harr as ->.
    cbn [unmonitored map capturePackets fst snd].
    pose proof (ProcessPacket_segment now srcIP dstIP srcPort dstPort seq final
                  (cap_parser st) Hfinal) as Hpp.
    cbv zeta in Hpp. fold flowKey in Hpp.
    rewrite (touchedStream_continues now _ flowKey (cap_parser st) part last) in Hpp;
      [|exact Hsr|rewrite len_app in Hmax; exact Hmax].
    cbn [sb_Buffer tcp_Payload] in Hpp. rewrite (peekTLSRecord_exact _ Hh Hl) in Hpp.
    cbn [fst snd] in Hpp.
    destruct (capturePacket_handed_back EqualFold now _ st _ _ _ Hpp)
      as (info & -> & H1 & H2 & H3 & H4).
    { rewrite Hl. pose proof (declaredLen_nonneg (part ++ final)). lia. }
    cbn [bind]. exists info. change (len [(now, _)]) with 1.
    split; [done|]. split; [done|]. split; [done|]. split; [done|].
    cbn in H4. by injection H4.
  - cbn [app] in Hall, Harr. apply Forall_cons in Hall as [Hchunk Hall].
    destruct arrivals as [|[now packet] arrivals]; [done|].
    cbn [segments map snd] in Harr. injection Harr as -> Harr.
    cbn [unmonitored map capturePackets fst snd].
    assert (concat (chunks ++ [final]) <> []) as Hrest.
    { apply concat_not_nil; [by destruct chunks | done]. }
    cbn [app concat] in Hh, Hl, Hmax. rewrite app_assoc in Hh, Hl, Hmax.
    pose proof (ProcessPacket_segment now srcIP dstIP srcPort dstPort seq chunk
                  (cap_parser st) Hchunk) as Hpp.
    cbv zeta in Hpp. fold flowKey in Hpp.
    rewrite (touchedStream_continues now _ flowKey (cap_parser st) part last) in Hpp;
      [|exact Hsr
       |pose proof (len_nonneg (concat (chunks ++ [final])));
        cbn [tcp_Payload]; rewrite !len_app in Hmax; lia].
    cbn [sb_Buffer tcp_Payload tcp_Seq] in Hpp.
    rewrite (peekTLSRecord_partial _ _ Hh Hl Hrest) in Hpp. cbn [fst snd] in Hpp.
    rewrite capturePacket_buffering by (by rewrite Hpp).
    rewrite Hpp. unfold streamsOf. cbn [fst bind].
    fold (unmonitored arrivals).
    destruct (IH (part ++ chunk) (uint32 (seq + len chunk)) now arrivals
                (mkCapture (<[flowKey := mkStreamBuffer (part ++ chunk) now
                                            (uint32 (seq + len chunk)) true]>
                              (cap_parser st))
                   (cap_dataStore st) (int64 (cap_packetCount st + 1))
                   (cap_filteredCount st)))
      as (info & -> & H1 & H2 & H3 & H4 & H5); try done.
    { right. cbn [cap_parser]. by rewrite lookup_insert_eq. }
    exists info. cbn [cap_parser cap_dataStore cap_packetCount cap_filteredCount].
    rewrite delete_insert_eq, int64_add_l, len_cons.
    split; [by rewrite Z.add_assoc|]. split; [by rewrite H1, <- app_assoc|]. done.
Qed.



(** ** The reassembler: traffic that is not TLS *)

(** X21. TCP segments of 5 bytes or more that do not start with 0x16, of
    flows without entry, pass through the reassembler one by one: each call
    hands out the segment's own payload at once and the map is left as it
    was, so nothing of such traffic is ever buffered or joined. *)
Theorem plain_segments_pass_through (arrivals : list (Z * Packet)) (sr : Streams) :
  Forall (fun arrival => plainSegment sr arrival.2) arrivals ->
  ProcessPackets arrivals sr =
    (sr, map (fun arrival => (tcpPayload arrival.2, true)) arrivals).
Proof.
  induction 1 as [|[now packet] arrivals (tcp & Htcp & Hlen & Hh & Hsr) _ IH]; [done|].
  cbn [snd] in Htcp, Hsr. cbn [ProcessPackets map snd].
  assert (tcp_Payload tcp <> []) as Hpay.
  { intros E. rewrite E in Hlen. change (len []) with 0 in Hlen. lia. }
  rewrite (ProcessPacket_payload now packet tcp sr Htcp Hpay).
  rewrite (touchedStream_fresh _ _ _ _ Hsr). unfold firstStream. cbn [sb_Buffer].
  rewrite (peekTLSRecord_other _ Hh).
  destruct (len (tcp_Payload tcp) <? 5) eqn:E; zbool; [lia|].
  cbn [fst snd]. unfold streamsOf, payloadOf, readyOf. cbn [fst snd].
  rewrite delete_id by done. rewrite IH. cbn [fst snd].
  unfold tcpPayload. by rewrite Htcp.
Qed.

Lemma plain_segments_pass_through_witness :
  ProcessPackets
    [(1, segment "10.0.0.1" "1.2.3.4" "50000" "80(http)" 1 [x47; x45; x54; x20; x2f]);
     (2, segment "10.0.0.1" "1.2.3.4" "50000" "80(http)" 6 [x48; x54; x54; x50; x2f])]
    NewStreamReassembler =
  (NewStreamReassembler,
   [([x47; x45; x54; x20; x2f], true); ([x48; x54; x54; x50; x2f], true)]).
Proof.
  apply (plain_segments_pass_through
    [(1, segment "10.0.0.1" "1.2.3.4" "50000" "80(http)" 1 [x47; x45; x54; x20; x2f]);
     (2, segment "10.0.0.1" "1.2.3.4" "50000" "80(http)" 6 [x48; x54; x54; x50; x2f])]).
  repeat constructor; eexists; (split; [reflexivity|]);
    (split; [vm_compute; discriminate|]); (split; [discriminate | reflexivity]).
Defined.

(** ** The store: one call *)

Lemma correlateAll_untouched (name : string) (ips : list string) (ds : DataStore)
    (ip : string) :
  ip ∉ ips ->
  ds_stats (fold_left (correlateDNS name) ips ds) !! ip = ds_stats ds !! ip /\
  ds_dnsCache (fold_left (correlateDNS name) ips ds) !! ip = ds_dnsCache ds !! ip.
Proof.
  revert ds. induction ips as [|responseIP ips IH]; intros ds Hin; [done|].
  apply not_elem_of_cons in Hin as [Hne Hin]. cbn [fold_left].
  destruct (IH (correlateDNS name ds responseIP) Hin) as [-> ->].
  by rewrite correlateDNS_stats, correlateDNS_cache, !decide_False.
Qed.

(** X22. One call of [Store] for a packet changes, beside the entry of
    the packet's remote address, only what its DNS answers name: the entry
    and the cache list of any other address stay as they were unless the
    packet is a DNS response resolving a name to that address, and even
    then the entry keeps every field but the DNS-name table.  No entry is
    ever removed, and none is made for an address other than the remote
    address. *)
Theorem Store_frame (info : PacketInfo) (ds : DataStore) (ip : string) :
  ip <> RemoteIP info ->
  (~ resolves info (DNSQueryName info) ip ->
     GetStatsForIP ip (Store info ds) = GetStatsForIP ip ds /\
     ds_dnsCache (Store info ds) !! ip = ds_dnsCache ds !! ip) /\
  withoutDNSNames <$> GetStatsForIP ip (Store info ds) =
    withoutDNSNames <$> GetStatsForIP ip ds.
Proof.
  intros Hip. unfold GetStatsForIP. split.
  - intros Hres. unfold Store, resolves in *.
    destruct (String.eqb_spec (RemoteIP info) EmptyString) as [Hr|Hr]; [done|].
    destruct (IsDNS info) eqn:Hdns; cbn [andb];
      [|cbn [ds_stats ds_dnsCache]; by rewrite lookup_insert_ne].
    destruct (String.eqb_spec (DNSQueryName info) EmptyString) as [Hq|Hq]; cbn [negb andb];
      [cbn [ds_stats ds_dnsCache]; by rewrite lookup_insert_ne|].
    destruct (len (DNSResponseIPs info) >? 0);
      [|cbn [ds_stats ds_dnsCache]; by rewrite lookup_insert_ne].
    assert (ip ∉ DNSResponseIPs info) as Hin by tauto.
    destruct (correlateAll_untouched (DNSQueryName info) (DNSResponseIPs info)
                (mkDataStore (<[RemoteIP info := recordPacket info
                    match ds_stats ds !! RemoteIP info with
                    | Some stats => stats
                    | None => newRemoteIPStats info (ds_dnsCache ds)
                    end]> (ds_stats ds)) (ds_dnsCache ds)) ip Hin) as [-> ->].
    cbn [ds_stats ds_dnsCache]. by rewrite lookup_insert_ne.
  - destruct (decide (RemoteIP info = EmptyString)) as [Hr|Hr].
    + by rewrite (Store_no_remote _ _ Hr).
    + rewrite (Store_proj withoutDNSNames (fun _ _ => eq_refl) info ds ip Hr).
      by rewrite decide_False.
Qed.

Lemma Store_frame_witness :
  GetStatsForIP "93.184.216.34"
    (Store (dnsResponseInfo "8.8.8.8" "bad.example" ["1.2.3.4"])
       (Store (dataInfo "93.184.216.34") NewDataStore)) =
  GetStatsForIP "93.184.216.34" (Store (dataInfo "93.184.216.34") NewDataStore).
Proof.
  destruct (Store_frame (dnsResponseInfo "8.8.8.8" "bad.example" ["1.2.3.4"])
              (Store (dataInfo "93.184.216.34") NewDataStore) "93.184.216.34")
    as ((H & _) & _).
  - discriminate.
  - unfold resolves. cbn. intros (_ & _ & _ & _ & Hin).
    apply list_elem_of_singleton in Hin. discriminate Hin.
  - exact H.
Defined.
